(** * FinBot: ledger storage, aggregation and digest

    A shallow embedding of [src/A1.py] (a Telegram personal-finance bot on
    top of SQLite) and the properties of its ledger engine.

    Conventions of the embedding:
    - a Python [str] is the list of its Unicode code points;
    - a Python [float] / SQLite [REAL] is a binary64 number, held as the
      rational it is, or one of the two infinities or NaN; parsing and
      arithmetic round to the nearest binary64 number ([round64]);
    - the SQLite store is a record of tables (lists of rows) threaded
      through a state-and-exception monad; every statement of the source
      is committed at once, so the store survives a raised exception;
    - the wall clock ([datetime.now(UTC)]) is an explicit argument. *)

From Stdlib Require Import List ZArith NArith QArith Qround Qabs Bool Lia Lqa.
From Stdlib Require Import Ascii String DecimalString Permutation Sorted.
Import ListNotations.

Local Open Scope Z_scope.

(** ** Python strings *)

Module PyStr.

Definition pystr := list N.

(** An ASCII literal. *)
Definition lit (s : string) : pystr :=
  List.map N_of_ascii (list_ascii_of_string s).

Definition eqb (a b : pystr) : bool :=
  if list_eq_dec N.eq_dec a b then true else false.

(** Binary (code point) order, as SQLite's BINARY collation and Python's
    [<] on [str]. *)
Fixpoint compare (a b : pystr) : comparison :=
  match a, b with
  | [], [] => Eq
  | [], _ :: _ => Lt
  | _ :: _, [] => Gt
  | x :: a', y :: b' =>
      match N.compare x y with
      | Eq => compare a' b'
      | c => c
      end
  end.

Definition ltb (a b : pystr) : bool :=
  match compare a b with Lt => true | _ => false end.

Definition leb (a b : pystr) : bool :=
  match compare a b with Gt => false | _ => true end.

(** [str.isspace] for one code point: the Unicode white space characters
    that [str.split()] and [str.strip()] treat as separators. *)
Definition is_space (c : N) : bool :=
  (((9 <=? c) && (c <=? 13)) || ((28 <=? c) && (c <=? 32))
   || (c =? 133) || (c =? 160) || (c =? 5760)
   || ((8192 <=? c) && (c <=? 8202)) || (c =? 8232) || (c =? 8233)
   || (c =? 8239) || (c =? 8287) || (c =? 12288))%N.

(** [str.lower] on the Basic Latin, Latin-1, Greek and Cyrillic capital
    letters; every other code point is left as it is. *)
Definition lower_char (c : N) : N :=
  (if ((65 <=? c) && (c <=? 90)) then c + 32
   else if ((192 <=? c) && (c <=? 222) && negb (c =? 215)) then c + 32
   else if ((913 <=? c) && (c <=? 939) && negb (c =? 930)) then c + 32
   else if ((1040 <=? c) && (c <=? 1071)) then c + 32
   else if ((1024 <=? c) && (c <=? 1039)) then c + 80
   else c)%N.

Definition lower (s : pystr) : pystr := List.map lower_char s.

Fixpoint lstrip (s : pystr) : pystr :=
  match s with
  | c :: s' => if is_space c then lstrip s' else s
  | [] => []
  end.

Definition rstrip (s : pystr) : pystr := rev (lstrip (rev s)).

(** [s.strip()] *)
Definition strip (s : pystr) : pystr := rstrip (lstrip s).

(** [s.split()]: the maximal runs of non-space characters. *)
Fixpoint split (s : pystr) : list pystr :=
  match s with
  | [] => []
  | c :: s' =>
      if is_space c then split s'
      else match s' with
           | [] => [[c]]
           | d :: _ =>
               if is_space d then [c] :: split s'
               else match split s' with
                    | tok :: toks => (c :: tok) :: toks
                    | [] => [[c]]
                    end
           end
  end.

(** [sep.join(parts)] *)
Fixpoint join (sep : pystr) (parts : list pystr) : pystr :=
  match parts with
  | [] => []
  | [p] => p
  | p :: ps => p ++ sep ++ join sep ps
  end.

(** [s.replace(",", ".")] *)
Definition replace_comma (s : pystr) : pystr :=
  List.map (fun c => if (c =? 44)%N then 46%N else c) s.

(** [s[i:j]] for [0 <= i <= j]. *)
Definition slice (i j : nat) (s : pystr) : pystr := firstn (j - i) (skipn i s).

Definition is_digit (c : N) : bool := ((48 <=? c) && (c <=? 57))%N.

Definition digit_val (c : N) : Z := Z.of_N c - 48.

(** The decimal digits of a natural number, without padding. *)
Definition digits (n : N) : pystr := lit (NilZero.string_of_uint (N.to_uint n)).

(** [format(z, "0<w>d")]: sign, then digits zero-padded to width [w]. *)
Definition fmt_0d (w : nat) (z : Z) : pystr :=
  let ds := digits (Z.abs_N z) in
  if z <? 0 then 45%N :: repeat 48%N (w - 1 - List.length ds) ++ ds
  else repeat 48%N (w - List.length ds) ++ ds.

End PyStr.

Import PyStr.

(** ** Exceptions and the store monad's outcome *)

Inductive exn : Type :=
| ValueError
| IndexError
| TypeError
| OverflowError.

Inductive outcome (A : Type) : Type :=
| Ok (a : A)
| Raise (e : exn).

Arguments Ok {A} a.
Arguments Raise {A} e.

(** ** Python floats *)

Inductive pyfloat : Type :=
| Fin (q : Q)
| PInf
| NInf
| NaN.

Module PyFloat.

Definition neg (x : pyfloat) : pyfloat :=
  match x with
  | Fin q => Fin (- q)
  | PInf => NInf
  | NInf => PInf
  | NaN => NaN
  end.

Definition abs (x : pyfloat) : pyfloat :=
  match x with
  | Fin q => Fin (Qabs q)
  | PInf | NInf => PInf
  | NaN => NaN
  end.

(** The binary64 number nearest to a rational, ties to the even mantissa;
    past the largest binary64 number, an infinity. With [e] the exponent of
    the last place ([2^52 <= |q| / 2^e < 2^53], and [e >= -1074] for the
    subnormal numbers), the mantissa is [|q| / 2^e] rounded to an integer.
    A rational that is a binary64 number is returned as it is. *)
Definition round64 (q : Q) : pyfloat :=
  let n := Z.abs (Qnum q) in
  let d := Zpos (Qden q) in
  if n =? 0 then Fin q
  else
    let e0 := Z.log2 n - Z.log2 d - 52 in
    let scaled := if 0 <=? e0 then n / (d * 2 ^ e0) else (n * 2 ^ (- e0)) / d in
    let e := Z.max (if scaled <? 4503599627370496 then e0 - 1 else e0) (-1074) in
    let num := if 0 <=? e then n else n * 2 ^ (- e) in
    let den := if 0 <=? e then d * 2 ^ e else d in
    let fl := num / den in
    let r := num mod den in
    let m := if 2 * r <? den then fl
             else if den <? 2 * r then fl + 1
             else if Z.even fl then fl else fl + 1 in
    let overflow := (971 <? e) || ((e =? 971) && (m =? 9007199254740992)) in
    if overflow then (if Qnum q <? 0 then NInf else PInf)
    else if r =? 0 then Fin q
    else
      let v := if 0 <=? e then inject_Z (m * 2 ^ e)
               else Qred (m # Z.to_pos (2 ^ (- e))) in
      Fin (if Qnum q <? 0 then - v else v).

(** [x + y], rounded as every binary64 operation is. *)
Definition add (x y : pyfloat) : pyfloat :=
  match x, y with
  | NaN, _ | _, NaN => NaN
  | Fin p, Fin q => round64 (p + q)
  | PInf, NInf | NInf, PInf => NaN
  | PInf, _ | _, PInf => PInf
  | NInf, _ | _, NInf => NInf
  end.

(** [x <= y]; false as soon as one side is NaN. *)
Definition leb (x y : pyfloat) : bool :=
  match x, y with
  | NaN, _ | _, NaN => false
  | NInf, _ | _, PInf => true
  | Fin p, Fin q => Qle_bool p q
  | _, _ => false
  end.

(** [x < y] *)
Definition ltb (x y : pyfloat) : bool :=
  match x, y with
  | NaN, _ | _, NaN => false
  | Fin p, Fin q => negb (Qle_bool q p)
  | NInf, NInf | PInf, PInf => false
  | NInf, _ | _, PInf => true
  | _, _ => false
  end.

(** Equality of values ([Qeq] on the finite ones). *)
Definition eqv (x y : pyfloat) : Prop :=
  match x, y with
  | Fin p, Fin q => p == q
  | PInf, PInf | NInf, NInf | NaN, NaN => True
  | _, _ => False
  end.

Definition zero : pyfloat := Fin 0.

(** Rounding to [n/100], halves away from zero, as SQLite's [ROUND(x, 2)];
    the result is kept as the two-decimal number that [:.2f] prints. *)
Definition round2_Q (q : Q) : Q :=
  if Qle_bool 0 q then Qfloor (q * 100 + (1 # 2)) # 100
  else (- Qfloor ((- q) * 100 + (1 # 2))) # 100.

Definition round2 (x : pyfloat) : pyfloat :=
  match x with
  | Fin q => Fin (round2_Q q)
  | other => other
  end.

Definition of_Z (z : Z) : pyfloat := Fin (inject_Z z).

Definition sub (x y : pyfloat) : pyfloat := add x (neg y).

(** The sign of a value that is not NaN: [-1], [0] or [1]. *)
Definition sgn (x : pyfloat) : Z :=
  match x with
  | Fin q => Z.sgn (Qnum q)
  | PInf => 1
  | NInf => -1
  | NaN => 0
  end.

Definition signed_inf (s : Z) : pyfloat :=
  if s =? 0 then NaN else if 0 <? s then PInf else NInf.

Definition mul (x y : pyfloat) : pyfloat :=
  match x, y with
  | NaN, _ | _, NaN => NaN
  | Fin p, Fin q => round64 (p * q)
  | _, _ => signed_inf (sgn x * sgn y)
  end.

(** [x / y] for a divisor that is not zero. *)
Definition div (x y : pyfloat) : pyfloat :=
  match x, y with
  | NaN, _ | _, NaN => NaN
  | Fin p, Fin q => round64 (p / q)
  | Fin _, _ => zero
  | _, Fin _ => signed_inf (sgn x * sgn y)
  | _, _ => NaN
  end.

End PyFloat.

(** ** [float(s)] and [int(s)] *)

Module Parse.

(** A [digitpart]: digits, single underscores allowed between two digits.
    Returns the number read (on top of [acc]), how many digits were read
    (on top of [cnt]) and the rest of the input. *)
Fixpoint read_digits (s : pystr) (acc : Z) (cnt : nat) : Z * nat * pystr :=
  match s with
  | c :: s' =>
      if is_digit c then read_digits s' (acc * 10 + digit_val c) (S cnt)
      else if (c =? 95)%N && negb (Nat.eqb cnt 0) then
        match s' with
        | d :: _ => if is_digit d then read_digits s' acc cnt else (acc, cnt, s)
        | [] => (acc, cnt, s)
        end
      else (acc, cnt, s)
  | [] => (acc, cnt, s)
  end.

(** An optional sign; [true] when it is a minus. *)
Definition read_sign (s : pystr) : bool * pystr :=
  match s with
  | 43%N :: s' => (false, s')
  | 45%N :: s' => (true, s')
  | _ => (false, s)
  end.

(** [int(s)], base 10. *)
Definition py_int (s : pystr) : outcome Z :=
  let (minus, r) := read_sign (strip s) in
  match read_digits r 0 0 with
  | (n, S _, []) => Ok (if minus then - n else n)
  | _ => Raise ValueError
  end.

(** The value [m * 10^e]. *)
Definition scale10 (m e : Z) : Q :=
  if 0 <=? e then inject_Z (m * 10 ^ e) else m # Z.to_pos (10 ^ (- e)).

(** The exponent part [(e|E) [sign] digitpart], if there is one. *)
Definition read_exponent (s : pystr) : option (Z * pystr) :=
  match s with
  | c :: s' =>
      if (c =? 101)%N || (c =? 69)%N then
        let (minus, r) := read_sign s' in
        match read_digits r 0 0 with
        | (n, S _, rest) => Some (if minus then - n else n, rest)
        | _ => None
        end
      else Some (0, s)
  | [] => Some (0, s)
  end.

(** An unsigned decimal literal. *)
Definition read_decimal (s : pystr) : option Q :=
  match read_digits s 0 0 with
  | (ip, n1, r1) =>
      let '(m, n2, r2) :=
        match r1 with
        | 46%N :: r1' =>
            match read_digits r1' ip 0 with
            | (m, n2, r2) => (m, n2, r2)
            end
        | _ => (ip, 0%nat, r1)
        end in
      if Nat.eqb (n1 + n2) 0 then None
      else match read_exponent r2 with
           | Some (e, []) => Some (scale10 m (e - Z.of_nat n2))
           | _ => None
           end
  end.

(** [float(s)]: surrounding white space, a sign, then [inf], [infinity],
    [nan] (any case) or a decimal literal, read as the nearest binary64
    number. *)
Definition py_float (s : pystr) : outcome pyfloat :=
  let (minus, r) := read_sign (strip s) in
  let word := lower r in
  if PyStr.eqb word (lit "inf") || PyStr.eqb word (lit "infinity") then
    Ok (if minus then NInf else PInf)
  else if PyStr.eqb word (lit "nan") then Ok NaN
  else match read_decimal r with
       | Some q => Ok (PyFloat.round64 (if minus then - q else q))
       | None => Raise ValueError
       end.

End Parse.

Import Parse.

(** ** Dates and times (always UTC) *)

Record datetime : Type := mkDatetime {
  year : Z;
  month : Z;
  day : Z;
  hour : Z;
  minute : Z;
  second : Z;
  microsecond : Z
}.

Module Time.

Definition is_leap (y : Z) : bool :=
  ((y mod 4 =? 0) && negb (y mod 100 =? 0)) || (y mod 400 =? 0).

Definition days_in_month (y m : Z) : Z :=
  if m =? 2 then (if is_leap y then 29 else 28)
  else if (m =? 4) || (m =? 6) || (m =? 9) || (m =? 11) then 30
  else 31.

Definition MINYEAR : Z := 1.
Definition MAXYEAR : Z := 9999.

(** [datetime(y, m, d, tzinfo=UTC)] *)
Definition mk_date (y m d : Z) : outcome datetime :=
  if (MINYEAR <=? y) && (y <=? MAXYEAR) && (1 <=? m) && (m <=? 12)
     && (1 <=? d) && (d <=? days_in_month y m)
  then Ok (mkDatetime y m d 0 0 0 0)
  else Raise ValueError.

(** [d.replace(hour=0, minute=0, second=0, microsecond=0)] *)
Definition midnight (d : datetime) : datetime :=
  mkDatetime (year d) (month d) (day d) 0 0 0 0.

(** [d.replace(day=1, hour=0, minute=0, second=0, microsecond=0)] *)
Definition first_of_month (d : datetime) : datetime :=
  mkDatetime (year d) (month d) 1 0 0 0 0.

(** [d - timedelta(days=1)] *)
Definition minus_one_day (d : datetime) : outcome datetime :=
  let at_day y m dd :=
    mkDatetime y m dd (hour d) (minute d) (second d) (microsecond d) in
  if 1 <? day d then Ok (at_day (year d) (month d) (day d - 1))
  else if 1 <? month d then
    Ok (at_day (year d) (month d - 1) (days_in_month (year d) (month d - 1)))
  else if MINYEAR <? year d then Ok (at_day (year d - 1) 12 31)
  else Raise OverflowError.

(** [iso_utc d]: [d.isoformat()] with the offset ["+00:00"] replaced by
    ["Z"]; the fraction is printed only when it is not zero. *)
Definition iso_utc (d : datetime) : pystr :=
  fmt_0d 4 (year d) ++ lit "-" ++ fmt_0d 2 (month d) ++ lit "-"
  ++ fmt_0d 2 (day d) ++ lit "T" ++ fmt_0d 2 (hour d) ++ lit ":"
  ++ fmt_0d 2 (minute d) ++ lit ":" ++ fmt_0d 2 (second d)
  ++ (if microsecond d =? 0 then [] else lit "." ++ fmt_0d 6 (microsecond d))
  ++ lit "Z".

(** [d.strftime("%Y-%m")] *)
Definition strftime_Ym (d : datetime) : pystr :=
  fmt_0d 4 (year d) ++ lit "-" ++ fmt_0d 2 (month d).

(** SQLite's [datetime('now')]. *)
Definition sqlite_datetime (d : datetime) : pystr :=
  fmt_0d 4 (year d) ++ lit "-" ++ fmt_0d 2 (month d) ++ lit "-"
  ++ fmt_0d 2 (day d) ++ lit " " ++ fmt_0d 2 (hour d) ++ lit ":"
  ++ fmt_0d 2 (minute d) ++ lit ":" ++ fmt_0d 2 (second d).

End Time.

Import Time.

(** ** The store *)

Inductive ttype : Type :=
| expense
| income.

Definition ttype_eqb (a b : ttype) : bool :=
  match a, b with
  | expense, expense | income, income => true
  | _, _ => false
  end.

Record user : Type := mkUser {
  u_id : Z;
  u_currency : pystr;
  u_digest_hour_utc : option Z;
  u_created_at : pystr
}.

Record category : Type := mkCategory {
  c_id : Z;
  c_user_id : Z;
  c_name : pystr;
  c_type : ttype
}.

(** A [REAL] column holds NULL ([None]) or a number that is not NaN. *)
Record txn : Type := mkTxn {
  t_id : Z;
  t_user_id : Z;
  t_amount : option pyfloat;
  t_category_id : Z;
  t_ts : pystr;
  t_note : pystr;
  t_type : ttype
}.

Record budget : Type := mkBudget {
  b_id : Z;
  b_user_id : Z;
  b_category_id : Z;
  b_period : pystr;
  b_amount : option pyfloat
}.

(** The four tables and the AUTOINCREMENT counters of [sqlite_sequence]. *)
Record db : Type := mkDb {
  users : list user;
  categories : list category;
  transactions : list txn;
  budgets : list budget;
  seq_categories : Z;
  seq_transactions : Z;
  seq_budgets : Z
}.

Definition empty_db : db := mkDb [] [] [] [] 0 0 0.

Definition DAILY_DIGEST_HOUR_UTC : Z := 18.

(** ** State and exceptions *)

Definition M (A : Type) : Type := db -> outcome A * db.

Definition ret {A} (a : A) : M A := fun s => (Ok a, s).

Definition raise {A} (e : exn) : M A := fun s => (Raise e, s).

Definition bind {A B} (m : M A) (k : A -> M B) : M B :=
  fun s =>
    match m s with
    | (Ok a, s') => k a s'
    | (Raise e, s') => (Raise e, s')
    end.

Definition get : M db := fun s => (Ok s, s).

Definition put (s : db) : M unit := fun _ => (Ok tt, s).

Definition lift {A} (o : outcome A) : M A := fun s => (o, s).

Notation "x <- m ;; k" := (bind m (fun x => k))
  (at level 61, m at next level, right associativity).
Notation "' pat <- m ;; k" := (bind m (fun x => match x with pat => k end))
  (at level 61, pat pattern, m at next level, right associativity).
Notation "m ;;; k" := (bind m (fun _ => k))
  (at level 61, right associativity).

Fixpoint mapM {A B} (f : A -> M B) (l : list A) : M (list B) :=
  match l with
  | [] => ret []
  | a :: l' => b <- f a ;; bs <- mapM f l' ;; ret (b :: bs)
  end.

(** ** SQL expressions *)

Module Sql.

(** Binding a Python float, or the result of a [REAL] computation: SQLite
    has no NaN, it stores NULL. *)
Definition real (x : pyfloat) : option pyfloat :=
  match x with
  | NaN => None
  | _ => Some x
  end.

Fixpoint non_null (vals : list (option pyfloat)) : list pyfloat :=
  match vals with
  | [] => []
  | Some v :: vals' => v :: non_null vals'
  | None :: vals' => non_null vals'
  end.

(** The running sum of [SUM]: the values are added one after the other,
    in binary64. *)
Definition total (xs : list pyfloat) : pyfloat :=
  fold_left PyFloat.add xs PyFloat.zero.

(** [SUM(...)]: NULL when no row has a value. *)
Definition sum (vals : list (option pyfloat)) : option pyfloat :=
  match non_null vals with
  | [] => None
  | xs => real (total xs)
  end.

(** [ABS(x)] *)
Definition abs (v : option pyfloat) : option pyfloat :=
  option_map PyFloat.abs v.

(** [ROUND(x, 2)] *)
Definition round2 (v : option pyfloat) : option pyfloat :=
  option_map PyFloat.round2 v.

(** [COALESCE(x, 0)] *)
Definition coalesce0 (v : option pyfloat) : pyfloat :=
  match v with
  | Some x => x
  | None => PyFloat.zero
  end.

(** Stable insertion sort, for [ORDER BY]. *)
Fixpoint insert_by {A} (le : A -> A -> bool) (x : A) (l : list A) : list A :=
  match l with
  | [] => [x]
  | y :: l' => if le x y then x :: l else y :: insert_by le x l'
  end.

Definition order_by {A} (le : A -> A -> bool) (l : list A) : list A :=
  fold_right (insert_by le) [] l.

Definition max_id (ids : list Z) : Z := fold_right Z.max 0 ids.

(** The rowid an AUTOINCREMENT table gives to a new row. *)
Definition next_id (seq : Z) (ids : list Z) : Z := Z.max seq (max_id ids) + 1.

End Sql.

(** ** Parsing of the command arguments *)

Record Parsed : Type := mkParsed {
  amount : option pyfloat;
  note : pystr
}.

Definition parse_amount_and_note (args : list pystr) : Parsed :=
  match args with
  | [] => mkParsed None []
  | a0 :: rest =>
      let raw := replace_comma a0 in
      match py_float raw with
      | Ok amt => mkParsed (Some amt) (strip (join (lit " ") rest))
      | Raise _ => mkParsed None (strip (join (lit " ") args))
      end
  end.

(** ** Catalog and writes *)

(** [INSERT OR IGNORE INTO users(id, digest_hour_utc) VALUES (?, ?)] *)
Definition ensure_user (now : datetime) (uid : Z) : M unit :=
  s <- get ;;
  if existsb (fun u => u_id u =? uid) (users s) then ret tt
  else put (mkDb (users s ++ [mkUser uid (lit "RUB")
                                     (Some DAILY_DIGEST_HOUR_UTC)
                                     (sqlite_datetime now)])
                 (categories s) (transactions s) (budgets s)
                 (seq_categories s) (seq_transactions s) (seq_budgets s)).

Definition category_matches (uid : Z) (name : pystr) (ty : ttype)
    (c : category) : bool :=
  (c_user_id c =? uid) && PyStr.eqb (c_name c) name && ttype_eqb (c_type c) ty.

Definition insert_category (uid : Z) (name : pystr) (ty : ttype) (s : db) : db :=
  let id := Sql.next_id (seq_categories s) (List.map c_id (categories s)) in
  mkDb (users s) (categories s ++ [mkCategory id uid name ty])
       (transactions s) (budgets s) id (seq_transactions s) (seq_budgets s).

(** [row[0]] of a fetched row; [None[0]] raises. *)
Definition row0 {A} (row : option A) : M A :=
  match row with
  | Some a => ret a
  | None => raise TypeError
  end.

Definition upsert_category (uid : Z) (name : pystr) (ty : ttype) : M Z :=
  let name := lower name in
  s <- get ;;
  (if existsb (category_matches uid name ty) (categories s) then ret tt
   else put (insert_category uid name ty s)) ;;;
  s' <- get ;;
  row0 (option_map c_id (find (category_matches uid name ty) (categories s'))).

(** The fallback label of a transaction without a note. *)
Definition FALLBACK_LABEL : pystr :=
  [1087; 1088; 1086; 1095; 1077; 1077]%N.

(** [note.split()[0] if note else FALLBACK_LABEL], then [.lower()] *)
Definition category_of_note (note : pystr) : outcome pystr :=
  match note with
  | [] => Ok (lower FALLBACK_LABEL)
  | _ :: _ =>
      match PyStr.split note with
      | tok :: _ => Ok (lower tok)
      | [] => Raise IndexError
      end
  end.

Definition insert_txn (uid : Z) (amt : option pyfloat) (cat_id : Z)
    (ts note : pystr) (ty : ttype) (s : db) : db :=
  let id := Sql.next_id (seq_transactions s) (List.map t_id (transactions s)) in
  mkDb (users s) (categories s)
       (transactions s ++ [mkTxn id uid amt cat_id ts note ty])
       (budgets s) (seq_categories s) id (seq_budgets s).

Definition add_txn_core (now : datetime) (uid : Z) (amount : pyfloat)
    (note : pystr) (ty : ttype) : M pystr :=
  ensure_user now uid ;;;
  cat_name <- lift (category_of_note note) ;;
  cat_id <- upsert_category uid cat_name ty ;;
  let now_iso := iso_utc now in
  let amount_val :=
    match ty with
    | income => amount
    | expense => PyFloat.neg (PyFloat.abs amount)
    end in
  s <- get ;;
  put (insert_txn uid (Sql.real amount_val) cat_id now_iso note ty s) ;;;
  ret cat_name.

(** ** Period helpers *)

Definition month_bounds_utc (y m : Z) : outcome (pystr * pystr) :=
  match mk_date y m 1 with
  | Raise e => Raise e
  | Ok start =>
      match mk_date (y + (if m =? 12 then 1 else 0))
                    (if m =? 12 then 1 else m + 1) 1 with
      | Raise e => Raise e
      | Ok end_ => Ok (iso_utc start, iso_utc end_)
      end
  end.

(** A fetched row of the totals query: income, expense, net. *)
Definition totals_row : Type :=
  (option pyfloat * option pyfloat * option pyfloat)%type.

Definition get_totals (uid : Z) (start_iso : pystr) : M (option totals_row) :=
  s <- get ;;
  let rows :=
    filter (fun t => (t_user_id t =? uid) && PyStr.leb start_iso (t_ts t))
           (transactions s) in
  let case_type ty t :=
    if ttype_eqb (t_type t) ty then t_amount t else Some PyFloat.zero in
  ret (Some
    (Sql.round2 (Sql.sum (List.map (case_type income) rows)),
     Sql.round2 (Sql.abs (Sql.sum (List.map (case_type expense) rows))),
     Sql.round2 (Sql.sum (List.map t_amount rows)))).

(** ** Replies *)

(** What a handler sends back: the message, with the values its text
    interpolates. *)
Inductive reply : Type :=
| AskAmount
| Recorded (plus : bool) (magnitude : pyfloat) (label : pystr)
| MonthTotals (inc exp net : pyfloat)
| BudgetUsage
| BudgetBadAmount
| BudgetSet (cat period : pystr) (limit : pyfloat)
| NoBudgets
| Budgets (period : pystr)
          (lines : list (pystr * pyfloat * pyfloat * pyfloat * pyfloat))
| NoRecords
| Listing (period : pystr)
          (lines : list (pystr * bool * pyfloat * pystr * pystr))
| NoRecordsFor (period : pystr)
| ExportFile (period : pystr)
             (rows : list (pystr * ttype * option pyfloat * pystr * pystr))
| Digest (inc_d exp_d net_d inc_m exp_m net_m : pyfloat).

(** [f"{v:.2f}"]: the number that is printed; [None] cannot be formatted. *)
Definition fmt_2f (v : option pyfloat) : outcome pyfloat :=
  match v with
  | Some x => Ok x
  | None => Raise TypeError
  end.

(** [row or (0, 0, 0)] *)
Definition or_zeros (row : option totals_row) : totals_row :=
  match row with
  | Some r => r
  | None => (Some PyFloat.zero, Some PyFloat.zero, Some PyFloat.zero)
  end.

(** ** Handlers *)

Definition add_txn (now : datetime) (uid : Z) (args : list pystr)
    (ty : ttype) : M reply :=
  let parsed := parse_amount_and_note args in
  match amount parsed with
  | None => ret AskAmount
  | Some amt =>
      cat <- add_txn_core now uid amt (note parsed) ty ;;
      ret (Recorded (ttype_eqb ty income) (PyFloat.abs amt)
                    (match note parsed with [] => cat | n => n end))
  end.

Definition cmd_add (now : datetime) (uid : Z) (args : list pystr) : M reply :=
  add_txn now uid args expense.

Definition cmd_inc (now : datetime) (uid : Z) (args : list pystr) : M reply :=
  add_txn now uid args income.

Definition cmd_sum (now : datetime) (uid : Z) : M reply :=
  let first := iso_utc (first_of_month now) in
  row <- get_totals uid first ;;
  let '(inc, exp, net) := or_zeros row in
  i <- lift (fmt_2f inc) ;;
  e <- lift (fmt_2f exp) ;;
  n <- lift (fmt_2f net) ;;
  ret (MonthTotals i e n).

(** *** Budgets *)

Definition resolve_category (uid : Z) (name : pystr) : M (option Z) :=
  let name := lower name in
  s <- get ;;
  ret (option_map c_id (find (category_matches uid name expense) (categories s))).

Definition budget_matches (uid cat_id : Z) (period : pystr) (b : budget) : bool :=
  (b_user_id b =? uid) && (b_category_id b =? cat_id)
  && PyStr.eqb (b_period b) period.

(** [INSERT INTO budgets ... ON CONFLICT(user_id, category_id, period)
    DO UPDATE SET amount = excluded.amount] *)
Definition upsert_budget (uid cat_id : Z) (period : pystr)
    (amt : option pyfloat) (s : db) : db :=
  if existsb (budget_matches uid cat_id period) (budgets s) then
    mkDb (users s) (categories s) (transactions s)
         (List.map (fun b =>
                      if budget_matches uid cat_id period b
                      then mkBudget (b_id b) (b_user_id b) (b_category_id b)
                                    (b_period b) amt
                      else b)
                   (budgets s))
         (seq_categories s) (seq_transactions s) (seq_budgets s)
  else
    let id := Sql.next_id (seq_budgets s) (List.map b_id (budgets s)) in
    mkDb (users s) (categories s) (transactions s)
         (budgets s ++ [mkBudget id uid cat_id period amt])
         (seq_categories s) (seq_transactions s) id.

Definition cmd_budget_set (now : datetime) (uid : Z) (args : list pystr)
    : M reply :=
  match args with
  | a0 :: a1 :: rest =>
      let cat_name := lower a0 in
      match py_float (replace_comma a1) with
      | Raise _ => ret BudgetBadAmount
      | Ok amount =>
          let period :=
            match rest with
            | a2 :: _ => a2
            | [] => strftime_Ym now
            end in
          ensure_user now uid ;;;
          found <- resolve_category uid cat_name ;;
          cat_id <- match found with
                    | Some id => if id =? 0
                                 then upsert_category uid cat_name expense
                                 else ret id
                    | None => upsert_category uid cat_name expense
                    end ;;
          s <- get ;;
          put (upsert_budget uid cat_id period (Sql.real amount) s) ;;;
          ret (BudgetSet cat_name period amount)
      end
  | _ => ret BudgetUsage
  end.

(** The WHERE clause of the month queries: [ts >= start AND ts < end]. *)
Definition in_range (start_iso end_iso ts : pystr) : bool :=
  PyStr.leb start_iso ts && PyStr.ltb ts end_iso.

(** [ABS(COALESCE(SUM(amount), 0))] over the expenses of a category in a
    range. *)
Definition spent_between (uid cat_id : Z) (start_iso end_iso : pystr)
    (s : db) : pyfloat :=
  PyFloat.abs (Sql.coalesce0 (Sql.sum (List.map t_amount
    (filter (fun t => (t_user_id t =? uid) && (t_category_id t =? cat_id)
                      && ttype_eqb (t_type t) expense
                      && in_range start_iso end_iso (t_ts t))
            (transactions s))))).

(** [month_bounds_utc(int(period[:4]), int(period[5:7]))] *)
Definition period_bounds (period : pystr) : outcome (pystr * pystr) :=
  match py_int (slice 0 4 period) with
  | Raise e => Raise e
  | Ok y =>
      match py_int (slice 5 7 period) with
      | Raise e => Raise e
      | Ok m => month_bounds_utc y m
      end
  end.

Definition spent_in_period (uid cat_id : Z) (period : pystr) : M pyfloat :=
  '(start_iso, end_iso) <- lift (period_bounds period) ;;
  s <- get ;;
  ret (spent_between uid cat_id start_iso end_iso s).

(** [float(v)] of a fetched value. *)
Definition to_float (v : option pyfloat) : outcome pyfloat :=
  match v with
  | Some x => Ok x
  | None => Raise TypeError
  end.

Definition budget_line (row : pystr * option pyfloat * pyfloat)
    : outcome (pystr * pyfloat * pyfloat * pyfloat * pyfloat) :=
  let '(name, limit, spent) := row in
  match to_float limit with
  | Raise e => Raise e
  | Ok lim =>
      let remain := PyFloat.sub lim spent in
      let pct := if PyFloat.ltb PyFloat.zero lim
                 then PyFloat.mul (PyFloat.div spent lim) (PyFloat.of_Z 100)
                 else PyFloat.zero in
      Ok (name, spent, lim, remain, pct)
  end.

Fixpoint map_outcome {A B} (f : A -> outcome B) (l : list A) : outcome (list B) :=
  match l with
  | [] => Ok []
  | a :: l' =>
      match f a with
      | Raise e => Raise e
      | Ok b =>
          match map_outcome f l' with
          | Raise e => Raise e
          | Ok bs => Ok (b :: bs)
          end
      end
  end.

Definition cmd_budget_view (now : datetime) (uid : Z) (args : list pystr)
    : M reply :=
  let period :=
    match args with
    | a0 :: _ => a0
    | [] => strftime_Ym now
    end in
  ensure_user now uid ;;;
  '(start_iso, end_iso) <- lift (period_bounds period) ;;
  s <- get ;;
  let rows :=
    Sql.order_by (fun r1 r2 => PyStr.leb (fst (fst r1)) (fst (fst r2)))
      (flat_map
         (fun b =>
            List.map (fun c =>
                        (c_name c, b_amount b,
                         spent_between (b_user_id b) (b_category_id b)
                                       start_iso end_iso s))
                     (filter (fun c => c_id c =? b_category_id b) (categories s)))
         (filter (fun b => (b_user_id b =? uid) && PyStr.eqb (b_period b) period)
                 (budgets s))) in
  match rows with
  | [] => ret NoBudgets
  | _ => lines <- lift (map_outcome budget_line rows) ;; ret (Budgets period lines)
  end.

(** *** List and export *)

(** The period argument of [/list] and [/export]: [YYYY-MM], or else the
    current month. *)
Definition period_arg (now : datetime) (args : list pystr) : pystr :=
  match args with
  | a0 :: _ =>
      let raw := strip a0 in
      match py_int (slice 0 4 raw) with
      | Raise _ => strftime_Ym now
      | Ok y =>
          match py_int (slice 5 7 raw) with
          | Raise _ => strftime_Ym now
          | Ok m =>
              if Nat.eqb (List.length raw) 7
                 && match nth_error raw 4 with
                    | Some c => (c =? 45)%N
                    | None => false
                    end
                 && (1 <=? m) && (m <=? 12)
              then fmt_0d 4 y ++ lit "-" ++ fmt_0d 2 m
              else strftime_Ym now
          end
      end
  | [] => strftime_Ym now
  end.

(** [FROM transactions t JOIN categories c ON c.id = t.category_id
     WHERE t.user_id = ? AND t.ts >= ? AND t.ts < ?] *)
Definition period_rows (uid : Z) (start_iso end_iso : pystr) (s : db)
    : list (txn * category) :=
  flat_map
    (fun t => List.map (fun c => (t, c))
                (filter (fun c => c_id c =? t_category_id t) (categories s)))
    (filter (fun t => (t_user_id t =? uid) && in_range start_iso end_iso (t_ts t))
            (transactions s)).

Definition list_line (r : txn * category)
    : outcome (pystr * bool * pyfloat * pystr * pystr) :=
  let (t, c) := r in
  match t_amount t with
  | None => Raise TypeError
  | Some amt =>
      Ok (slice 0 16 (t_ts t), ttype_eqb (t_type t) income, PyFloat.abs amt,
          c_name c, t_note t)
  end.

Definition cmd_list (now : datetime) (uid : Z) (args : list pystr) : M reply :=
  let period := period_arg now args in
  '(start_iso, end_iso) <- lift (period_bounds period) ;;
  ensure_user now uid ;;;
  s <- get ;;
  let rows :=
    firstn 20
      (Sql.order_by (fun r1 r2 => PyStr.leb (t_ts (fst r2)) (t_ts (fst r1)))
                    (period_rows uid start_iso end_iso s)) in
  match rows with
  | [] => ret NoRecords
  | _ => lines <- lift (map_outcome list_line rows) ;; ret (Listing period lines)
  end.

(** A row of the export: timestamp, type, [ABS(amount)], category, note. *)
Definition export_row (r : txn * category)
    : pystr * ttype * option pyfloat * pystr * pystr :=
  let (t, c) := r in
  (t_ts t, t_type t, Sql.abs (t_amount t), c_name c, t_note t).

Definition export_rows (uid : Z) (start_iso end_iso : pystr) (s : db)
    : list (pystr * ttype * option pyfloat * pystr * pystr) :=
  List.map export_row
    (Sql.order_by (fun r1 r2 => PyStr.leb (t_ts (fst r1)) (t_ts (fst r2)))
                  (period_rows uid start_iso end_iso s)).

Definition cmd_export (now : datetime) (uid : Z) (args : list pystr) : M reply :=
  let period := period_arg now args in
  '(start_iso, end_iso) <- lift (period_bounds period) ;;
  ensure_user now uid ;;;
  s <- get ;;
  match export_rows uid start_iso end_iso s with
  | [] => ret (NoRecordsFor period)
  | rows => ret (ExportFile period rows)
  end.

(** *** Daily digest *)

(** The body of the loop of [send_daily_digest] for one user. *)
Definition digest_user (now : datetime) (u : Z * option Z)
    : M (option (Z * reply)) :=
  let (uid, h) := u in
  let h := match h with
           | None => DAILY_DIGEST_HOUR_UTC
           | Some h => h
           end in
  if hour now =? h then
    let first_month := iso_utc (first_of_month now) in
    yesterday <- lift (minus_one_day now) ;;
    let y0 := iso_utc (midnight yesterday) in
    let y1 := iso_utc (midnight now) in
    m <- get_totals uid first_month ;;
    d <- get_totals uid y0 ;;
    let '(inc_m, exp_m, net_m) := or_zeros m in
    let '(inc_d, exp_d, net_d) := or_zeros d in
    id <- lift (fmt_2f inc_d) ;;
    ed <- lift (fmt_2f exp_d) ;;
    nd <- lift (fmt_2f net_d) ;;
    im <- lift (fmt_2f inc_m) ;;
    em <- lift (fmt_2f exp_m) ;;
    nm <- lift (fmt_2f net_m) ;;
    ret (Some (uid, Digest id ed nd im em nm))
  else ret None.

(** One turn of the loop of [send_daily_digest], woken at time [now]: the
    messages handed to the bot for delivery (delivery failures are
    swallowed by the source). *)
Definition digest_wakeup (now : datetime) : M (list (option (Z * reply))) :=
  if negb (minute now =? 0) then ret []
  else
    s <- get ;;
    mapM (digest_user now)
         (List.map (fun u => (u_id u, u_digest_hour_utc u)) (users s)).

(** [send_daily_digest] over the first wake-ups of its endless loop; an
    exception that escapes a turn ends the loop. *)
Definition send_daily_digest (wakeups : list datetime)
    : M (list (list (option (Z * reply)))) :=
  mapM digest_wakeup wakeups.

(** *** Start and inline callbacks *)

(** [s.split(sep)] for a separator of one character: the pieces between
    the separators, empty pieces included. *)
Fixpoint split_on (sep : N) (s : pystr) : list pystr :=
  match s with
  | [] => [[]]
  | c :: s' =>
      if (c =? sep)%N then [] :: split_on sep s'
      else match split_on sep s' with
           | p :: ps => (c :: p) :: ps
           | [] => [[c]]
           end
  end.

(** The callback data of the three buttons of the [/start] keyboard. *)
Definition QUICK_ADD_BUTTON : pystr :=
  lit "quick:add:100:" ++ [1082; 1086; 1092; 1077]%N.

Definition START_BUTTONS : list pystr :=
  [QUICK_ADD_BUTTON; lit "dash:month"; lit "dash:help"].

(** What [cmd_start] and [on_callback] send back. *)
Inductive start_reply : Type :=
| HelpWithKeyboard (buttons : list pystr)
| HelpText.

Inductive callback_reply : Type :=
| QuickRecorded (magnitude : pyfloat) (label : pystr)
| MonthEdited (inc exp net : pyfloat)
| HelpEdited
| Ignored.

Definition cmd_start (now : datetime) (uid : Z) : M start_reply :=
  ensure_user now uid ;;;
  ret (HelpWithKeyboard START_BUTTONS).

Definition cmd_help : M start_reply := ret HelpText.

(** [parts[i]] *)
Definition item (parts : list pystr) (i : nat) : outcome pystr :=
  match nth_error parts i with
  | Some p => Ok p
  | None => Raise IndexError
  end.

(** [parts[0] == a and parts[1] == b] *)
Definition parts_are (parts : list pystr) (a b : pystr) : outcome bool :=
  match item parts 0 with
  | Raise e => Raise e
  | Ok p0 =>
      if PyStr.eqb p0 a then
        match item parts 1 with
        | Raise e => Raise e
        | Ok p1 => Ok (PyStr.eqb p1 b)
        end
      else Ok false
  end.

Definition on_callback (now : datetime) (uid : Z) (data : pystr)
    : M callback_reply :=
  let parts := split_on 58 data in
  quick <- lift (parts_are parts (lit "quick") (lit "add")) ;;
  if quick then
    p2 <- lift (item parts 2) ;;
    amt <- lift (py_float p2) ;;
    note <- lift (item parts 3) ;;
    cat <- add_txn_core now uid amt note expense ;;
    ret (QuickRecorded amt (match note with [] => cat | n => n end))
  else
    dash_month <- lift (parts_are parts (lit "dash") (lit "month")) ;;
    if dash_month then
      let first := iso_utc (first_of_month now) in
      row <- get_totals uid first ;;
      let '(inc, exp, net) := or_zeros row in
      i <- lift (fmt_2f inc) ;;
      e <- lift (fmt_2f exp) ;;
      n <- lift (fmt_2f net) ;;
      ret (MonthEdited i e n)
    else
      dash_help <- lift (parts_are parts (lit "dash") (lit "help")) ;;
      if dash_help then ret HelpEdited else ret Ignored.

(** *** The running bot *)

(** An update that [main] registers a handler for: a command with its
    arguments, or the data of a pressed button. *)
Inductive update : Type :=
| OnStart
| OnAdd (args : list pystr)
| OnInc (args : list pystr)
| OnSum
| OnBudgetSet (args : list pystr)
| OnBudgetView (args : list pystr)
| OnList (args : list pystr)
| OnExport (args : list pystr)
| OnHelp
| OnCallback (data : pystr).

(** The store a computation leaves, whether it ends with a result or with
    an exception (the framework logs the exception of a handler and goes
    on polling). *)
Definition after {A} (m : M A) (s : db) : db := snd (m s).

(** The handler table of [main]. *)
Definition dispatch (now : datetime) (uid : Z) (u : update) : db -> db :=
  match u with
  | OnStart => after (cmd_start now uid)
  | OnAdd args => after (cmd_add now uid args)
  | OnInc args => after (cmd_inc now uid args)
  | OnSum => after (cmd_sum now uid)
  | OnBudgetSet args => after (cmd_budget_set now uid args)
  | OnBudgetView args => after (cmd_budget_view now uid args)
  | OnList args => after (cmd_list now uid args)
  | OnExport args => after (cmd_export now uid args)
  | OnHelp => after cmd_help
  | OnCallback data => after (on_callback now uid data)
  end.

(** What the running bot reacts to: an update of a user, read at some
    time of the clock, or a wake-up of the digest task. *)
Inductive event : Type :=
| Update (now : datetime) (uid : Z) (u : update)
| Wakeup (now : datetime).

Definition step (s : db) (e : event) : db :=
  match e with
  | Update now uid u => dispatch now uid u s
  | Wakeup now => after (digest_wakeup now) s
  end.

(** The store after a history of events, one handled after the other,
    from the tables that [init_db] creates. *)
Definition run (history : list event) : db := fold_left step history empty_db.

(** * Vocabulary of the properties *)

(** The UNIQUE(user_id, category_id, period) constraint of [budgets]. *)
Definition budgets_unique (s : db) : Prop :=
  forall u c p,
    (List.length (filter (budget_matches u c p) (budgets s)) <= 1)%nat.

(** The first white-space-delimited token of a string that starts with
    it: the characters up to the next white space. *)
Fixpoint take_token (s : pystr) : pystr :=
  match s with
  | c :: s' => if is_space c then [] else c :: take_token s'
  | [] => []
  end.

(** The amount [add_txn_core] stores for a magnitude. *)
Definition stored_amount (ty : ttype) (a : pyfloat) : option pyfloat :=
  Sql.real match ty with
           | income => a
           | expense => PyFloat.neg (PyFloat.abs a)
           end.

(** The sign invariant of a recorded transaction: an expense is stored as
    the negated magnitude, below zero unless the magnitude is zero; an
    income is stored as the magnitude, which is not negative. *)
Definition sign_invariant (ty : ttype) (magnitude : pyfloat)
    (stored : option pyfloat) : Prop :=
  match ty with
  | expense =>
      stored = Some (PyFloat.neg magnitude) /\
      (PyFloat.ltb (PyFloat.neg magnitude) PyFloat.zero = true \/
       PyFloat.eqv magnitude PyFloat.zero)
  | income =>
      stored = Some magnitude /\ PyFloat.leb PyFloat.zero magnitude = true
  end.

(** The months [datetime] can hold: years 1 to 9999. *)
Definition valid_month (y m : Z) : Prop :=
  1 <= y <= 9999 /\ 1 <= m <= 12.

(** The rank of a month on the time line. *)
Definition month_index (y m : Z) : Z := 12 * y + (m - 1).

(** The first instant of a month, as it is stored and compared. *)
Definition first_instant (y m : Z) : pystr :=
  iso_utc (mkDatetime y m 1 0 0 0 0).

(** [f i < f (i+1) < ... < f (i+n)], and all of width [w]. *)
Fixpoint increasing (f : Z -> pystr) (w : nat) (n : nat) (i : Z) : bool :=
  match n with
  | O => Nat.eqb (List.length (f i)) w
  | S n' =>
      Nat.eqb (List.length (f i)) w && PyStr.ltb (f i) (f (i + 1))
      && increasing f w n' (i + 1)
  end.

(** A row of the export file. *)
Definition export_record : Type :=
  (pystr * ttype * option pyfloat * pystr * pystr)%type.







(** Referential integrity: the category of every transaction is the one
    row of [categories] with that id. *)
Definition refs_ok (s : db) : Prop :=
  forall t, In t (transactions s) ->
    exists c, filter (fun c => c_id c =? t_category_id t) (categories s) = [c].

(** The sign convention of stored amounts: a finite number, not positive
    for an expense, not negative for an income. *)
Definition signed_by_kind (t : txn) : Prop :=
  exists q, t_amount t = Some (Fin q) /\
            match t_type t with
            | expense => (q <= 0)%Q
            | income => (0 <= q)%Q
            end.

Definition ledger_signed (s : db) : Prop :=
  forall t, In t (transactions s) -> signed_by_kind t.

(** The finite amount of a stored transaction. *)
Definition amount_q (t : txn) : Q :=
  match t_amount t with
  | Some (Fin q) => q
  | _ => 0%Q
  end.

Definition Qsum (l : list Q) : Q := fold_right Qplus 0%Q l.

(** A ledger with one expense in May 2024 and one in June 2024. *)
Definition ledger_may_june : db :=
  snd (cmd_add (mkDatetime 2024 6 5 8 15 0 0) 1 [lit "300"; lit "rent"]
         (snd (cmd_add (mkDatetime 2024 5 10 19 0 0 0) 1
                       [lit "100"; lit "taxi"] empty_db))).

(** A ledger with an income in April 2024 and, in May 2024, an income and
    an expense. *)
Definition ledger_april_may : db :=
  snd (cmd_add (mkDatetime 2024 5 12 13 5 0 0) 1 [lit "345"; lit "lunch"]
         (snd (cmd_inc (mkDatetime 2024 5 3 9 0 0 0) 1 [lit "2000"; lit "salary"]
                (snd (cmd_inc (mkDatetime 2024 4 3 9 0 0 0) 1
                              [lit "1800"; lit "salary"] empty_db))))).

(** The invariant of the store that the handlers keep: category ids are
    unique and every transaction names an existing category. *)
Definition store_ok (s : db) : Prop :=
  NoDup (List.map c_id (categories s)) /\
  forall t, In t (transactions s) ->
    exists c, In c (categories s) /\ c_id c = t_category_id t.

(** Two stores with the same ledger: categories, transactions, budgets and
    their id counters; only the users table may differ. *)
Definition same_ledger (s s' : db) : Prop :=
  categories s' = categories s /\ transactions s' = transactions s /\
  budgets s' = budgets s /\ seq_categories s' = seq_categories s /\
  seq_transactions s' = seq_transactions s /\ seq_budgets s' = seq_budgets s.

(** The digest hour of a user row, with the default for NULL. *)
Definition digest_hour_of (h : option Z) : Z :=
  match h with
  | None => DAILY_DIGEST_HOUR_UTC
  | Some x => x
  end.

(** Every [z] of [i .. i+n] is printed by [fmt_0d w] as [w] digits that
    [int] reads back as [z]. *)
Fixpoint fmt_table_ok (w : nat) (n : nat) (i : Z) : bool :=
  let ok :=
    Nat.eqb (List.length (fmt_0d w i)) w
    && forallb is_digit (fmt_0d w i)
    && match py_int (fmt_0d w i) with
       | Ok v => v =? i
       | Raise _ => false
       end in
  match n with
  | O => ok
  | S n' => ok && fmt_table_ok w n' (i + 1)
  end.

(** The period string of a month, [YYYY-MM]. *)
Definition period_of (y m : Z) : pystr :=
  fmt_0d 4 y ++ lit "-" ++ fmt_0d 2 m.

(** A line of the listing: timestamp to the minute, sign, magnitude,
    category, note. *)
Definition listing_line : Type :=
  (pystr * bool * pyfloat * pystr * pystr)%type.

Definition line_ts (l : listing_line) : pystr :=
  let '(ts, _, _, _, _) := l in ts.

Definition row_ts (r : export_record) : pystr :=
  let '(ts, _, _, _, _) := r in ts.

Definition row_cell (r : export_record) : option pyfloat :=
  let '(_, _, amt, _, _) := r in amt.

(** An exported row without its category name. *)
Definition row_core (r : export_record)
    : pystr * ttype * option pyfloat * pystr :=
  let '(ts, ty, amt, _, note) := r in (ts, ty, amt, note).

(** What the export shows of a transaction. *)
Definition txn_core (t : txn) : pystr * ttype * option pyfloat * pystr :=
  (t_ts t, t_type t, Sql.abs (t_amount t), t_note t).

(** A reading of the clock: the fields of a [datetime] in their ranges. *)
Definition valid_clock (d : datetime) : Prop :=
  1 <= year d <= 9999 /\ 1 <= month d <= 12 /\ 1 <= day d <= 31 /\
  0 <= hour d <= 23 /\ 0 <= minute d <= 59 /\ 0 <= second d <= 59 /\
  0 <= microsecond d <= 999999.

(** The order in time of two clock readings, to the second. *)
Definition datetime_compare (d1 d2 : datetime) : comparison :=
  match year d1 ?= year d2 with
  | Eq =>
      match month d1 ?= month d2 with
      | Eq =>
          match day d1 ?= day d2 with
          | Eq =>
              match hour d1 ?= hour d2 with
              | Eq =>
                  match minute d1 ?= minute d2 with
                  | Eq => second d1 ?= second d2
                  | c => c
                  end
              | c => c
              end
          | c => c
          end
      | c => c
      end
  | c => c
  end.

(** The end of a stored timestamp: ["Z"], after the fraction when the
    microseconds are not zero. *)
Definition iso_fraction (d : datetime) : pystr :=
  if microsecond d =? 0 then [90%N]
  else 46%N :: fmt_0d 6 (microsecond d) ++ [90%N].

(** The first second of a month, past its first instant. *)
Definition in_first_second (d : datetime) : Prop :=
  day d = 1 /\ hour d = 0 /\ minute d = 0 /\ second d = 0
  /\ microsecond d <> 0.

(** A piece of callback data: a string without the separator [":"]. *)
Definition no_colon (s : pystr) : bool :=
  forallb (fun c => negb (c =? 58)%N) s.

(** A Hoare triple of the store monad: from a store that satisfies [P],
    the computation ends with a result and a store that satisfy [Q], or
    with an exception and a store that satisfies [E]. *)
Definition triple {A} (P : db -> Prop) (m : M A) (Q : A -> db -> Prop)
    (E : db -> Prop) : Prop :=
  forall s, P s ->
    match m s with
    | (Ok a, s') => Q a s'
    | (Raise _, s') => E s'
    end.

(** The UNIQUE keys of [categories] and [budgets]. *)
Definition category_key (c : category) : Z * pystr * ttype :=
  (c_user_id c, c_name c, c_type c).

Definition budget_key (b : budget) : Z * Z * pystr :=
  (b_user_id b, b_category_id b, b_period b).

(** The user has a row in [users]. *)
Definition registered (uid : Z) (s : db) : Prop :=
  In uid (List.map u_id (users s)).

(** The id is that of a category of the user and of the kind. *)
Definition has_category (id uid : Z) (ty : ttype) (s : db) : Prop :=
  exists c, In c (categories s) /\ c_id c = id /\ c_user_id c = uid /\
            c_type c = ty.

(** A stored amount that is not above zero: NULL, zero, a negative number
    or minus infinity. *)
Definition not_positive (v : option pyfloat) : Prop :=
  match v with
  | Some x => PyFloat.ltb PyFloat.zero x = false
  | None => True
  end.

(** What holds of the four tables however the bot was used: the keys of
    the schema, the references between the tables, and what the handlers
    write into the columns. *)
Record consistent (s : db) : Prop := mkConsistent {
  users_pk : NoDup (List.map u_id (users s));
  users_defaults : forall u, In u (users s) ->
    u_currency u = lit "RUB" /\
    u_digest_hour_utc u = Some DAILY_DIGEST_HOUR_UTC;
  categories_pk : NoDup (List.map c_id (categories s));
  categories_unique : NoDup (List.map category_key (categories s));
  categories_owner : forall c, In c (categories s) ->
    registered (c_user_id c) s;
  categories_lower : forall c, In c (categories s) ->
    lower (c_name c) = c_name c;
  transactions_pk : NoDup (List.map t_id (transactions s));
  transactions_category : forall t, In t (transactions s) ->
    has_category (t_category_id t) (t_user_id t) (t_type t) s;
  transactions_expense : forall t, In t (transactions s) ->
    t_type t = expense -> not_positive (t_amount t);
  budgets_pk : NoDup (List.map b_id (budgets s));
  budgets_key : NoDup (List.map budget_key (budgets s));
  budgets_category : forall b, In b (budgets s) ->
    has_category (b_category_id b) (b_user_id b) expense s
}.

(** A whole number. *)
Definition whole (q : Q) : Prop := exists z : Z, (q == inject_Z z)%Q.


(** The sum of the magnitudes of the amounts a user has recorded from a
    start on. *)
Definition turnover (uid : Z) (start_iso : pystr) (s : db) : Q :=
  Qsum (List.map (fun t => Qabs (amount_q t))
          (filter (fun t => (t_user_id t =? uid) && PyStr.leb start_iso (t_ts t))
                  (transactions s))).

(** The bound below which every whole number is a binary64 number, and
    sums of whole numbers are exact. *)
Definition EXACT_BOUND : Q := inject_Z (2 ^ 53).

(** * Properties *)

(** ** Strings *)

Lemma pystr_eqb_eq a b : PyStr.eqb a b = true <-> a = b.
Proof.
  unfold PyStr.eqb. destruct (list_eq_dec N.eq_dec a b); split; congruence.
Qed.

(** ** Lists and lookups *)

Section ListFacts.

Context {A : Type}.
Variable f : A -> bool.

Lemma existsb_find_some (l : list A) :
  existsb f l = true -> exists x, find f l = Some x /\ f x = true.
Proof.
  induction l as [|a l IH]; simpl; [discriminate|].
  destruct (f a) eqn:Ha; [exists a; auto|]. simpl. exact IH.
Qed.

Lemma existsb_false_find (l : list A) :
  existsb f l = false -> find f l = None.
Proof.
  induction l as [|a l IH]; simpl; [reflexivity|].
  destruct (f a); simpl; [discriminate|exact IH].
Qed.

Lemma existsb_false_filter (l : list A) :
  existsb f l = false -> filter f l = [].
Proof.
  induction l as [|a l IH]; simpl; [reflexivity|].
  destruct (f a); simpl; [discriminate|exact IH].
Qed.

Lemma find_some_existsb (l : list A) (x : A) :
  find f l = Some x -> existsb f l = true.
Proof.
  induction l as [|a l IH]; simpl; [discriminate|].
  destruct (f a); simpl; auto.
Qed.

Lemma find_app_some (l l' : list A) (x : A) :
  find f l = Some x -> find f (l ++ l') = Some x.
Proof.
  induction l as [|a l IH]; simpl; [discriminate|].
  destruct (f a); auto.
Qed.

Lemma find_app_none (l l' : list A) :
  find f l = None -> find f (l ++ l') = find f l'.
Proof.
  induction l as [|a l IH]; simpl; [reflexivity|].
  destruct (f a); [discriminate|exact IH].
Qed.

Lemma filter_update (set : A -> A) (l : list A) :
  (forall x, f x = true -> f (set x) = true) ->
  filter f (List.map (fun x => if f x then set x else x) l)
  = List.map set (filter f l).
Proof.
  intros Hset. induction l as [|a l IH]; simpl; [reflexivity|].
  destruct (f a) eqn:Ha.
  - rewrite (Hset a Ha). simpl. now rewrite IH.
  - rewrite Ha. exact IH.
Qed.

End ListFacts.

(** ** Category creation *)

Lemma category_matches_eq uid name ty c :
  category_matches uid name ty c = true <->
  c_user_id c = uid /\ c_name c = name /\ c_type c = ty.
Proof.
  unfold category_matches.
  rewrite !andb_true_iff, Z.eqb_eq, pystr_eqb_eq.
  destruct (c_type c), ty; simpl; intuition congruence.
Qed.

(** What [upsert_category] does to the store: nothing when the category
    exists, one appended row when it does not; the other tables are left
    alone. *)
Lemma upsert_category_spec uid name ty s :
  let key := category_matches uid (lower name) ty in
  exists c s1,
    upsert_category uid name ty s = (Ok (c_id c), s1) /\
    find key (categories s1) = Some c /\
    (if existsb key (categories s) then s1 = s
     else s1 = insert_category uid (lower name) ty s
          /\ categories s1 = categories s ++ [c]).
Proof.
  intros key. unfold upsert_category, bind, get, put, ret. fold key.
  destruct (existsb key (categories s)) eqn:E.
  - destruct (existsb_find_some key _ E) as (c & Hc & _).
    exists c, s. rewrite Hc. simpl. auto.
  - set (c := mkCategory (Sql.next_id (seq_categories s)
                            (List.map c_id (categories s))) uid (lower name) ty).
    exists c, (insert_category uid (lower name) ty s).
    assert (Hf : find key (categories (insert_category uid (lower name) ty s))
                 = Some c).
    { simpl. rewrite find_app_none by now apply existsb_false_find.
      simpl. fold c.
      assert (Hk : key c = true) by (apply category_matches_eq; simpl; auto).
      now rewrite Hk. }
    rewrite Hf. simpl. auto.
Qed.

(** C9. Idempotent category creation: two calls of [upsert_category] with
    the same (user, name, kind) both succeed with the same identity, the
    second leaves the store as the first left it, and the first adds at
    most one row, none when a matching row was there, so that no second
    matching row ever appears. *)
Theorem upsert_category_idempotent (uid : Z) (name : pystr) (ty : ttype) (s : db) :
  exists id s1,
    upsert_category uid name ty s = (Ok id, s1) /\
    upsert_category uid name ty s1 = (Ok id, s1) /\
    (categories s1 = categories s \/
     exists c, categories s1 = categories s ++ [c] /\ c_id c = id
               /\ filter (category_matches uid (lower name) ty) (categories s) = []) /\
    List.length (filter (category_matches uid (lower name) ty) (categories s1))
    = Nat.max 1 (List.length (filter (category_matches uid (lower name) ty)
                                     (categories s))).
Proof.
  destruct (upsert_category_spec uid name ty s) as (c & s1 & H1 & Hf & Hs).
  destruct (upsert_category_spec uid name ty s1) as (c' & s2 & H2 & Hf' & Hs').
  cbv zeta in *.
  rewrite (find_some_existsb _ _ _ Hf) in Hs'. subst s2.
  assert (c' = c) by congruence. subst c'.
  exists (c_id c), s1. repeat split; auto.
  - destruct (existsb _ (categories s)) eqn:E.
    + left. now subst.
    + right. destruct Hs as [_ Hs]. exists c. repeat split; auto.
      now apply existsb_false_filter.
  - destruct (existsb _ (categories s)) eqn:E.
    + subst s1. destruct (existsb_find_some _ _ E) as (x & Hx & Hk).
      apply find_some in Hx. destruct Hx as [Hin _].
      assert (Hin' : In x (filter (category_matches uid (lower name) ty)
                                  (categories s))) by (apply filter_In; auto).
      destruct (filter _ (categories s)); [contradiction|]. simpl. lia.
    + destruct Hs as [_ Hs]. rewrite Hs, filter_app.
      rewrite (existsb_false_filter _ _ E). simpl.
      apply find_some in Hf. destruct Hf as [_ Hk]. now rewrite Hk.
Qed.

(** ** Budgets *)

Lemma budget_matches_eq u c p b :
  budget_matches u c p b = true <->
  b_user_id b = u /\ b_category_id b = c /\ b_period b = p.
Proof.
  unfold budget_matches.
  rewrite !andb_true_iff, !Z.eqb_eq, pystr_eqb_eq. tauto.
Qed.

Lemma budget_matches_same_key u c p u' c' p' b b' :
  b_user_id b' = b_user_id b -> b_category_id b' = b_category_id b ->
  b_period b' = b_period b ->
  budget_matches u c p b = true ->
  budget_matches u' c' p' b' = budget_matches u' c' p' b.
Proof.
  unfold budget_matches. intros -> -> ->. reflexivity.
Qed.

Lemma filter_map_keys {A} (f : A -> bool) (g : A -> A) (l : list A) :
  (forall x, f (g x) = f x) -> filter f (List.map g l) = List.map g (filter f l).
Proof.
  intros Hg. induction l as [|a l IH]; simpl; [reflexivity|].
  rewrite Hg. destruct (f a); simpl; now rewrite IH.
Qed.

Lemma upsert_budget_unique u c p amt s :
  budgets_unique s -> budgets_unique (upsert_budget u c p amt s).
Proof.
  intros Hu u' c' p'. unfold upsert_budget.
  destruct (existsb (budget_matches u c p) (budgets s)) eqn:E; simpl.
  - rewrite filter_map_keys.
    + rewrite length_map. apply Hu.
    + intros b. destruct (budget_matches u c p b); reflexivity.
  - rewrite filter_app, length_app. simpl.
    destruct (budget_matches u' c' p' _) eqn:Hn; simpl.
    + apply budget_matches_eq in Hn. simpl in Hn.
      destruct Hn as (-> & -> & ->).
      rewrite (existsb_false_filter _ _ E). simpl. lia.
    + specialize (Hu u' c' p'). lia.
Qed.

Lemma upsert_budget_agree u c p amt s s' :
  budgets s' = budgets s -> seq_budgets s' = seq_budgets s ->
  budgets (upsert_budget u c p amt s') = budgets (upsert_budget u c p amt s).
Proof.
  intros Hb Hq. unfold upsert_budget. rewrite Hb, Hq.
  destruct (existsb _ (budgets s)); reflexivity.
Qed.

(** After an upsert the key has a row, and all rows of the key carry the
    amount set. *)
Lemma upsert_budget_rows u c p amt s :
  let rows := filter (budget_matches u c p) (budgets (upsert_budget u c p amt s)) in
  rows <> [] /\ (forall b, In b rows -> b_amount b = amt) /\
  List.length rows = Nat.max 1 (List.length (filter (budget_matches u c p) (budgets s))).
Proof.
  unfold upsert_budget.
  destruct (existsb (budget_matches u c p) (budgets s)) eqn:E; simpl.
  - rewrite (filter_update (budget_matches u c p)
               (fun b => mkBudget (b_id b) (b_user_id b) (b_category_id b)
                                  (b_period b) amt)).
    2:{ intros b Hb. erewrite budget_matches_same_key; eauto. }
    destruct (existsb_find_some _ _ E) as (x & Hx & Hk).
    apply find_some in Hx. destruct Hx as [Hin _].
    assert (Hin' : In x (filter (budget_matches u c p) (budgets s)))
      by (apply filter_In; auto).
    repeat split.
    + destruct (filter _ (budgets s)); [contradiction|discriminate].
    + intros b Hb. apply in_map_iff in Hb. destruct Hb as (b0 & <- & _).
      reflexivity.
    + rewrite length_map. destruct (filter _ (budgets s)); [contradiction|].
      simpl. lia.
  - rewrite filter_app, (existsb_false_filter _ _ E). simpl.
    assert (Hk : budget_matches u c p
                   (mkBudget (Sql.next_id (seq_budgets s)
                                (List.map b_id (budgets s))) u c p amt) = true)
      by (apply budget_matches_eq; simpl; auto).
    rewrite Hk. repeat split; try discriminate.
    intros b [<-|[]]. reflexivity.
Qed.

Lemma ensure_user_spec now uid s :
  exists s1, ensure_user now uid s = (Ok tt, s1) /\
    categories s1 = categories s /\ transactions s1 = transactions s /\
    budgets s1 = budgets s /\ seq_categories s1 = seq_categories s /\
    seq_transactions s1 = seq_transactions s /\ seq_budgets s1 = seq_budgets s.
Proof.
  unfold ensure_user, bind, get, put, ret.
  destruct (existsb _ (users s)); eexists; split; try reflexivity; simpl; tauto.
Qed.

Lemma upsert_category_frame uid name ty s c s1 :
  upsert_category uid name ty s = (Ok c, s1) ->
  users s1 = users s /\ transactions s1 = transactions s /\
  budgets s1 = budgets s /\ seq_transactions s1 = seq_transactions s /\
  seq_budgets s1 = seq_budgets s.
Proof.
  destruct (upsert_category_spec uid name ty s) as (c0 & s0 & H & _ & Hs).
  rewrite H. intros [= <- <-]. cbv zeta in Hs.
  destruct (existsb _ (categories s)).
  - subst s0. tauto.
  - destruct Hs as [-> _]. simpl. tauto.
Qed.

(** What [cmd_budget_set] does when its amount parses. *)
Lemma cmd_budget_set_spec now uid cat tok p rest amt s :
  py_float (replace_comma tok) = Ok amt ->
  let key := category_matches uid (lower (lower cat)) expense in
  exists c s1,
    cmd_budget_set now uid (cat :: tok :: p :: rest) s
    = (Ok (BudgetSet (lower cat) p amt), s1) /\
    find key (categories s1) = Some c /\
    (forall c0, find key (categories s) = Some c0 -> c = c0) /\
    budgets s1 = budgets (upsert_budget uid (c_id c) p (Sql.real amt) s).
Proof.
  intros Hamt key. unfold cmd_budget_set. rewrite Hamt.
  destruct (ensure_user_spec now uid s)
    as (sa & Hens & Hcat & _ & Hbud & _ & _ & Hseq).
  unfold bind at 1. rewrite Hens.
  unfold bind at 1. unfold resolve_category, bind at 1, get, ret. fold key.
  destruct (upsert_category_spec uid (lower cat) expense sa)
    as (c & sb & Hup & Hfind & Hcase).
  cbv zeta in Hcase. fold key in Hfind, Hcase.
  destruct (upsert_category_frame _ _ _ _ _ _ Hup) as (_ & _ & Hb' & _ & Hq').
  destruct (find key (categories sa)) as [c0|] eqn:Hf0; simpl.
  - rewrite (find_some_existsb _ _ _ Hf0) in Hcase. subst sb.
    assert (c = c0) by congruence. subst c0.
    exists c, (upsert_budget uid (c_id c) p (Sql.real amt) sa).
    repeat split.
    + destruct (c_id c =? 0) eqn:E0.
      * unfold bind at 1. rewrite Hup. unfold bind, get, put, ret. reflexivity.
      * unfold bind, get, put, ret. reflexivity.
    + unfold upsert_budget. destruct (existsb _ (budgets sa)); simpl; exact Hfind.
    + rewrite <- Hcat. congruence.
    + now apply upsert_budget_agree.
  - exists c, (upsert_budget uid (c_id c) p (Sql.real amt) sb).
    repeat split.
    + unfold bind at 1. rewrite Hup. unfold bind, get, put, ret. reflexivity.
    + unfold upsert_budget. destruct (existsb _ (budgets sb)); simpl; exact Hfind.
    + rewrite <- Hcat. congruence.
    + apply upsert_budget_agree; congruence.
Qed.

(** C8. Budget upsert: setting the budget of one (user, category, period)
    twice leaves exactly one row for the triple, holding the last limit;
    the second call adds no row and neither call fails. *)
Theorem budget_set_twice_one_row
    (now1 now2 : datetime) (uid : Z) (cat tok1 tok2 p : pystr)
    (a1 a2 : pyfloat) (s : db) :
  budgets_unique s ->
  py_float (replace_comma tok1) = Ok a1 ->
  py_float (replace_comma tok2) = Ok a2 ->
  exists s1 s2 c b,
    cmd_budget_set now1 uid [cat; tok1; p] s
    = (Ok (BudgetSet (lower cat) p a1), s1) /\
    cmd_budget_set now2 uid [cat; tok2; p] s1
    = (Ok (BudgetSet (lower cat) p a2), s2) /\
    find (category_matches uid (lower (lower cat)) expense) (categories s2)
    = Some c /\
    filter (budget_matches uid (c_id c) p) (budgets s2) = [b] /\
    b_amount b = Sql.real a2 /\
    List.length (budgets s2) = List.length (budgets s1) /\
    budgets_unique s2.
Proof.
  intros Huniq H1 H2.
  destruct (cmd_budget_set_spec now1 uid cat tok1 p [] a1 s H1)
    as (c1 & s1 & Hrun1 & Hf1 & _ & Hb1).
  destruct (cmd_budget_set_spec now2 uid cat tok2 p [] a2 s1 H2)
    as (c2 & s2 & Hrun2 & Hf2 & Hsame & Hb2).
  cbv zeta in *. specialize (Hsame c1 Hf1). subst c2.
  pose proof (upsert_budget_rows uid (c_id c1) p (Sql.real a1) s) as R1.
  pose proof (upsert_budget_rows uid (c_id c1) p (Sql.real a2) s1) as R2.
  cbv zeta in R1, R2. rewrite <- Hb1 in R1. rewrite <- Hb2 in R2.
  destruct R1 as (_ & _ & L1). destruct R2 as (_ & A2 & L2).
  assert (U1 : budgets_unique s1).
  { intros u c p'. rewrite Hb1. now apply upsert_budget_unique. }
  assert (U2 : budgets_unique s2).
  { intros u c p'. rewrite Hb2. now apply upsert_budget_unique. }
  pose proof (Huniq uid (c_id c1) p) as K0.
  assert (K1 : List.length (filter (budget_matches uid (c_id c1) p) (budgets s1)) = 1%nat)
    by lia.
  assert (K2 : List.length (filter (budget_matches uid (c_id c1) p) (budgets s2)) = 1%nat)
    by lia.
  destruct (filter (budget_matches uid (c_id c1) p) (budgets s2))
    as [|b [|b' l]] eqn:Hrows; try discriminate.
  exists s1, s2, c1, b. repeat split; auto.
  - apply A2. now left.
  - rewrite Hb2. unfold upsert_budget.
    destruct (existsb (budget_matches uid (c_id c1) p) (budgets s1)) eqn:E.
    + simpl. now rewrite length_map.
    + apply existsb_false_filter in E. rewrite E in K1. discriminate.
Qed.

Lemma budget_set_twice_one_row_witness :
  budgets_unique empty_db /\
  py_float (replace_comma (lit "1000")) = Ok (Fin 1000) /\
  py_float (replace_comma (lit "1500")) = Ok (Fin 1500) /\
  exists s1 s2 c b,
    cmd_budget_set (mkDatetime 2024 5 1 10 0 0 0) 1
                   [lit "food"; lit "1000"; lit "2024-05"] empty_db
    = (Ok (BudgetSet (lower (lit "food")) (lit "2024-05") (Fin 1000)), s1) /\
    cmd_budget_set (mkDatetime 2024 5 2 11 30 0 0) 1
                   [lit "food"; lit "1500"; lit "2024-05"] s1
    = (Ok (BudgetSet (lower (lit "food")) (lit "2024-05") (Fin 1500)), s2) /\
    find (category_matches 1 (lower (lower (lit "food"))) expense) (categories s2)
    = Some c /\
    filter (budget_matches 1 (c_id c) (lit "2024-05")) (budgets s2) = [b] /\
    b_amount b = Sql.real (Fin 1500) /\
    List.length (budgets s2) = List.length (budgets s1) /\
    budgets_unique s2.
Proof.
  assert (U : budgets_unique empty_db) by (intros u c p; simpl; lia).
  split; [exact U|]. split; [reflexivity|]. split; [reflexivity|].
  apply budget_set_twice_one_row; [exact U | reflexivity | reflexivity].
Defined.

(** ** Notes and category names *)

Lemma lstrip_head s :
  match lstrip s with
  | c :: _ => is_space c = false
  | [] => True
  end.
Proof.
  induction s as [|c s IH]; simpl; [exact I|].
  destruct (is_space c) eqn:E; [exact IH|exact E].
Qed.

Lemma lstrip_suffix s :
  exists ws, s = ws ++ lstrip s /\ forallb is_space ws = true.
Proof.
  induction s as [|c s (ws & Hs & Hw)]; simpl.
  - now exists [].
  - destruct (is_space c) eqn:E.
    + exists (c :: ws). simpl. rewrite E, Hw. split; [congruence|reflexivity].
    + now exists [].
Qed.

Lemma strip_head s :
  match strip s with
  | c :: _ => is_space c = false
  | [] => True
  end.
Proof.
  unfold strip, rstrip.
  pose proof (lstrip_head s) as Hh.
  destruct (lstrip_suffix (rev (lstrip s))) as (ws & Hr & _).
  set (u := lstrip (rev (lstrip s))) in *.
  apply (f_equal (@rev N)) in Hr. rewrite rev_involutive, rev_app_distr in Hr.
  destruct (rev u) as [|c r]; [exact I|].
  rewrite Hr in Hh. exact Hh.
Qed.

Lemma split_blank s : forallb is_space s = true -> PyStr.split s = [].
Proof.
  induction s as [|c s IH]; simpl; [reflexivity|].
  intros H. apply andb_true_iff in H. destruct H as [Hc Hs].
  rewrite Hc. auto.
Qed.

Lemma split_head c s :
  is_space c = false -> exists tok toks, PyStr.split (c :: s) = tok :: toks.
Proof.
  intros Hc. simpl. rewrite Hc.
  destruct s as [|d s']; [eauto|].
  destruct (is_space d); [eauto|].
  destruct (PyStr.split (d :: s')); eauto.
Qed.

Lemma split_first_token s :
  match PyStr.split s with
  | tok :: _ => tok = take_token (lstrip s)
  | [] => lstrip s = []
  end.
Proof.
  induction s as [|c s IH]; [reflexivity|].
  cbn [PyStr.split lstrip]. destruct (is_space c) eqn:Hc; [exact IH|].
  cbn [take_token]. rewrite Hc.
  destruct s as [|d s']; [reflexivity|].
  destruct (is_space d) eqn:Hd.
  - simpl. now rewrite Hd.
  - cbn [lstrip] in IH. rewrite Hd in IH.
    destruct (PyStr.split (d :: s')) as [|tok toks]; [discriminate|].
    now rewrite IH.
Qed.

Lemma category_of_note_empty : category_of_note [] = Ok FALLBACK_LABEL.
Proof. reflexivity. Qed.

Lemma category_of_note_token note :
  lstrip note <> [] ->
  category_of_note note = Ok (lower (take_token (lstrip note))).
Proof.
  intros Hn. unfold category_of_note.
  destruct note as [|c note']; [contradiction|].
  pose proof (split_first_token (c :: note')) as H.
  destruct (PyStr.split (c :: note')); [contradiction|now subst].
Qed.

Lemma category_of_note_blank note :
  note <> [] -> forallb is_space note = true ->
  category_of_note note = Raise IndexError.
Proof.
  intros Hn Hb. unfold category_of_note.
  destruct note; [contradiction|]. now rewrite split_blank.
Qed.

Lemma category_of_note_strip s : exists cn, category_of_note (strip s) = Ok cn.
Proof.
  pose proof (strip_head s) as H. unfold category_of_note.
  destruct (strip s) as [|c r]; [eauto|].
  destruct (split_head c r H) as (tok & toks & ->). eauto.
Qed.

(** ** The store invariant *)

Lemma filter_nil_when {A} (f : A -> bool) (l : list A) :
  (forall x, In x l -> f x = false) -> filter f l = [].
Proof.
  induction l as [|a l IH]; simpl; intros H; [reflexivity|].
  rewrite (H a) by now left. apply IH. intros x Hx. apply H. now right.
Qed.


Lemma max_id_ge ids x : In x ids -> x <= Sql.max_id ids.
Proof.
  induction ids as [|y ids IH]; simpl; [contradiction|].
  intros [->|H]; [lia|]. specialize (IH H). lia.
Qed.

Lemma next_id_fresh seq ids : ~ In (Sql.next_id seq ids) ids.
Proof.
  intros H. apply max_id_ge in H. unfold Sql.next_id in H. lia.
Qed.

Lemma store_ok_empty : store_ok empty_db.
Proof. split; [constructor|intros t []]. Qed.

Lemma store_ok_frame s s' :
  categories s' = categories s -> transactions s' = transactions s ->
  store_ok s -> store_ok s'.
Proof. unfold store_ok. intros -> ->. auto. Qed.

Lemma store_ok_refs s : store_ok s -> refs_ok s.
Proof.
  intros [Hnd Href] t Ht. destruct (Href t Ht) as (c & Hc & Hid).
  exists c. revert Hnd Hc. generalize (categories s) as cats.
  induction cats as [|c0 cats IH]; simpl; [contradiction|].
  intros Hnd Hin. inversion Hnd as [|? ? Hnot Hnd']; subst.
  destruct Hin as [->|Hin].
  - rewrite Hid, Z.eqb_refl. f_equal.
    apply filter_nil_when. intros c' Hc'. apply Z.eqb_neq. intros E.
    apply Hnot. rewrite Hid, <- E. now apply in_map.
  - destruct (c_id c0 =? t_category_id t) eqn:E.
    + apply Z.eqb_eq in E. exfalso. apply Hnot.
      rewrite E, <- Hid. now apply in_map.
    + now apply IH.
Qed.

Lemma upsert_category_store_ok uid name ty s id s1 :
  upsert_category uid name ty s = (Ok id, s1) ->
  store_ok s -> store_ok s1.
Proof.
  destruct (upsert_category_spec uid name ty s) as (c & s0 & H & _ & Hs).
  rewrite H. intros [= <- <-]. cbv zeta in Hs.
  destruct (existsb _ (categories s)); [now subst|].
  destruct Hs as [-> _]. intros [Hnd Href]. split; simpl.
  - rewrite map_app. simpl. apply NoDup_app; [exact Hnd|repeat constructor; auto|].
    intros a Ha [<-|[]]. now apply (next_id_fresh (seq_categories s)) in Ha.
  - intros t Ht. destruct (Href t Ht) as (c0 & Hc0 & Hid).
    exists c0. split; [apply in_or_app; now left|exact Hid].
Qed.

(** ** Recording a transaction *)

Lemma add_txn_core_ok now uid a note ty s cn :
  category_of_note note = Ok cn ->
  exists s1 t c,
    add_txn_core now uid a note ty s = (Ok cn, s1) /\
    transactions s1 = transactions s ++ [t] /\
    t_user_id t = uid /\ t_type t = ty /\ t_note t = note /\
    t_ts t = iso_utc now /\ t_amount t = stored_amount ty a /\
    find (category_matches uid (lower cn) ty) (categories s1) = Some c /\
    t_category_id t = c_id c /\ budgets s1 = budgets s /\
    (store_ok s -> store_ok s1).
Proof.
  intros Hcn. unfold add_txn_core.
  destruct (ensure_user_spec now uid s) as (sa & Hens & Hcat & Htx & Hbud & _).
  unfold bind at 1. rewrite Hens.
  unfold bind at 1, lift. rewrite Hcn.
  destruct (upsert_category_spec uid cn ty sa) as (c & sb & Hup & Hfind & _).
  destruct (upsert_category_frame _ _ _ _ _ _ Hup) as (_ & Htx' & Hbud' & _).
  unfold bind at 1. rewrite Hup. unfold bind, get, put, ret.
  eexists _, _, c. split; [reflexivity|]. simpl.
  rewrite Htx', Htx. repeat (split; [solve [auto | congruence]|]).
  intros Hok.
  apply (store_ok_frame s sa Hcat Htx) in Hok.
  apply (upsert_category_store_ok _ _ _ _ _ _ Hup) in Hok.
  destruct Hok as [Hnd Href]. split; [exact Hnd|].
  intros t Ht. simpl in Ht.
  apply in_app_or in Ht. destruct Ht as [Ht|[<-|[]]].
  - now apply Href.
  - exists c. split; [|reflexivity]. apply find_some in Hfind. tauto.
Qed.

Lemma add_txn_core_raise now uid a note ty s e :
  category_of_note note = Raise e ->
  fst (add_txn_core now uid a note ty s) = Raise e.
Proof.
  intros Hcn. unfold add_txn_core.
  destruct (ensure_user_spec now uid s) as (sa & Hens & _).
  unfold bind at 1. rewrite Hens.
  unfold bind at 1, lift. now rewrite Hcn.
Qed.

Lemma parse_accepts tok rest a :
  py_float (replace_comma tok) = Ok a ->
  parse_amount_and_note (tok :: rest)
  = mkParsed (Some a) (strip (join (lit " ") rest)).
Proof. intros H. unfold parse_amount_and_note. now rewrite H. Qed.

(** A parsed amount always comes with a stripped note. *)
Lemma parse_amount_note args a :
  amount (parse_amount_and_note args) = Some a ->
  exists raw, note (parse_amount_and_note args) = strip raw.
Proof.
  unfold parse_amount_and_note. destruct args as [|tok rest]; [discriminate|].
  destruct (py_float (replace_comma tok)); simpl; [eauto|discriminate].
Qed.

(** What [add_txn] does when the amount parses: one row is appended. *)
Lemma add_txn_spec now uid args ty a s :
  amount (parse_amount_and_note args) = Some a ->
  exists r s1 t,
    add_txn now uid args ty s = (Ok r, s1) /\
    transactions s1 = transactions s ++ [t] /\
    t_user_id t = uid /\ t_type t = ty /\
    t_amount t = stored_amount ty a /\
    (store_ok s -> store_ok s1).
Proof.
  intros Ha. unfold add_txn. rewrite Ha.
  destruct (parse_amount_note args a Ha) as (raw & Hnote).
  destruct (category_of_note_strip raw) as (cn & Hcn). rewrite <- Hnote in Hcn.
  destruct (add_txn_core_ok now uid a _ ty s cn Hcn)
    as (s1 & t & c & Hrun & Htx & Hu & Hty & _ & _ & Hamt & _ & _ & _ & Hok).
  unfold bind. rewrite Hrun. unfold ret. eauto 12.
Qed.

(** C4 as stated, for every magnitude the parser accepts, fails:
    [/inc -250] stores a negative income. *)
Lemma sign_invariant_fails_for_negative_amounts :
  ~ (forall now uid args ty a s,
        amount (parse_amount_and_note args) = Some a ->
        exists r s1 t,
          add_txn now uid args ty s = (Ok r, s1) /\
          transactions s1 = transactions s ++ [t] /\
          t_type t = ty /\
          sign_invariant ty a (t_amount t)).
Proof.
  intros H.
  destruct (H (mkDatetime 2024 5 15 9 30 0 0) 1 [lit "-250"] income
              (Fin (-250 # 1)) empty_db eq_refl)
    as (r & s1 & t & Hrun & Htx & _ & Hstored & Hsign).
  vm_compute in Hsign. discriminate.
Qed.

(** C4 (amended). Sign invariant: for every transaction recorded from a
    parsed magnitude that is not negative (and not NaN), an expense is
    stored as [-magnitude], which is below zero unless the magnitude is
    zero, and an income is stored as [+magnitude], which is not negative. *)
Theorem sign_invariant_nonnegative_magnitude
    (now : datetime) (uid : Z) (args : list pystr) (ty : ttype)
    (a : pyfloat) (s : db) :
  amount (parse_amount_and_note args) = Some a ->
  PyFloat.leb PyFloat.zero a = true ->
  exists r s1 t,
    add_txn now uid args ty s = (Ok r, s1) /\
    transactions s1 = transactions s ++ [t] /\
    t_type t = ty /\
    sign_invariant ty a (t_amount t).
Proof.
  intros Ha Hpos.
  destruct (add_txn_spec now uid args ty a s Ha)
    as (r & s1 & t & Hrun & Htx & _ & Hty & Hamt & _).
  exists r, s1, t. repeat split; auto.
  rewrite Hamt. unfold sign_invariant, stored_amount.
  destruct a as [q| | |]; simpl in Hpos; try discriminate.
  - destruct ty; simpl.
    + assert (Hq : Qabs q = q).
      { destruct q as [n d]. unfold Qle_bool in Hpos. simpl in Hpos.
        apply Z.leb_le in Hpos. simpl. f_equal. apply Z.abs_eq. lia. }
      rewrite Hq. split; [reflexivity|].
      destruct (Qle_bool 0 (- q)) eqn:E.
      * right. apply Qle_bool_iff in E, Hpos. lra.
      * now left.
    + now split.
  - destruct ty; simpl; auto.
Qed.

Lemma sign_invariant_nonnegative_magnitude_witness :
  amount (parse_amount_and_note [lit "250"; lit "coffee"; lit "morning"])
  = Some (Fin (250 # 1)) /\
  PyFloat.leb PyFloat.zero (Fin (250 # 1)) = true /\
  exists r s1 t,
    add_txn (mkDatetime 2024 5 15 9 30 0 0) 1
            [lit "250"; lit "coffee"; lit "morning"] expense empty_db
    = (Ok r, s1) /\
    transactions s1 = transactions empty_db ++ [t] /\
    t_type t = expense /\
    sign_invariant expense (Fin (250 # 1)) (t_amount t).
Proof.
  split; [reflexivity|]. split; [reflexivity|].
  apply sign_invariant_nonnegative_magnitude; reflexivity.
Defined.

(** C10. The amount parser accepts every token that [float] accepts once
    [","] is replaced by ["."], negative and non-finite ones included, and
    an income is stored as parsed: [/inc -250] persists an income row with
    a negative amount. *)
Theorem income_amount_stored_as_parsed (now : datetime) (uid : Z) (s : db) :
  (forall tok rest a,
      py_float (replace_comma tok) = Ok a ->
      parse_amount_and_note (tok :: rest)
      = mkParsed (Some a) (strip (join (lit " ") rest)) /\
      exists r s1 t,
        cmd_inc now uid (tok :: rest) s = (Ok r, s1) /\
        transactions s1 = transactions s ++ [t] /\
        t_type t = income /\ t_amount t = Sql.real a) /\
  (amount (parse_amount_and_note [lit "-250"]) = Some (Fin (-250 # 1)) /\
   amount (parse_amount_and_note [lit "inf"]) = Some PInf /\
   amount (parse_amount_and_note [lit "nan"]) = Some NaN) /\
  (exists r s1 t,
      cmd_inc now uid [lit "-250"] s = (Ok r, s1) /\
      transactions s1 = transactions s ++ [t] /\
      t_type t = income /\ t_amount t = Some (Fin (-250 # 1)) /\
      PyFloat.ltb (Fin (-250 # 1)) PyFloat.zero = true).
Proof.
  assert (Hgen : forall tok rest a,
      py_float (replace_comma tok) = Ok a ->
      parse_amount_and_note (tok :: rest)
      = mkParsed (Some a) (strip (join (lit " ") rest)) /\
      exists r s1 t,
        cmd_inc now uid (tok :: rest) s = (Ok r, s1) /\
        transactions s1 = transactions s ++ [t] /\
        t_type t = income /\ t_amount t = Sql.real a).
  { intros tok rest a Hf. pose proof (parse_accepts tok rest a Hf) as Hp.
    split; [exact Hp|].
    destruct (add_txn_spec now uid (tok :: rest) income a s)
      as (r & s1 & t & Hrun & Htx & _ & Hty & Hamt & _).
    { now rewrite Hp. }
    exists r, s1, t. auto. }
  split; [exact Hgen|]. split; [repeat split|].
  destruct (Hgen (lit "-250") [] (Fin (-250 # 1)) eq_refl)
    as (_ & r & s1 & t & Hrun & Htx & Hty & Hamt).
  exists r, s1, t. repeat split; auto.
Qed.

Lemma income_amount_stored_as_parsed_witness :
  py_float (replace_comma (lit "-12,5")) = Ok (Fin (-125 # 10)) /\
  parse_amount_and_note [lit "-12,5"; lit "refund"]
  = mkParsed (Some (Fin (-125 # 10))) (strip (join (lit " ") [lit "refund"])).
Proof.
  split; [reflexivity|].
  apply (proj1 (income_amount_stored_as_parsed
                  (mkDatetime 2024 5 15 9 30 0 0) 1 empty_db)).
  reflexivity.
Defined.

(** C6. A note that is not empty but holds white space only has no first
    token: deriving the category raises [IndexError] and nothing is
    recorded, instead of the fallback label being used. *)
Theorem blank_note_raises
    (now : datetime) (uid : Z) (a : pyfloat) (ty : ttype) (s : db)
    (note : pystr) :
  note <> [] ->
  forallb is_space note = true ->
  category_of_note note = Raise IndexError /\
  fst (add_txn_core now uid a note ty s) = Raise IndexError /\
  transactions (snd (add_txn_core now uid a note ty s)) = transactions s.
Proof.
  intros Hn Hb. pose proof (category_of_note_blank note Hn Hb) as Hc.
  split; [exact Hc|]. split; [now apply add_txn_core_raise|].
  unfold add_txn_core.
  destruct (ensure_user_spec now uid s) as (sa & Hens & _ & Htx & _).
  unfold bind at 1. rewrite Hens.
  unfold bind at 1, lift. rewrite Hc. exact Htx.
Qed.

Lemma blank_note_raises_witness :
  lit " " <> [] /\
  forallb is_space (lit " ") = true /\
  category_of_note (lit " ") = Raise IndexError /\
  fst (add_txn_core (mkDatetime 2024 5 15 9 30 0 0) 1 (Fin (250 # 1))
                    (lit " ") expense empty_db) = Raise IndexError /\
  transactions (snd (add_txn_core (mkDatetime 2024 5 15 9 30 0 0) 1
                                  (Fin (250 # 1)) (lit " ") expense empty_db))
  = transactions empty_db.
Proof.
  split; [discriminate|]. split; [reflexivity|].
  apply blank_note_raises; [discriminate|reflexivity].
Defined.

(** ** Totals *)

(** C2. When no transaction of the user is at or after the start bound,
    [get_totals] yields the row (NULL, NULL, NULL), not zeros: the
    aggregate query always returns one row, so [row or (0, 0, 0)] keeps the
    NULLs, and [cmd_sum] fails with [TypeError] when it formats them. *)
Theorem totals_null_without_rows
    (now : datetime) (uid : Z) (start_iso : pystr) (s : db) :
  (forall t, In t (transactions s) -> t_user_id t = uid ->
             PyStr.leb start_iso (t_ts t) = false) ->
  get_totals uid start_iso s = (Ok (Some (None, None, None)), s) /\
  or_zeros (Some (None, None, None)) = (None, None, None) /\
  (start_iso = iso_utc (first_of_month now) ->
   cmd_sum now uid s = (Raise TypeError, s)).
Proof.
  intros Hnone.
  assert (Hrows : filter (fun t => (t_user_id t =? uid)
                                   && PyStr.leb start_iso (t_ts t))
                         (transactions s) = []).
  { apply filter_nil_when. intros t Ht.
    destruct (t_user_id t =? uid) eqn:E; [|reflexivity].
    apply Z.eqb_eq in E. simpl. now apply Hnone. }
  assert (Hget : get_totals uid start_iso s = (Ok (Some (None, None, None)), s)).
  { unfold get_totals, bind, get, ret. now rewrite Hrows. }
  split; [exact Hget|]. split; [reflexivity|].
  intros ->. unfold cmd_sum. unfold bind at 1. now rewrite Hget.
Qed.

Lemma totals_null_without_rows_witness :
  (forall t, In t (transactions empty_db) -> t_user_id t = 1 ->
             PyStr.leb (lit "2024-05-01T00:00:00Z") (t_ts t) = false) /\
  get_totals 1 (lit "2024-05-01T00:00:00Z") empty_db
  = (Ok (Some (None, None, None)), empty_db) /\
  or_zeros (Some (None, None, None)) = (None, None, None) /\
  (lit "2024-05-01T00:00:00Z"
   = iso_utc (first_of_month (mkDatetime 2024 5 15 9 30 0 0)) ->
   cmd_sum (mkDatetime 2024 5 15 9 30 0 0) 1 empty_db
   = (Raise TypeError, empty_db)).
Proof.
  assert (H : forall t, In t (transactions empty_db) -> t_user_id t = 1 ->
                        PyStr.leb (lit "2024-05-01T00:00:00Z") (t_ts t) = false)
    by (intros t []).
  split; [exact H|].
  exact (totals_null_without_rows (mkDatetime 2024 5 15 9 30 0 0) 1
           (lit "2024-05-01T00:00:00Z") empty_db H).
Defined.

(** ** Digest *)

(** C1. The digest of a user whose hour has come reports, as "today", the
    totals since the midnight of the day before ([y0]); the midnight of the
    current day ([y1]) is computed and not used.  "This month" is the
    totals since the first instant of the current month. *)
Theorem digest_today_starts_yesterday
    (now yesterday : datetime) (uid : Z) (h : option Z) (s : db)
    (inc_d exp_d net_d inc_m exp_m net_m : pyfloat) :
  hour now = match h with
             | None => DAILY_DIGEST_HOUR_UTC
             | Some x => x
             end ->
  minus_one_day now = Ok yesterday ->
  fst (get_totals uid (iso_utc (midnight yesterday)) s)
  = Ok (Some (Some inc_d, Some exp_d, Some net_d)) ->
  fst (get_totals uid (iso_utc (first_of_month now)) s)
  = Ok (Some (Some inc_m, Some exp_m, Some net_m)) ->
  fst (digest_user now (uid, h) s)
  = Ok (Some (uid, Digest inc_d exp_d net_d inc_m exp_m net_m)).
Proof.
  intros Hh Hy Hd Hm. unfold digest_user. rewrite <- Hh, Z.eqb_refl.
  unfold bind at 1, lift. rewrite Hy.
  unfold get_totals, bind, get, ret in *. simpl in *.
  injection Hd as -> -> ->. injection Hm as -> -> ->. reflexivity.
Qed.

(** At 18:00 on 2024-05-15 the digest of a user whose only transaction is
    an expense of 100 made at noon the day before reports that expense as
    today's, although the totals since today's midnight have no row. *)
Lemma digest_today_starts_yesterday_witness :
  hour (mkDatetime 2024 5 15 18 0 0 0) = DAILY_DIGEST_HOUR_UTC /\
  minus_one_day (mkDatetime 2024 5 15 18 0 0 0)
  = Ok (mkDatetime 2024 5 14 18 0 0 0) /\
  fst (get_totals 1 (lit "2024-05-14T00:00:00Z")
         (snd (cmd_add (mkDatetime 2024 5 14 12 0 0 0) 1
                       [lit "100"; lit "taxi"] empty_db)))
  = Ok (Some (Some (Fin (0 # 100)), Some (Fin (10000 # 100)),
              Some (Fin (-10000 # 100)))) /\
  fst (get_totals 1 (lit "2024-05-15T00:00:00Z")
         (snd (cmd_add (mkDatetime 2024 5 14 12 0 0 0) 1
                       [lit "100"; lit "taxi"] empty_db)))
  = Ok (Some (None, None, None)) /\
  fst (digest_user (mkDatetime 2024 5 15 18 0 0 0) (1, None)
         (snd (cmd_add (mkDatetime 2024 5 14 12 0 0 0) 1
                       [lit "100"; lit "taxi"] empty_db)))
  = Ok (Some (1, Digest (Fin (0 # 100)) (Fin (10000 # 100))
                        (Fin (-10000 # 100))
                        (Fin (0 # 100)) (Fin (10000 # 100))
                        (Fin (-10000 # 100)))).
Proof.
  split; [reflexivity|]. split; [reflexivity|].
  split; [vm_compute; reflexivity|]. split; [vm_compute; reflexivity|].
  apply (digest_today_starts_yesterday
           (mkDatetime 2024 5 15 18 0 0 0) (mkDatetime 2024 5 14 18 0 0 0));
    vm_compute; reflexivity.
Defined.

(** ** Period arguments *)

(** C5. The period argument of the budget commands is not validated:
    [/budget_view 2024-13] and [/budget_view garbage] end in [ValueError],
    [/budget_set food 1000 2024-13] stores a budget under the period
    ["2024-13"], and [/list 0000-05], which passes the check of the
    [YYYY-MM] form, ends in [ValueError] as well. *)
Theorem budget_period_not_validated (now : datetime) (uid : Z) (s : db) :
  fst (cmd_budget_view now uid [lit "2024-13"] s) = Raise ValueError /\
  fst (cmd_budget_view now uid [lit "garbage"] s) = Raise ValueError /\
  (exists r s1 b,
      cmd_budget_set now uid [lit "food"; lit "1000"; lit "2024-13"] s
      = (Ok r, s1) /\
      In b (budgets s1) /\ b_user_id b = uid /\ b_period b = lit "2024-13") /\
  fst (cmd_list now uid [lit "0000-05"] s) = Raise ValueError.
Proof.
  destruct (ensure_user_spec now uid s) as (sa & Hens & _).
  assert (Hview : forall p, period_bounds p = Raise ValueError ->
                            fst (cmd_budget_view now uid [p] s) = Raise ValueError).
  { intros p Hp. unfold cmd_budget_view. unfold bind at 1. rewrite Hens.
    unfold bind at 1, lift. now rewrite Hp. }
  split; [apply Hview; vm_compute; reflexivity|].
  split; [apply Hview; vm_compute; reflexivity|].
  split.
  - destruct (cmd_budget_set_spec now uid (lit "food") (lit "1000")
                (lit "2024-13") [] (Fin (1000 # 1)) s eq_refl)
      as (c & s1 & Hrun & _ & _ & Hb).
    pose proof (upsert_budget_rows uid (c_id c) (lit "2024-13")
                  (Sql.real (Fin (1000 # 1))) s) as (Hne & _ & _).
    rewrite <- Hb in Hne.
    destruct (filter (budget_matches uid (c_id c) (lit "2024-13")) (budgets s1))
      as [|b l] eqn:Hrows; [contradiction|].
    assert (Hin : In b (filter (budget_matches uid (c_id c) (lit "2024-13"))
                               (budgets s1))) by (rewrite Hrows; now left).
    apply filter_In in Hin. destruct Hin as [Hin Hk].
    apply budget_matches_eq in Hk. destruct Hk as (Hu & _ & Hp).
    eexists _, s1, b. split; [exact Hrun|]. auto.
  - unfold cmd_list.
    replace (period_arg now [lit "0000-05"]) with (lit "0000-05")
      by (vm_compute; reflexivity).
    unfold bind at 1, lift.
    replace (period_bounds (lit "0000-05"))
      with (@Raise (pystr * pystr) ValueError) by (vm_compute; reflexivity).
    reflexivity.
Qed.

(** ** The order of stored timestamps *)

Lemma compare_refl a : PyStr.compare a a = Eq.
Proof.
  induction a as [|x a IH]; simpl; [reflexivity|].
  now rewrite N.compare_refl.
Qed.

Lemma compare_eq a b : PyStr.compare a b = Eq -> a = b.
Proof.
  revert b. induction a as [|x a IH]; destruct b as [|y b]; simpl;
    try discriminate; [reflexivity|].
  destruct (N.compare_spec x y) as [Hxy|Hxy|Hxy]; try discriminate.
  intros Hc. subst. f_equal. now apply IH.
Qed.

Lemma compare_lt_trans a b c :
  PyStr.compare a b = Lt -> PyStr.compare b c = Lt -> PyStr.compare a c = Lt.
Proof.
  revert b c. induction a as [|x a IH]; destruct b as [|y b], c as [|z c];
    simpl; try discriminate; auto.
  destruct (N.compare_spec x y) as [Hxy|Hxy|Hxy],
           (N.compare_spec y z) as [Hyz|Hyz|Hyz]; try discriminate;
    subst; intros H1 H2.
  - rewrite N.compare_refl. eauto.
  - now apply N.compare_lt_iff in Hyz as ->.
  - now apply N.compare_lt_iff in Hxy as ->.
  - assert (Hxz : (x < z)%N) by lia. now apply N.compare_lt_iff in Hxz as ->.
Qed.

Lemma ltb_lt a b : PyStr.ltb a b = true <-> PyStr.compare a b = Lt.
Proof. unfold PyStr.ltb. destruct (PyStr.compare a b); split; congruence. Qed.

Lemma leb_le a b : PyStr.leb a b = true <-> PyStr.compare a b <> Gt.
Proof. unfold PyStr.leb. destruct (PyStr.compare a b); split; congruence. Qed.

Lemma compare_lt_le_trans a b c :
  PyStr.compare a b = Lt -> PyStr.leb b c = true -> PyStr.compare a c = Lt.
Proof.
  intros Hab Hbc. apply leb_le in Hbc.
  destruct (PyStr.compare b c) eqn:E; try congruence.
  - apply compare_eq in E. now subst.
  - eapply compare_lt_trans; eauto.
Qed.

Lemma compare_le_lt_trans a b c :
  PyStr.leb a b = true -> PyStr.compare b c = Lt -> PyStr.compare a c = Lt.
Proof.
  intros Hab Hbc. apply leb_le in Hab.
  destruct (PyStr.compare a b) eqn:E; try congruence.
  - apply compare_eq in E. now subst.
  - eapply compare_lt_trans; eauto.
Qed.

(** Two ranges, the first ending where or before the second starts, share
    no timestamp. *)
Lemma in_range_disjoint s1 e1 s2 e2 ts :
  PyStr.leb e1 s2 = true ->
  in_range s1 e1 ts = true -> in_range s2 e2 ts = false.
Proof.
  unfold in_range. intros He H1.
  apply andb_true_iff in H1. destruct H1 as [_ H1]. apply ltb_lt in H1.
  destruct (PyStr.leb s2 ts) eqn:E; [|reflexivity].
  pose proof (compare_lt_le_trans _ _ _ H1 He) as H.
  pose proof (compare_lt_le_trans _ _ _ H E) as H'.
  rewrite compare_refl in H'. discriminate.
Qed.

Lemma compare_app a b x y :
  List.length a = List.length b ->
  PyStr.compare (a ++ x) (b ++ y)
  = match PyStr.compare a b with
    | Eq => PyStr.compare x y
    | c => c
    end.
Proof.
  revert b. induction a as [|h a IH]; destruct b as [|k b]; simpl;
    try discriminate; [reflexivity|].
  intros [= Hl]. destruct (N.compare h k); auto.
Qed.

Lemma increasing_spec f w n i :
  increasing f w n i = true ->
  forall a, i <= a <= i + Z.of_nat n ->
    List.length (f a) = w /\
    forall b, a < b <= i + Z.of_nat n -> PyStr.compare (f a) (f b) = Lt.
Proof.
  revert i. induction n as [|n IH]; intros i H a Ha.
  - simpl in H. apply Nat.eqb_eq in H. assert (a = i) by lia. subst a.
    split; [exact H|]. intros b Hb. lia.
  - cbn [increasing] in H. apply andb_true_iff in H. destruct H as [Hhd Hrest].
    apply andb_true_iff in Hhd. destruct Hhd as [Hw Hlt].
    apply Nat.eqb_eq in Hw. apply ltb_lt in Hlt.
    specialize (IH (i + 1) Hrest).
    destruct (Z.eq_dec a i) as [->|Hne].
    + split; [exact Hw|]. intros b Hb.
      destruct (Z.eq_dec b (i + 1)) as [->|Hb']; [exact Hlt|].
      eapply compare_lt_trans; [exact Hlt|].
      apply (IH (i + 1)); lia.
    + destruct (IH a) as [Hwa Hlta]; [lia|].
      split; [exact Hwa|]. intros b Hb. apply Hlta. lia.
Qed.

Lemma years_increasing :
  increasing (fmt_0d 4) 4 (Z.to_nat 9998) 1 = true.
Proof. vm_compute. reflexivity. Qed.

Lemma months_increasing :
  increasing (fmt_0d 2) 2 (Z.to_nat 11) 1 = true.
Proof. vm_compute. reflexivity. Qed.

Lemma first_instant_eq y m :
  first_instant y m
  = fmt_0d 4 y ++ lit "-" ++ fmt_0d 2 m ++ lit "-01T00:00:00Z".
Proof.
  unfold first_instant, iso_utc. cbn [year month day hour minute second microsecond].
  rewrite Z.eqb_refl.
  replace (fmt_0d 2 1) with (lit "01") by (vm_compute; reflexivity).
  replace (fmt_0d 2 0) with (lit "00") by (vm_compute; reflexivity).
  reflexivity.
Qed.

(** Month starts are ordered as text the way the months are in time. *)
Lemma first_instant_mono y1 m1 y2 m2 :
  valid_month y1 m1 -> valid_month y2 m2 ->
  month_index y1 m1 < month_index y2 m2 ->
  PyStr.compare (first_instant y1 m1) (first_instant y2 m2) = Lt.
Proof.
  unfold valid_month, month_index. intros (Hy1 & Hm1) (Hy2 & Hm2) Hlt.
  rewrite !first_instant_eq.
  pose proof (increasing_spec _ _ _ _ years_increasing) as HY.
  pose proof (increasing_spec _ _ _ _ months_increasing) as HM.
  rewrite Z2Nat.id in HY, HM by lia.
  destruct (HY y1) as [Lw1 Lt1]; [lia|]. destruct (HY y2) as [Lw2 _]; [lia|].
  destruct (HM m1) as [Mw1 Mt1]; [lia|]. destruct (HM m2) as [Mw2 _]; [lia|].
  rewrite compare_app by congruence.
  destruct (Z.eq_dec y1 y2) as [->|Hy].
  - rewrite compare_refl. change (lit "-") with [45%N]. cbn [app PyStr.compare].
    rewrite N.compare_refl, compare_app by congruence.
    rewrite Mt1 by lia. reflexivity.
  - rewrite Lt1 by lia. reflexivity.
Qed.

Lemma first_instant_le y1 m1 y2 m2 :
  valid_month y1 m1 -> valid_month y2 m2 ->
  month_index y1 m1 <= month_index y2 m2 ->
  PyStr.leb (first_instant y1 m1) (first_instant y2 m2) = true.
Proof.
  intros V1 V2 Hle. apply leb_le.
  destruct (Z.eq_dec (month_index y1 m1) (month_index y2 m2)) as [E|E].
  - assert (y1 = y2 /\ m1 = m2) as [-> ->]
      by (unfold valid_month, month_index in *; lia).
    rewrite compare_refl. discriminate.
  - rewrite first_instant_mono; auto; [discriminate|lia].
Qed.

(** The bounds of a month that has a next month. *)
Lemma month_bounds_utc_ok y m :
  valid_month y m -> month_index y m < month_index 9999 12 ->
  let y' := y + (if m =? 12 then 1 else 0) in
  let m' := if m =? 12 then 1 else m + 1 in
  month_bounds_utc y m = Ok (first_instant y m, first_instant y' m') /\
  valid_month y' m' /\ month_index y' m' = month_index y m + 1.
Proof.
  intros (Hy & Hm) Hlt y' m'. unfold valid_month, month_index in *.
  assert (V' : 1 <= y' <= 9999 /\ 1 <= m' <= 12)
    by (subst y' m'; destruct (m =? 12) eqn:E;
        [apply Z.eqb_eq in E|apply Z.eqb_neq in E]; lia).
  assert (D : forall a b, 1 <= a <= 9999 -> 1 <= b <= 12 ->
                          mk_date a b 1 = Ok (mkDatetime a b 1 0 0 0 0)).
  { intros a b Ha Hb. unfold mk_date, MINYEAR, MAXYEAR.
    assert (1 <= days_in_month a b).
    { unfold days_in_month.
      destruct (b =? 2); [destruct (is_leap a); lia|].
      destruct ((b =? 4) || (b =? 6) || (b =? 9) || (b =? 11)); lia. }
    repeat match goal with
           | |- context [?u <=? ?v] =>
               replace (u <=? v) with true by (symmetry; apply Z.leb_le; lia)
           end.
    reflexivity. }
  split; [|split; [exact V'|]].
  - unfold month_bounds_utc. fold y' m'.
    rewrite (D y m), (D y' m') by tauto. reflexivity.
  - subst y' m'. destruct (m =? 12) eqn:E;
      [apply Z.eqb_eq in E|apply Z.eqb_neq in E]; lia.
Qed.

Lemma month_bounds_utc_valid y m start_iso end_iso :
  month_bounds_utc y m = Ok (start_iso, end_iso) ->
  valid_month y m /\ month_index y m < month_index 9999 12.
Proof.
  unfold month_bounds_utc, mk_date, MINYEAR, MAXYEAR, valid_month, month_index.
  destruct ((1 <=? y) && (y <=? 9999) && (1 <=? m) && (m <=? 12) && (1 <=? 1)
            && (1 <=? days_in_month y m)) eqn:E1; [|discriminate].
  destruct ((1 <=? y + (if m =? 12 then 1 else 0))
            && (y + (if m =? 12 then 1 else 0) <=? 9999)
            && (1 <=? (if m =? 12 then 1 else m + 1))
            && ((if m =? 12 then 1 else m + 1) <=? 12) && (1 <=? 1)
            && (1 <=? days_in_month (y + (if m =? 12 then 1 else 0))
                        (if m =? 12 then 1 else m + 1))) eqn:E2; [|discriminate].
  intros _. rewrite !andb_true_iff, !Z.leb_le in E1, E2.
  destruct (m =? 12) eqn:E; [apply Z.eqb_eq in E|apply Z.eqb_neq in E]; lia.
Qed.

(** The last month of the [datetime] range has no end bound. *)
Lemma month_bounds_utc_last : month_bounds_utc 9999 12 = Raise ValueError.
Proof. reflexivity. Qed.

(** ** Month ranges *)

Lemma insert_by_perm {A} (le : A -> A -> bool) x l :
  Permutation (Sql.insert_by le x l) (x :: l).
Proof.
  induction l as [|y l IH]; simpl; [reflexivity|].
  destruct (le x y); [reflexivity|].
  rewrite IH. apply perm_swap.
Qed.

Lemma order_by_perm {A} (le : A -> A -> bool) l :
  Permutation (Sql.order_by le l) l.
Proof.
  induction l as [|x l IH]; simpl; [reflexivity|].
  unfold Sql.order_by in *. simpl. rewrite insert_by_perm. now constructor.
Qed.

Lemma period_rows_In uid start_iso end_iso s t c :
  In (t, c) (period_rows uid start_iso end_iso s) <->
  In t (transactions s) /\ t_user_id t = uid /\
  PyStr.leb start_iso (t_ts t) = true /\ PyStr.ltb (t_ts t) end_iso = true /\
  In c (categories s) /\ c_id c = t_category_id t.
Proof.
  unfold period_rows, in_range. rewrite in_flat_map. split.
  - intros (t0 & Ht0 & Hin). apply filter_In in Ht0. destruct Ht0 as [Ht0 Hw].
    apply in_map_iff in Hin. destruct Hin as (c0 & [= <- <-] & Hc0).
    apply filter_In in Hc0. destruct Hc0 as [Hc0 Hid].
    rewrite !andb_true_iff, Z.eqb_eq in Hw. rewrite Z.eqb_eq in Hid. tauto.
  - intros (Ht & Hu & Hs & He & Hc & Hid). exists t. split.
    + apply filter_In. rewrite !andb_true_iff, Z.eqb_eq. tauto.
    + apply in_map_iff. exists c. split; [reflexivity|].
      apply filter_In. rewrite Z.eqb_eq. tauto.
Qed.

(** Half-open month bounds on the stored strings: for a month of the
    [datetime] range that has a next month, [month_bounds_utc] returns the first instant of the
    month and the first instant of the next month (December rolls to
    January of the next year); the rows that the month queries of list and
    export draw from are exactly the user's transactions with
    [start <= ts < end]; the ranges of two different months share no
    timestamp; and 2024-03-01T00:00:00Z lies in March only,
    2024-02-29T23:59:59Z in February only. *)
Theorem half_open_month_bounds (y m : Z) :
  valid_month y m -> month_index y m < month_index 9999 12 ->
  exists y' m',
    month_bounds_utc y m = Ok (first_instant y m, first_instant y' m') /\
    valid_month y' m' /\ month_index y' m' = month_index y m + 1 /\
    (m = 12 -> y' = y + 1 /\ m' = 1) /\
    (m <> 12 -> y' = y /\ m' = m + 1) /\
    (forall uid s t c,
        In (t, c) (period_rows uid (first_instant y m) (first_instant y' m') s)
        <-> In t (transactions s) /\ t_user_id t = uid /\
            PyStr.leb (first_instant y m) (t_ts t) = true /\
            PyStr.ltb (t_ts t) (first_instant y' m') = true /\
            In c (categories s) /\ c_id c = t_category_id t) /\
    (forall uid s,
        Permutation (export_rows uid (first_instant y m) (first_instant y' m') s)
          (List.map export_row
             (period_rows uid (first_instant y m) (first_instant y' m') s))) /\
    (forall y2 m2 start2 end2 ts,
        month_bounds_utc y2 m2 = Ok (start2, end2) ->
        (y2, m2) <> (y, m) ->
        in_range (first_instant y m) (first_instant y' m') ts = true ->
        in_range start2 end2 ts = false) /\
    (month_bounds_utc 2024 3
     = Ok (lit "2024-03-01T00:00:00Z", lit "2024-04-01T00:00:00Z") /\
     month_bounds_utc 2024 2
     = Ok (lit "2024-02-01T00:00:00Z", lit "2024-03-01T00:00:00Z") /\
     in_range (lit "2024-03-01T00:00:00Z") (lit "2024-04-01T00:00:00Z")
              (lit "2024-03-01T00:00:00Z") = true /\
     in_range (lit "2024-02-01T00:00:00Z") (lit "2024-03-01T00:00:00Z")
              (lit "2024-03-01T00:00:00Z") = false /\
     in_range (lit "2024-02-01T00:00:00Z") (lit "2024-03-01T00:00:00Z")
              (lit "2024-02-29T23:59:59Z") = true /\
     in_range (lit "2024-03-01T00:00:00Z") (lit "2024-04-01T00:00:00Z")
              (lit "2024-02-29T23:59:59Z") = false).
Proof.
  intros V Hlast.
  destruct (month_bounds_utc_ok y m V Hlast) as (Hb & V' & Hidx).
  set (y' := y + (if m =? 12 then 1 else 0)) in *.
  set (m' := if m =? 12 then 1 else m + 1) in *.
  exists y', m'. split; [exact Hb|]. split; [exact V'|]. split; [exact Hidx|].
  split; [|split; [|split; [|split; [|split]]]].
  - intros ->. subst y' m'. simpl. split; reflexivity.
  - intros Hm. subst y' m'. apply Z.eqb_neq in Hm. rewrite Hm. lia.
  - intros uid s t c. apply period_rows_In.
  - intros uid s. unfold export_rows. apply Permutation_map, order_by_perm.
  - intros y2 m2 start2 end2 ts Hb2 Hne Hin.
    destruct (month_bounds_utc_valid _ _ _ _ Hb2) as (V2 & Hlast2).
    destruct (month_bounds_utc_ok y2 m2 V2 Hlast2) as (Hb2' & V2' & Hidx2).
    rewrite Hb2 in Hb2'. injection Hb2' as -> ->.
    assert (Hidx_ne : month_index y2 m2 <> month_index y m).
    { intros E. apply Hne. unfold valid_month, month_index in *.
      assert (y2 = y) by lia. assert (m2 = m) by lia. congruence. }
    destruct (Z.lt_ge_cases (month_index y m) (month_index y2 m2)) as [L|G].
    + eapply in_range_disjoint; [|exact Hin].
      apply first_instant_le; auto. lia.
    + destruct (in_range (first_instant y2 m2) _ ts) eqn:E2; [|reflexivity].
      assert (Hle : PyStr.leb
                      (first_instant (y2 + (if m2 =? 12 then 1 else 0))
                                     (if m2 =? 12 then 1 else m2 + 1))
                      (first_instant y m) = true)
        by (apply first_instant_le; auto; lia).
      rewrite (in_range_disjoint _ _ _ _ _ Hle E2) in Hin. discriminate.
  - repeat split; vm_compute; reflexivity.
Qed.

Lemma half_open_month_bounds_witness :
  valid_month 2024 12 /\ month_index 2024 12 < month_index 9999 12 /\
  exists y' m',
    month_bounds_utc 2024 12 = Ok (first_instant 2024 12, first_instant y' m') /\
    valid_month y' m' /\ month_index y' m' = month_index 2024 12 + 1 /\
    (12 = 12 -> y' = 2024 + 1 /\ m' = 1).
Proof.
  assert (V : valid_month 2024 12) by (unfold valid_month; lia).
  assert (L : month_index 2024 12 < month_index 9999 12)
    by (unfold month_index; lia).
  split; [exact V|]. split; [exact L|].
  destruct (half_open_month_bounds 2024 12 V L)
    as (y' & m' & Hb & V' & Hi & Hdec & _).
  exists y', m'. auto.
Defined.

(** A timestamp with a fraction of a second is stored with the fraction
    before the ["Z"], and ["."] sorts before ["Z"]. *)
Lemma fraction_sorts_before_whole_second :
  iso_utc (mkDatetime 2024 3 1 0 0 0 500000) = lit "2024-03-01T00:00:00.500000Z"
  /\ PyStr.ltb (lit "2024-03-01T00:00:00.500000Z") (lit "2024-03-01T00:00:00Z")
     = true.
Proof. split; vm_compute; reflexivity. Qed.

(** ** Export and totals *)

Lemma round2_Q_comp p q : (p == q)%Q -> PyFloat.round2_Q p = PyFloat.round2_Q q.
Proof.
  intros H. unfold PyFloat.round2_Q.
  assert (Hb : Qle_bool 0 p = Qle_bool 0 q) by now rewrite H.
  assert (H1 : Qfloor (p * 100 + (1 # 2)) = Qfloor (q * 100 + (1 # 2)))
    by now rewrite H.
  assert (H2 : Qfloor (- p * 100 + (1 # 2)) = Qfloor (- q * 100 + (1 # 2)))
    by now rewrite H.
  now rewrite Hb, H1, H2.
Qed.

Lemma fold_left_Qplus l a : (fold_left Qplus l a == a + Qsum l)%Q.
Proof.
  revert a. induction l as [|x l IH]; intros a; simpl.
  - ring.
  - rewrite IH. ring.
Qed.

Lemma Qsum_perm l l' : Permutation l l' -> (Qsum l == Qsum l')%Q.
Proof.
  induction 1; simpl.
  - reflexivity.
  - now rewrite IHPermutation.
  - ring.
  - now rewrite IHPermutation1.
Qed.


Lemma Qsum_filter {A} (p : A -> bool) (f : A -> Q) l :
  (Qsum (List.map f (filter p l))
   == Qsum (List.map (fun x => if p x then f x else 0) l))%Q.
Proof.
  induction l as [|a l IH]; simpl; [reflexivity|].
  destruct (p a); simpl; rewrite IH; ring.
Qed.



(** Under referential integrity the join yields one row per transaction. *)
Lemma join_one_row (cats : list category) (l : list txn) :
  (forall t, In t l ->
     exists c, filter (fun c => c_id c =? t_category_id t) cats = [c]) ->
  List.map fst
    (flat_map (fun t => List.map (fun c => (t, c))
                          (filter (fun c => c_id c =? t_category_id t) cats)) l)
  = l.
Proof.
  induction l as [|t l IH]; simpl; intros H; [reflexivity|].
  destruct (H t) as (c & Hc); [now left|]. rewrite Hc. simpl.
  f_equal. apply IH. intros t' Ht'. apply H. now right.
Qed.


Lemma non_null_amounts (f : txn -> option pyfloat) (g : txn -> Q) l :
  (forall t, In t l -> f t = Some (Fin (g t))) ->
  Sql.non_null (List.map f l) = List.map Fin (List.map g l).
Proof.
  induction l as [|t l IH]; simpl; intros H; [reflexivity|].
  rewrite (H t) by now left. f_equal. apply IH. intros x Hx. apply H. now right.
Qed.

(** ** Binary64 sums that are exact *)

(** A whole number below [2^53] in magnitude is a binary64 number. *)
Lemma round64_exact q z :
  (q == inject_Z z)%Q -> Z.abs z < 2 ^ 53 -> PyFloat.round64 q = Fin q.
Proof.
  intros Hq Hz. unfold Qeq in Hq. simpl in Hq. rewrite Z.mul_1_r in Hq.
  unfold PyFloat.round64.
  set (n := Z.abs (Qnum q)). set (d := Z.pos (Qden q)).
  assert (Hd : 0 < d) by (unfold d; lia).
  assert (Hn : n = Z.abs z * d).
  { unfold n. rewrite Hq, Z.abs_mul. reflexivity. }
  destruct (n =? 0) eqn:En; [reflexivity|]. apply Z.eqb_neq in En.
  assert (Hz1 : 1 <= Z.abs z) by nia.
  set (e0 := Z.log2 n - Z.log2 d - 52).
  assert (He0 : e0 <= 1).
  { unfold e0. rewrite Hn.
    pose proof (Z.log2_mul_above (Z.abs z) d ltac:(lia) ltac:(lia)).
    assert (Z.log2 (Z.abs z) < 53) by (apply Z.log2_lt_pow2; lia).
    lia. }
  set (scaled := if 0 <=? e0 then n / (d * 2 ^ e0) else n * 2 ^ (- e0) / d).
  set (e1 := if scaled <? 4503599627370496 then e0 - 1 else e0).
  assert (He1 : e1 <= 0).
  { unfold e1. destruct (scaled <? 4503599627370496) eqn:Es; [lia|].
    apply Z.ltb_ge in Es. destruct (Z.le_gt_cases e0 0) as [L|G]; [exact L|].
    exfalso. assert (e0 = 1) by lia.
    unfold scaled in Es. replace (0 <=? e0) with true in Es by (symmetry; apply Z.leb_le; lia).
    rewrite H in Es. change (2 ^ 1) with 2 in Es.
    assert (n / (d * 2) < 4503599627370496).
    { apply Z.div_lt_upper_bound; [lia|]. rewrite Hn.
      change (2 ^ 53) with 9007199254740992 in Hz. nia. }
    lia. }
  set (e := Z.max e1 (-1074)).
  assert (He : e <= 0) by (unfold e; lia).
  assert (Hr : (if 0 <=? e then n else n * 2 ^ (- e))
               mod (if 0 <=? e then d * 2 ^ e else d) = 0).
  { destruct (0 <=? e) eqn:E0.
    - apply Z.leb_le in E0. assert (e = 0) by lia. rewrite H.
      change (2 ^ 0) with 1. rewrite Z.mul_1_r, Hn. apply Z.mod_mul. lia.
    - rewrite Hn. replace (Z.abs z * d * 2 ^ (- e)) with (Z.abs z * 2 ^ (- e) * d) by ring.
      apply Z.mod_mul. lia. }
  rewrite Hr.
  replace (971 <? e) with false by (symmetry; apply Z.ltb_ge; lia).
  replace (e =? 971) with false by (symmetry; apply Z.eqb_neq; lia).
  reflexivity.
Qed.

Lemma whole_zero : whole 0.
Proof. exists 0. reflexivity. Qed.

Lemma whole_plus p q : whole p -> whole q -> whole (p + q).
Proof.
  intros [a Ha] [b Hb]. exists (a + b). rewrite Ha, Hb, inject_Z_plus.
  reflexivity.
Qed.

Lemma whole_opp p : whole p -> whole (- p).
Proof. intros [a Ha]. exists (- a). rewrite Ha, inject_Z_opp. reflexivity. Qed.

Lemma whole_abs p : whole p -> whole (Qabs p).
Proof.
  intros [a Ha]. exists (Z.abs a). rewrite Ha. reflexivity.
Qed.

Lemma whole_exact q :
  whole q -> (Qabs q < EXACT_BOUND)%Q -> PyFloat.round64 q = Fin q.
Proof.
  intros [z Hz] Hb. apply (round64_exact q z Hz).
  rewrite Hz in Hb. unfold EXACT_BOUND in Hb.
  change (Qabs (inject_Z z)) with (inject_Z (Z.abs z)) in Hb.
  rewrite <- Zlt_Qlt in Hb. exact Hb.
Qed.

Lemma Qsum_abs_nonneg {A} (g : A -> Q) l :
  (0 <= Qsum (List.map (fun x => Qabs (g x)) l))%Q.
Proof.
  induction l as [|a l IH]; simpl; [apply Qle_refl|].
  pose proof (Qabs_nonneg (g a)). lra.
Qed.

Lemma Qsum_le {A} (f g : A -> Q) l :
  (forall x, In x l -> (f x <= g x)%Q) ->
  (Qsum (List.map f l) <= Qsum (List.map g l))%Q.
Proof.
  induction l as [|a l IH]; simpl; intros H; [apply Qle_refl|].
  assert (f a <= g a)%Q by (apply H; now left).
  assert (Qsum (List.map f l) <= Qsum (List.map g l))%Q
    by (apply IH; intros x Hx; apply H; now right).
  lra.
Qed.

(** A sum of whole numbers whose magnitudes stay below the bound is
    exact, whatever the order of the additions. *)
Lemma total_exact_acc {A} (g : A -> Q) l a :
  whole a -> (forall x, In x l -> whole (g x)) ->
  (Qabs a + Qsum (List.map (fun x => Qabs (g x)) l) < EXACT_BOUND)%Q ->
  fold_left PyFloat.add (List.map (fun x => Fin (g x)) l) (Fin a)
  = Fin (fold_left Qplus (List.map g l) a).
Proof.
  revert a. induction l as [|x l IH]; intros a Ha Hl Hb; [reflexivity|].
  assert (Hb' : (Qabs a + (Qabs (g x)
                            + Qsum (List.map (fun x => Qabs (g x)) l))
                 < EXACT_BOUND)%Q) by exact Hb.
  clear Hb. cbn [List.map fold_left].
  assert (Hx : whole (g x)) by (apply Hl; now left).
  pose proof (Qsum_abs_nonneg g l) as H0.
  pose proof (Qabs_triangle a (g x)) as Ht.
  cbn [PyFloat.add]. rewrite whole_exact.
  - apply IH.
    + now apply whole_plus.
    + intros y Hy. apply Hl. now right.
    + lra.
  - now apply whole_plus.
  - lra.
Qed.

Lemma total_exact {A} (g : A -> Q) l :
  (forall x, In x l -> whole (g x)) ->
  (Qsum (List.map (fun x => Qabs (g x)) l) < EXACT_BOUND)%Q ->
  Sql.total (List.map (fun x => Fin (g x)) l)
  = Fin (fold_left Qplus (List.map g l) 0%Q).
Proof.
  intros Hl Hb. apply total_exact_acc; [apply whole_zero|exact Hl|].
  change (Qabs 0) with 0%Q. lra.
Qed.

(** [SUM] of a column whose values are whole numbers of bounded total
    magnitude, over at least one row. *)
Lemma sum_exact (f : txn -> option pyfloat) (g : txn -> Q) l :
  l <> [] ->
  (forall t, In t l -> f t = Some (Fin (g t))) ->
  (forall t, In t l -> whole (g t)) ->
  (Qsum (List.map (fun t => Qabs (g t)) l) < EXACT_BOUND)%Q ->
  Sql.sum (List.map f l) = Some (Fin (fold_left Qplus (List.map g l) 0%Q)).
Proof.
  intros Hne H Hw Hb. unfold Sql.sum. rewrite (non_null_amounts f g l H).
  pose proof (total_exact g l Hw Hb) as Ht. rewrite <- map_map in Ht.
  destruct l as [|t l]; [contradiction|]. cbn [List.map] in *.
  now rewrite Ht.
Qed.






Lemma Qabs_case (p : bool) (a : Q) : (Qabs (if p then a else 0) <= Qabs a)%Q.
Proof. destruct p; [apply Qle_refl|apply Qabs_nonneg]. Qed.




Lemma magnitudes_below_all (g : txn -> Q) (T T' : list txn) B :
  Permutation T' T ->
  (forall t, (Qabs (g t) <= Qabs (amount_q t))%Q) ->
  (Qsum (List.map (fun t => Qabs (amount_q t)) T) < B)%Q ->
  (Qsum (List.map (fun t => Qabs (g t)) T') < B)%Q.
Proof.
  intros Hperm Hle Hb.
  eapply Qle_lt_trans; [|exact Hb].
  rewrite <- (Qsum_perm _ _ (Permutation_map _ Hperm)).
  apply Qsum_le. intros t _. apply Hle.
Qed.






(** ** The handlers keep the invariants of the store *)

Lemma add_txn_keeps_store_ok now uid args ty s :
  store_ok s -> store_ok (snd (add_txn now uid args ty s)).
Proof.
  intros Hok. destruct (amount (parse_amount_and_note args)) as [a|] eqn:Ha.
  - destruct (add_txn_spec now uid args ty a s Ha)
      as (r & s1 & t & Hrun & _ & _ & _ & _ & Hkeep).
    rewrite Hrun. now apply Hkeep.
  - unfold add_txn. now rewrite Ha.
Qed.

Lemma add_txn_keeps_signed now uid args ty s :
  ledger_signed s ->
  (forall a, amount (parse_amount_and_note args) = Some a ->
             exists q, a = Fin q /\ (ty = income -> (0 <= q)%Q)) ->
  ledger_signed (snd (add_txn now uid args ty s)).
Proof.
  intros Hs Hamt. destruct (amount (parse_amount_and_note args)) as [a|] eqn:Ha.
  - destruct (add_txn_spec now uid args ty a s Ha)
      as (r & s1 & t & Hrun & Htx & _ & Hty & Hst & _).
    rewrite Hrun. cbn [snd]. intros t' Ht'. rewrite Htx in Ht'.
    apply in_app_or in Ht'. destruct Ht' as [Ht'|[<-|[]]]; [now apply Hs|].
    destruct (Hamt a eq_refl) as (q & -> & Hq).
    unfold signed_by_kind. rewrite Hst, Hty. destruct ty; simpl.
    + exists (- Qabs q)%Q. split; [reflexivity|].
      pose proof (Qabs_nonneg q). lra.
    + exists q. split; [reflexivity|]. now apply Hq.
  - unfold add_txn. now rewrite Ha.
Qed.

Lemma upsert_budget_frame u c p amt s :
  categories (upsert_budget u c p amt s) = categories s /\
  transactions (upsert_budget u c p amt s) = transactions s.
Proof.
  unfold upsert_budget. destruct (existsb _ (budgets s)); simpl; auto.
Qed.

Lemma cmd_budget_set_run now uid a0 a1 rest amt s :
  py_float (replace_comma a1) = Ok amt ->
  exists r cid period s',
    cmd_budget_set now uid (a0 :: a1 :: rest) s
    = (r, upsert_budget uid cid period (Sql.real amt) s') /\
    transactions s' = transactions s /\
    (store_ok s -> store_ok s').
Proof.
  intros Hamt. unfold cmd_budget_set. rewrite Hamt.
  destruct (ensure_user_spec now uid s)
    as (sa & Hens & Hcat & Htx & _).
  unfold bind at 1. rewrite Hens.
  unfold bind at 1. unfold resolve_category, bind at 1, get, ret.
  destruct (upsert_category_spec uid (lower a0) expense sa)
    as (c & sb & Hup & _ & _).
  destruct (upsert_category_frame _ _ _ _ _ _ Hup) as (_ & Htx' & _).
  assert (Hsa : store_ok s -> store_ok sa) by (apply store_ok_frame; auto).
  assert (Hsb : store_ok s -> store_ok sb)
    by (intros H; eapply upsert_category_store_ok; eauto).
  destruct (find _ (categories sa)) as [c0|]; simpl.
  - destruct (c_id c0 =? 0).
    + unfold bind at 1. rewrite Hup. unfold bind, get, put, ret.
      eexists _, _, _, sb. split; [reflexivity|]. split; [congruence|exact Hsb].
    + unfold bind, get, put, ret.
      eexists _, _, _, sa. split; [reflexivity|]. split; [congruence|exact Hsa].
  - unfold bind at 1. rewrite Hup. unfold bind, get, put, ret.
    eexists _, _, _, sb. split; [reflexivity|]. split; [congruence|exact Hsb].
Qed.

Lemma cmd_budget_set_keeps now uid args s :
  transactions (snd (cmd_budget_set now uid args s)) = transactions s /\
  (store_ok s -> store_ok (snd (cmd_budget_set now uid args s))).
Proof.
  destruct args as [|a0 [|a1 rest]]; [simpl; auto..|].
  destruct (py_float (replace_comma a1)) as [amt|e] eqn:Hamt.
  - destruct (cmd_budget_set_run now uid a0 a1 rest amt s Hamt)
      as (r & cid & period & s' & Hrun & Htx & Hok).
    rewrite Hrun. cbn [snd].
    destruct (upsert_budget_frame uid cid period (Sql.real amt) s') as [Fc Ft].
    split; [congruence|]. intros H. eapply store_ok_frame; eauto.
  - unfold cmd_budget_set. rewrite Hamt. simpl. auto.
Qed.

(** ** Totals over at least one row *)

(** When rows match and their amounts are whole numbers of a total
    magnitude below the bound of exact sums, [get_totals] returns the sum
    of the income amounts, the absolute value of the sum of the expense
    amounts and the sum of all amounts, each rounded to two decimals. *)
Lemma get_totals_with_rows uid start_iso s :
  let T := filter (fun t => (t_user_id t =? uid) && PyStr.leb start_iso (t_ts t))
                  (transactions s) in
  T <> [] ->
  (forall t, In t T -> exists q, t_amount t = Some (Fin q) /\ whole q) ->
  (turnover uid start_iso s < EXACT_BOUND)%Q ->
  get_totals uid start_iso s
  = (Ok (Some
      (Some (Fin (PyFloat.round2_Q
                    (Qsum (List.map amount_q
                             (filter (fun t => ttype_eqb (t_type t) income) T))))),
       Some (Fin (PyFloat.round2_Q
                    (Qabs (Qsum (List.map amount_q
                             (filter (fun t => ttype_eqb (t_type t) expense) T)))))),
       Some (Fin (PyFloat.round2_Q (Qsum (List.map amount_q T)))))), s).
Proof.
  intros T Hne Hfin Hturn. unfold get_totals, bind, get, ret. fold T.
  unfold turnover in Hturn. fold T in Hturn.
  assert (Ha : forall t, In t T -> t_amount t = Some (Fin (amount_q t))).
  { intros t Ht. destruct (Hfin t Ht) as (q & Hq & _).
    unfold amount_q. now rewrite Hq. }
  assert (Hw : forall t, In t T -> whole (amount_q t)).
  { intros t Ht. destruct (Hfin t Ht) as (q & Hq & Hwq).
    unfold amount_q. now rewrite Hq. }
  rewrite (sum_exact _ (fun t => if ttype_eqb (t_type t) income
                                 then amount_q t else 0%Q) T Hne).
  2:{ intros t Ht. destruct (ttype_eqb (t_type t) income); auto. }
  2:{ intros t Ht. destruct (ttype_eqb (t_type t) income);
        [now apply Hw|apply whole_zero]. }
  2:{ apply (magnitudes_below_all _ T T); [reflexivity| |exact Hturn].
      intros t. apply Qabs_case. }
  rewrite (sum_exact _ (fun t => if ttype_eqb (t_type t) expense
                                 then amount_q t else 0%Q) T Hne).
  2:{ intros t Ht. destruct (ttype_eqb (t_type t) expense); auto. }
  2:{ intros t Ht. destruct (ttype_eqb (t_type t) expense);
        [now apply Hw|apply whole_zero]. }
  2:{ apply (magnitudes_below_all _ T T); [reflexivity| |exact Hturn].
      intros t. apply Qabs_case. }
  rewrite (sum_exact t_amount amount_q T Hne Ha Hw Hturn).
  cbn [Sql.round2 Sql.abs option_map PyFloat.round2 PyFloat.abs].
  assert (E : forall (f : txn -> Q) (p : txn -> bool),
            (fold_left Qplus (List.map (fun t => if p t then f t else 0) T) 0
             == Qsum (List.map f (filter p T)))%Q).
  { intros f p. rewrite fold_left_Qplus, Qsum_filter. ring. }
  rewrite (round2_Q_comp _ _ (E amount_q (fun t => ttype_eqb (t_type t) income))).
  rewrite (round2_Q_comp _ _
             (Qabs_wd _ _ (E amount_q (fun t => ttype_eqb (t_type t) expense)))).
  assert (E' : (fold_left Qplus (List.map amount_q T) 0
                == Qsum (List.map amount_q T))%Q)
    by (rewrite fold_left_Qplus; ring).
  rewrite (round2_Q_comp _ _ E'). reflexivity.
Qed.

(** The scenario of the specification: an expense of 250 with the note
    "coffee morning" goes to the category "coffee" with the amount -250,
    and the totals of the month are 0, 250 and -250. *)
Example scenario_coffee :
  let noon := mkDatetime 2024 5 15 12 0 0 0 in
  let s := snd (cmd_add noon 1 [lit "250"; lit "coffee"; lit "morning"] empty_db) in
  List.map c_name (categories s) = [lit "coffee"] /\
  List.map t_amount (transactions s) = [Some (Fin (-250 # 1))] /\
  fst (cmd_sum noon 1 s)
  = Ok (MonthTotals (Fin (0 # 100)) (Fin (25000 # 100)) (Fin (-25000 # 100))).
Proof. repeat split; vm_compute; reflexivity. Qed.

(** The digest loop woken at 17:59 and at 18:00 on 2024-05-15, for the
    ledger whose only transaction is an expense of 100 made at noon on
    2024-05-14: nothing at 17:59, and at 18:00 a digest whose "today"
    line shows that expense. *)
Example digest_loop_counts_yesterday :
  fst (send_daily_digest
         [mkDatetime 2024 5 15 17 59 0 0; mkDatetime 2024 5 15 18 0 0 0]
         (snd (cmd_add (mkDatetime 2024 5 14 12 0 0 0) 1
                       [lit "100"; lit "taxi"] empty_db)))
  = Ok [[]; [Some (1, Digest (Fin (0 # 100)) (Fin (10000 # 100))
                             (Fin (-10000 # 100))
                             (Fin (0 # 100)) (Fin (10000 # 100))
                             (Fin (-10000 # 100)))]].
Proof. vm_compute. reflexivity. Qed.

(** * Further properties of the handlers *)

(** ** Users *)

(** X1. [ensure_user] is an insert-if-absent: it never fails, afterwards
    the user has a row, a second call changes nothing, the rows that were
    there are kept as they are (a configured digest hour is not reset),
    and the number of rows of the user is one unless there were more. *)
Theorem ensure_user_idempotent (now1 now2 : datetime) (uid : Z) (s : db) :
  exists s1,
    ensure_user now1 uid s = (Ok tt, s1) /\
    ensure_user now2 uid s1 = (Ok tt, s1) /\
    same_ledger s s1 /\
    (exists rest, users s1 = users s ++ rest) /\
    List.length (filter (fun u => u_id u =? uid) (users s1))
    = Nat.max 1 (List.length (filter (fun u => u_id u =? uid) (users s))) /\
    (existsb (fun u => u_id u =? uid) (users s) = true -> s1 = s).
Proof.
  unfold ensure_user, bind, get, put, ret, same_ledger.
  destruct (existsb (fun u => u_id u =? uid) (users s)) eqn:E.
  - exists s. rewrite E. repeat split; auto.
    + exists []. now rewrite app_nil_r.
    + destruct (existsb_find_some _ _ E) as (u & Hu & Hk).
      apply find_some in Hu. destruct Hu as [Hin _].
      assert (Hf : In u (filter (fun u => u_id u =? uid) (users s)))
        by (apply filter_In; auto).
      destruct (filter _ (users s)); [contradiction|]. simpl. lia.
  - eexists. split; [reflexivity|]. cbn [users].
    rewrite existsb_app. cbn [existsb u_id]. rewrite Z.eqb_refl, orb_true_r.
    repeat split; auto.
    + eexists. reflexivity.
    + rewrite filter_app, (existsb_false_filter _ _ E). cbn. now rewrite Z.eqb_refl.
    + discriminate.
Qed.

(** ** Commands that never fail *)

(** X2. [/add] and [/inc] never raise, whatever the arguments: either no
    amount is parsed (no argument, or a first token that is not a number),
    the reply asks for the amount and the store is untouched, not even the
    user row being created; or exactly one transaction is appended, of the
    user and the kind of the command. *)
Theorem add_txn_never_raises
    (now : datetime) (uid : Z) (args : list pystr) (ty : ttype) (s : db) :
  exists r s1,
    add_txn now uid args ty s = (Ok r, s1) /\
    ((amount (parse_amount_and_note args) = None /\ r = AskAmount /\ s1 = s) \/
     (exists a t,
         amount (parse_amount_and_note args) = Some a /\
         transactions s1 = transactions s ++ [t] /\
         t_user_id t = uid /\ t_type t = ty /\
         t_amount t = stored_amount ty a /\ r <> AskAmount)).
Proof.
  destruct (amount (parse_amount_and_note args)) as [a|] eqn:Ha.
  - destruct (add_txn_spec now uid args ty a s Ha)
      as (r & s1 & t & Hrun & Htx & Hu & Hty & Hamt & _).
    exists r, s1. split; [exact Hrun|]. right. exists a, t.
    repeat split; auto.
    intros ->. unfold add_txn in Hrun. rewrite Ha in Hrun.
    unfold bind, ret in Hrun.
    destruct (add_txn_core now uid a (note (parse_amount_and_note args)) ty s)
      as [[c|e] s']; discriminate.
  - exists AskAmount, s. unfold add_txn. rewrite Ha. split; [reflexivity|].
    left. auto.
Qed.

Lemma cmd_budget_set_ok now uid a0 a1 rest amt s :
  py_float (replace_comma a1) = Ok amt ->
  exists period s1,
    cmd_budget_set now uid (a0 :: a1 :: rest) s
    = (Ok (BudgetSet (lower a0) period amt), s1) /\
    period = match rest with
             | a2 :: _ => a2
             | [] => strftime_Ym now
             end /\
    exists b, In b (budgets s1) /\ b_user_id b = uid /\ b_period b = period
              /\ b_amount b = Sql.real amt.
Proof.
  intros Hamt. unfold cmd_budget_set. rewrite Hamt.
  set (period := match rest with
                 | a2 :: _ => a2
                 | [] => strftime_Ym now
                 end).
  destruct (ensure_user_spec now uid s) as (sa & Hens & _).
  unfold bind at 1. rewrite Hens.
  unfold bind at 1. unfold resolve_category, bind at 1, get, ret.
  destruct (upsert_category_spec uid (lower a0) expense sa)
    as (c & sb & Hup & _ & _).
  assert (Hrow : forall cid s',
            exists b, In b (budgets (upsert_budget uid cid period (Sql.real amt) s'))
                      /\ b_user_id b = uid /\ b_period b = period
                      /\ b_amount b = Sql.real amt).
  { intros cid s'.
    pose proof (upsert_budget_rows uid cid period (Sql.real amt) s') as R.
    cbv zeta in R. destruct R as (Hne & Hall & _).
    remember (filter (budget_matches uid cid period)
                (budgets (upsert_budget uid cid period (Sql.real amt) s')))
      as rows eqn:Hrows.
    destruct rows as [|b l]; [contradiction|].
    assert (Hin : In b (filter (budget_matches uid cid period)
                          (budgets (upsert_budget uid cid period (Sql.real amt) s'))))
      by (rewrite <- Hrows; now left).
    apply filter_In in Hin. destruct Hin as [Hin Hk].
    apply budget_matches_eq in Hk. destruct Hk as (Hu & _ & Hp).
    exists b. repeat split; auto. apply Hall. now left. }
  exists period.
  destruct (find _ (categories sa)) as [c0|]; simpl.
  - destruct (c_id c0 =? 0).
    + unfold bind at 1. rewrite Hup. unfold bind, get, put, ret.
      eexists. split; [reflexivity|]. split; [reflexivity|apply Hrow].
    + unfold bind, get, put, ret.
      eexists. split; [reflexivity|]. split; [reflexivity|apply Hrow].
  - unfold bind at 1. rewrite Hup. unfold bind, get, put, ret.
    eexists. split; [reflexivity|]. split; [reflexivity|apply Hrow].
Qed.

(** X3. [/budget_set] never raises, whatever the arguments: with fewer
    than two arguments it replies with the usage, with an amount that is
    not a number it says so, and in both cases the store is untouched;
    otherwise it stores a budget row of the user with the parsed amount,
    under the third argument taken as it is, or under the current month
    when there is none. *)
Theorem cmd_budget_set_never_raises
    (now : datetime) (uid : Z) (args : list pystr) (s : db) :
  exists r s1,
    cmd_budget_set now uid args s = (Ok r, s1) /\
    transactions s1 = transactions s /\
    match args with
    | a0 :: a1 :: rest =>
        match py_float (replace_comma a1) with
        | Raise _ => r = BudgetBadAmount /\ s1 = s
        | Ok amt =>
            let period := match rest with
                          | a2 :: _ => a2
                          | [] => strftime_Ym now
                          end in
            r = BudgetSet (lower a0) period amt /\
            exists b, In b (budgets s1) /\ b_user_id b = uid /\
                      b_period b = period /\ b_amount b = Sql.real amt
        end
    | _ => r = BudgetUsage /\ s1 = s
    end.
Proof.
  pose proof (cmd_budget_set_keeps now uid args s) as [Htx _].
  destruct args as [|a0 [|a1 rest]].
  - exists BudgetUsage, s. repeat split.
  - exists BudgetUsage, s. repeat split.
  - destruct (py_float (replace_comma a1)) as [amt|e] eqn:Hamt.
    + destruct (cmd_budget_set_ok now uid a0 a1 rest amt s Hamt)
        as (period & s1 & Hrun & -> & Hb).
      rewrite Hrun in Htx. cbn [snd] in Htx.
      eexists _, s1. split; [exact Hrun|]. split; [exact Htx|].
      cbv zeta. split; [reflexivity|exact Hb].
    + exists BudgetBadAmount, s. unfold cmd_budget_set. rewrite Hamt.
      repeat split.
Qed.

(** ** Commands that only read *)

Lemma same_ledger_refl s : same_ledger s s.
Proof. unfold same_ledger. tauto. Qed.

Lemma ensure_user_same_ledger now uid s :
  exists sa, ensure_user now uid s = (Ok tt, sa) /\ same_ledger s sa.
Proof.
  destruct (ensure_user_spec now uid s) as (sa & H & ?). exists sa.
  unfold same_ledger. tauto.
Qed.

Lemma get_totals_state uid start_iso s :
  exists row, get_totals uid start_iso s = (Ok (Some row), s).
Proof. unfold get_totals, bind, get, ret. eauto. Qed.

Lemma lift_state {A} (o : outcome A) s : snd (lift o s) = s.
Proof. reflexivity. Qed.

Lemma mapM_state {A B} (f : A -> M B) l s :
  (forall a s', snd (f a s') = s') -> snd (mapM f l s) = s.
Proof.
  intros Hf. revert s. induction l as [|a l IH]; intros s; [reflexivity|].
  cbn [mapM]. unfold bind at 1. specialize (Hf a s).
  destruct (f a s) as [[b|e] s']; cbn [snd] in Hf; subst s'; [|reflexivity].
  unfold bind at 1. specialize (IH s).
  destruct (mapM f l s) as [[bs|e] s']; cbn [snd] in IH; subst s'; reflexivity.
Qed.

Lemma month_totals_state now uid (k : pyfloat -> pyfloat -> pyfloat -> reply) s :
  snd ((row <- get_totals uid (iso_utc (first_of_month now)) ;;
        let '(inc, exp, net) := or_zeros row in
        i <- lift (fmt_2f inc) ;;
        e <- lift (fmt_2f exp) ;;
        n <- lift (fmt_2f net) ;;
        ret (k i e n)) s) = s.
Proof.
  destruct (get_totals_state uid (iso_utc (first_of_month now)) s)
    as ([[inc exp] net] & Hg).
  unfold bind at 1. rewrite Hg. cbn [or_zeros].
  unfold bind, lift, ret.
  destruct (fmt_2f inc), (fmt_2f exp), (fmt_2f net); reflexivity.
Qed.

Lemma digest_user_state now u s : snd (digest_user now u s) = s.
Proof.
  destruct u as [uid h]. unfold digest_user.
  destruct (hour now =? _); [|reflexivity].
  unfold bind at 1, lift.
  destruct (minus_one_day now) as [yd|e]; [|reflexivity].
  destruct (get_totals_state uid (iso_utc (first_of_month now)) s)
    as ([[im em] nm] & Hm).
  destruct (get_totals_state uid (iso_utc (midnight yd)) s)
    as ([[id ed] nd] & Hd).
  unfold bind at 1. rewrite Hm. unfold bind at 1. rewrite Hd.
  cbn [or_zeros]. unfold bind, lift, ret.
  destruct (fmt_2f id), (fmt_2f ed), (fmt_2f nd), (fmt_2f im), (fmt_2f em),
    (fmt_2f nm); reflexivity.
Qed.

Lemma digest_wakeup_state now s : snd (digest_wakeup now s) = s.
Proof.
  unfold digest_wakeup. destruct (negb (minute now =? 0)); [reflexivity|].
  unfold bind at 1, get. apply mapM_state. intros a s'. apply digest_user_state.
Qed.

(** X4. The commands that report never write to the ledger: [/sum], the
    totals query and the digest loop leave the store as it is, and
    [/list], [/export] and [/budget_view] change at most the users table
    (the row that [ensure_user] adds), whatever the arguments and whether
    they fail or not. *)
Theorem reads_keep_ledger
    (now : datetime) (uid : Z) (args : list pystr) (s : db) :
  snd (cmd_sum now uid s) = s /\
  (forall start_iso, snd (get_totals uid start_iso s) = s) /\
  (forall wakeups, snd (send_daily_digest wakeups s) = s) /\
  same_ledger s (snd (cmd_list now uid args s)) /\
  same_ledger s (snd (cmd_export now uid args s)) /\
  same_ledger s (snd (cmd_budget_view now uid args s)).
Proof.
  split; [apply (month_totals_state now uid MonthTotals)|].
  split.
  { intros st. destruct (get_totals_state uid st s) as (row & ->). reflexivity. }
  split.
  { intros wakeups. apply mapM_state. intros a s'. apply digest_wakeup_state. }
  destruct (ensure_user_same_ledger now uid s) as (sa & Hens & Hsame).
  split; [|split].
  - unfold cmd_list. unfold bind at 1, lift.
    destruct (period_bounds _) as [[st en]|e]; [|apply same_ledger_refl].
    unfold bind at 1. rewrite Hens. unfold bind at 1, get.
    destruct (firstn 20 _) as [|r rows]; [exact Hsame|].
    unfold bind, lift, ret. destruct (map_outcome list_line (r :: rows));
      exact Hsame.
  - unfold cmd_export. unfold bind at 1, lift.
    destruct (period_bounds _) as [[st en]|e]; [|apply same_ledger_refl].
    unfold bind at 1. rewrite Hens. unfold bind at 1, get.
    destruct (export_rows uid st en sa); exact Hsame.
  - unfold cmd_budget_view. unfold bind at 1. rewrite Hens.
    unfold bind at 1, lift.
    destruct (period_bounds _) as [[st en]|e]; [|exact Hsame].
    unfold bind at 1, get.
    destruct (Sql.order_by _ _) as [|r rows]; [exact Hsame|].
    unfold bind, lift, ret. destruct (map_outcome budget_line (r :: rows));
      exact Hsame.
Qed.

(** ** The period argument *)

Lemma fmt_table_spec w n i :
  fmt_table_ok w n i = true ->
  forall z, i <= z <= i + Z.of_nat n ->
    List.length (fmt_0d w z) = w /\ forallb is_digit (fmt_0d w z) = true /\
    py_int (fmt_0d w z) = Ok z.
Proof.
  assert (Hok : forall j,
    Nat.eqb (List.length (fmt_0d w j)) w && forallb is_digit (fmt_0d w j)
    && match py_int (fmt_0d w j) with
       | Ok v => v =? j
       | Raise _ => false
       end = true ->
    List.length (fmt_0d w j) = w /\ forallb is_digit (fmt_0d w j) = true /\
    py_int (fmt_0d w j) = Ok j).
  { intros j H. apply andb_true_iff in H. destruct H as [H H3].
    apply andb_true_iff in H. destruct H as [H1 H2].
    apply Nat.eqb_eq in H1. repeat split; auto.
    destruct (py_int (fmt_0d w j)) as [v|e]; [|discriminate].
    apply Z.eqb_eq in H3. now subst. }
  revert i. induction n as [|n IH]; intros i H z Hz.
  - cbn [fmt_table_ok] in H. assert (z = i) by lia. subst z. now apply Hok.
  - cbn [fmt_table_ok] in H. apply andb_true_iff in H. destruct H as [H Hrest].
    destruct (Z.eq_dec z i) as [->|Hne]; [now apply Hok|].
    apply (IH (i + 1) Hrest). lia.
Qed.

Lemma years_table : fmt_table_ok 4 (Z.to_nat 9999) 0 = true.
Proof. vm_compute. reflexivity. Qed.

Lemma months_table : fmt_table_ok 2 (Z.to_nat 11) 1 = true.
Proof. vm_compute. reflexivity. Qed.

Lemma digit_not_space c : is_digit c = true -> is_space c = false.
Proof.
  unfold is_digit, is_space. intros H. apply andb_true_iff in H.
  destruct H as [H1 H2]. apply N.leb_le in H1, H2.
  repeat match goal with
         | |- context [(?a <=? ?b)%N] => destruct (N.leb_spec a b)
         | |- context [(?a =? ?b)%N] => destruct (N.eqb_spec a b)
         end; simpl; try reflexivity; lia.
Qed.

(** The shape of a period string: four digits, a hyphen, two digits. *)
Lemma period_of_shape y m :
  0 <= y <= 9999 -> 1 <= m <= 12 ->
  exists a b c d e f,
    fmt_0d 4 y = [a; b; c; d] /\ fmt_0d 2 m = [e; f] /\
    period_of y m = [a; b; c; d; 45%N; e; f] /\
    is_space a = false /\ is_space f = false /\
    py_int [a; b; c; d] = Ok y /\ py_int [e; f] = Ok m.
Proof.
  intros Hy Hm.
  destruct (fmt_table_spec _ _ _ years_table y) as (Ly & Dy & Iy);
    [rewrite Z2Nat.id; lia|].
  destruct (fmt_table_spec _ _ _ months_table m) as (Lm & Dm & Im);
    [rewrite Z2Nat.id; lia|].
  unfold period_of.
  destruct (fmt_0d 4 y) as [|a [|b [|c [|d [|]]]]]; try discriminate.
  destruct (fmt_0d 2 m) as [|e [|f [|]]]; try discriminate.
  exists a, b, c, d, e, f. cbn [forallb] in Dy, Dm.
  rewrite !andb_true_iff in Dy, Dm.
  repeat split; auto; apply digit_not_space; tauto.
Qed.

Lemma period_of_stripped y m :
  0 <= y <= 9999 -> 1 <= m <= 12 -> strip (period_of y m) = period_of y m.
Proof.
  intros Hy Hm.
  destruct (period_of_shape y m Hy Hm)
    as (a & b & c & d & e & f & _ & _ & -> & Ha & Hf & _).
  unfold strip, rstrip. cbn [lstrip]. rewrite Ha. cbn [rev app lstrip].
  rewrite Hf. reflexivity.
Qed.

Lemma period_bounds_of_month y m :
  0 <= y <= 9999 -> 1 <= m <= 12 ->
  period_bounds (period_of y m) = month_bounds_utc y m.
Proof.
  intros Hy Hm.
  destruct (period_of_shape y m Hy Hm)
    as (a & b & c & d & e & f & _ & _ & -> & _ & _ & Iy & Im).
  unfold period_bounds, slice. cbn [firstn skipn Nat.sub].
  now rewrite Iy, Im.
Qed.

Lemma period_arg_of_month now y m rest :
  0 <= y <= 9999 -> 1 <= m <= 12 ->
  period_arg now (period_of y m :: rest) = period_of y m.
Proof.
  intros Hy Hm. unfold period_arg. rewrite (period_of_stripped y m Hy Hm).
  destruct (period_of_shape y m Hy Hm)
    as (a & b & c & d & e & f & Fy & Fm & E & _ & _ & Iy & Im).
  rewrite E. unfold slice. cbn [firstn skipn Nat.sub List.length nth_error].
  rewrite Iy, Im. cbn [Nat.eqb N.eqb Pos.eqb andb].
  replace (1 <=? m) with true by (symmetry; apply Z.leb_le; lia).
  replace (m <=? 12) with true by (symmetry; apply Z.leb_le; lia).
  cbn [andb]. rewrite <- E. reflexivity.
Qed.

(** X5. A period argument of the exact form [YYYY-MM] (year 0000 to 9999,
    month 01 to 12) is taken as it is by [/list] and [/export], and the
    bounds then computed from the period string are those of that year
    and month. *)
Theorem period_arg_round_trip
    (now : datetime) (y m : Z) (rest : list pystr) :
  0 <= y <= 9999 -> 1 <= m <= 12 ->
  period_arg now (period_of y m :: rest) = period_of y m /\
  period_bounds (period_arg now (period_of y m :: rest)) = month_bounds_utc y m.
Proof.
  intros Hy Hm. rewrite (period_arg_of_month now y m rest Hy Hm).
  split; [reflexivity|now apply period_bounds_of_month].
Qed.

Lemma period_arg_round_trip_witness :
  0 <= 2024 <= 9999 /\ 1 <= 2 <= 12 /\
  period_arg (mkDatetime 2025 7 9 10 0 0 0) (period_of 2024 2 :: [])
  = period_of 2024 2 /\
  period_bounds (period_arg (mkDatetime 2025 7 9 10 0 0 0) (period_of 2024 2 :: []))
  = month_bounds_utc 2024 2.
Proof.
  split; [lia|]. split; [lia|].
  apply period_arg_round_trip; lia.
Defined.

(** X6. The lenient fallback of [/list] and [/export]: with no argument,
    or with a first argument that, stripped, has not seven characters, has
    no hyphen at position 4, has a year or month part that [int] rejects,
    or has a month outside 1 to 12, the period is the current month of
    the clock. *)
Theorem period_arg_fallback (now : datetime) :
  period_arg now [] = strftime_Ym now /\
  (forall raw rest,
      List.length (strip raw) <> 7%nat ->
      period_arg now (raw :: rest) = strftime_Ym now) /\
  (forall raw rest,
      nth_error (strip raw) 4 <> Some 45%N ->
      period_arg now (raw :: rest) = strftime_Ym now) /\
  (forall raw rest e,
      py_int (slice 0 4 (strip raw)) = Raise e \/
      py_int (slice 5 7 (strip raw)) = Raise e ->
      period_arg now (raw :: rest) = strftime_Ym now) /\
  (forall raw rest m,
      py_int (slice 5 7 (strip raw)) = Ok m -> ~ 1 <= m <= 12 ->
      period_arg now (raw :: rest) = strftime_Ym now).
Proof.
  split; [reflexivity|]. unfold period_arg. repeat split.
  - intros raw rest Hlen.
    destruct (py_int (slice 0 4 (strip raw))); [|reflexivity].
    destruct (py_int (slice 5 7 (strip raw))); [|reflexivity].
    apply Nat.eqb_neq in Hlen. now rewrite Hlen.
  - intros raw rest Hh.
    destruct (py_int (slice 0 4 (strip raw))); [|reflexivity].
    destruct (py_int (slice 5 7 (strip raw))); [|reflexivity].
    destruct (nth_error (strip raw) 4) as [c|].
    + destruct (N.eqb_spec c 45); [congruence|].
      now rewrite andb_false_r.
    + now rewrite andb_false_r.
  - intros raw rest e [H|H].
    + now rewrite H.
    + destruct (py_int (slice 0 4 (strip raw))); [|reflexivity]. now rewrite H.
  - intros raw rest m Hm Hr.
    destruct (py_int (slice 0 4 (strip raw))); [|reflexivity]. rewrite Hm.
    destruct (Z.leb_spec 1 m), (Z.leb_spec m 12); try lia;
      now rewrite ?andb_false_r.
Qed.

(** ** Order of the listing and of the export *)

Lemma compare_antisym a b : PyStr.compare b a = CompOpp (PyStr.compare a b).
Proof.
  revert b. induction a as [|x a IH]; destruct b as [|y b]; simpl; auto.
  rewrite (N.compare_antisym x y).
  destruct (N.compare x y); simpl; auto.
Qed.

Lemma leb_total a b : PyStr.leb a b = false -> PyStr.leb b a = true.
Proof.
  unfold PyStr.leb. rewrite (compare_antisym a b).
  destruct (PyStr.compare a b); simpl; congruence.
Qed.


Section InsertionSort.

Context {A : Type}.
Variable le : A -> A -> bool.
Hypothesis le_total : forall x y, le x y = false -> le y x = true.

Let R (x y : A) : Prop := le x y = true.

Lemma insert_by_hd x y l :
  R y x -> HdRel R y l -> HdRel R y (Sql.insert_by le x l).
Proof.
  intros Hyx Hl. destruct l as [|z l]; simpl; [now constructor|].
  destruct (le x z); constructor; auto. now inversion Hl.
Qed.

Lemma insert_by_sorted x l :
  Sorted R l -> Sorted R (Sql.insert_by le x l).
Proof.
  induction 1 as [|y l Hs IH Hhd]; simpl; [repeat constructor|].
  destruct (le x y) eqn:E.
  - constructor; [now constructor|]. now constructor.
  - constructor; [exact IH|]. apply insert_by_hd; auto. now apply le_total.
Qed.

Lemma order_by_sorted l : Sorted R (Sql.order_by le l).
Proof.
  unfold Sql.order_by. induction l as [|x l IH]; simpl; [constructor|].
  now apply insert_by_sorted.
Qed.

End InsertionSort.




Lemma forall2_in_r {A B} (P : A -> B -> Prop) l l' b :
  Forall2 P l l' -> In b l' -> exists a, In a l /\ P a b.
Proof.
  induction 1 as [|a0 b0 l l' H0 Hl IH]; simpl; [contradiction|].
  intros [<-|Hin]; [eauto|]. destruct (IH Hin) as (a & Ha & Hp). eauto.
Qed.

Lemma forall2_in_l {A B} (P : A -> B -> Prop) l l' a :
  Forall2 P l l' -> In a l -> exists b, In b l' /\ P a b.
Proof.
  induction 1 as [|a0 b0 l l' H0 Hl IH]; simpl; [contradiction|].
  intros [<-|Hin]; [eauto|]. destruct (IH Hin) as (b & Hb & Hp). eauto.
Qed.

Lemma forall2_length {A B} (P : A -> B -> Prop) l l' :
  Forall2 P l l' -> List.length l' = List.length l.
Proof. induction 1; simpl; congruence. Qed.




Lemma abs_not_negative x : PyFloat.ltb (PyFloat.abs x) PyFloat.zero = false.
Proof.
  destruct x as [q| | |]; simpl; auto.
  apply negb_false_iff, Qle_bool_iff, Qabs_nonneg.
Qed.

(** X8. A file that [/export] sends is for the period of its argument,
    runs from the oldest timestamp up, holds no negative amount, and,
    when every transaction refers to an existing category, holds each
    transaction of the user within the bounds of the period exactly once,
    with its timestamp, kind, absolute amount and note. *)
Theorem export_oldest_first_complete
    (now : datetime) (uid : Z) (args : list pystr) (s s1 : db)
    (p : pystr) (rows : list export_record) :
  cmd_export now uid args s = (Ok (ExportFile p rows), s1) ->
  p = period_arg now args /\
  rows <> [] /\
  Sorted (fun r1 r2 => PyStr.leb (row_ts r1) (row_ts r2) = true) rows /\
  (forall r x, In r rows -> row_cell r = Some x ->
               PyFloat.ltb x PyFloat.zero = false) /\
  exists start_iso end_iso,
    period_bounds p = Ok (start_iso, end_iso) /\
    (refs_ok s ->
     Permutation (List.map row_core rows)
       (List.map txn_core
          (filter (fun t => (t_user_id t =? uid)
                            && in_range start_iso end_iso (t_ts t))
                  (transactions s)))).
Proof.
  unfold cmd_export. unfold bind at 1, lift.
  destruct (period_bounds (period_arg now args)) as [[st en]|e] eqn:Hb;
    [|discriminate].
  destruct (ensure_user_same_ledger now uid s)
    as (sa & Hens & Hcat & Htx & _).
  unfold bind at 1. rewrite Hens. unfold bind at 1, get.
  destruct (export_rows uid st en sa) as [|r0 rows0] eqn:Hrows;
    [discriminate|].
  unfold ret. intros [= <- <- <-].
  split; [reflexivity|]. split; [discriminate|].
  rewrite <- Hrows. unfold export_rows.
  set (le := fun r1 r2 : txn * category =>
               PyStr.leb (t_ts (fst r1)) (t_ts (fst r2))).
  split; [|split].
  - assert (Hs : Sorted (fun r1 r2 => le r1 r2 = true)
                        (Sql.order_by le (period_rows uid st en sa))).
    { apply order_by_sorted. intros x y. apply leb_total. }
    revert Hs. generalize (Sql.order_by le (period_rows uid st en sa)).
    induction 1 as [|[t c] l Hs IH Hhd]; simpl; constructor; auto.
    destruct Hhd as [|[t2 c2] l Hle]; simpl; constructor. exact Hle.
  - intros r x Hr Hx. apply in_map_iff in Hr.
    destruct Hr as ([t c] & <- & _). cbn [export_row row_cell] in Hx.
    destruct (t_amount t) as [a|]; [|discriminate].
    injection Hx as <-. apply abs_not_negative.
  - exists st, en. split; [exact Hb|]. intros Hrefs.
    rewrite map_map.
    rewrite (map_ext _ (fun pr => txn_core (fst pr)))
      by (intros [t c]; reflexivity).
    rewrite <- (map_map fst txn_core). apply Permutation_map.
    rewrite (Permutation_map fst (order_by_perm le _)).
    unfold period_rows. rewrite Hcat, Htx. rewrite join_one_row; [reflexivity|].
    intros t Ht. apply Hrefs. apply filter_In in Ht. tauto.
Qed.

Lemma export_oldest_first_complete_witness :
  exists p rows s1,
    cmd_export (mkDatetime 2024 5 20 8 0 0 0) 1 [lit "2024-05"] ledger_april_may
    = (Ok (ExportFile p rows), s1) /\
    p = period_arg (mkDatetime 2024 5 20 8 0 0 0) [lit "2024-05"] /\
    rows <> [] /\
    Sorted (fun r1 r2 => PyStr.leb (row_ts r1) (row_ts r2) = true) rows /\
    (forall r x, In r rows -> row_cell r = Some x ->
                 PyFloat.ltb x PyFloat.zero = false) /\
    exists start_iso end_iso,
      period_bounds p = Ok (start_iso, end_iso) /\
      (refs_ok ledger_april_may ->
       Permutation (List.map row_core rows)
         (List.map txn_core
            (filter (fun t => (t_user_id t =? 1)
                              && in_range start_iso end_iso (t_ts t))
                    (transactions ledger_april_may)))).
Proof.
  eexists _, _, _. split; [vm_compute; reflexivity|].
  eapply (export_oldest_first_complete (mkDatetime 2024 5 20 8 0 0 0) 1
            [lit "2024-05"] ledger_april_may).
  vm_compute. reflexivity.
Defined.

(** ** Stored timestamps and time *)

Lemma two_digits_increasing :
  increasing (fmt_0d 2) 2 (Z.to_nat 59) 0 = true.
Proof. vm_compute. reflexivity. Qed.

Lemma fmt_compare f w n i a b :
  increasing f w n i = true ->
  i <= a <= i + Z.of_nat n -> i <= b <= i + Z.of_nat n ->
  List.length (f a) = List.length (f b) /\
  PyStr.compare (f a) (f b) = (a ?= b).
Proof.
  intros Hinc Ha Hb.
  destruct (increasing_spec f w n i Hinc a Ha) as [La Ca].
  destruct (increasing_spec f w n i Hinc b Hb) as [Lb Cb].
  split; [congruence|].
  destruct (Z.compare_spec a b) as [->|Hlt|Hgt].
  - apply compare_refl.
  - apply Ca. lia.
  - rewrite (compare_antisym (f b) (f a)), Cb by lia. reflexivity.
Qed.

Lemma compare_cons c r1 r2 :
  PyStr.compare (c :: r1) (c :: r2) = PyStr.compare r1 r2.
Proof. simpl. now rewrite N.compare_refl. Qed.

Lemma compare_field f w n i a b r1 r2 :
  increasing f w n i = true ->
  i <= a <= i + Z.of_nat n -> i <= b <= i + Z.of_nat n ->
  PyStr.compare (f a ++ r1) (f b ++ r2)
  = match a ?= b with
    | Eq => PyStr.compare r1 r2
    | c => c
    end.
Proof.
  intros Hinc Ha Hb. destruct (fmt_compare f w n i a b Hinc Ha Hb) as [L C].
  now rewrite (compare_app _ _ _ _ L), C.
Qed.

Lemma iso_utc_shape d :
  iso_utc d
  = fmt_0d 4 (year d) ++ 45%N :: fmt_0d 2 (month d) ++ 45%N
    :: fmt_0d 2 (day d) ++ 84%N :: fmt_0d 2 (hour d) ++ 58%N
    :: fmt_0d 2 (minute d) ++ 58%N :: fmt_0d 2 (second d) ++ iso_fraction d.
Proof.
  unfold iso_utc, iso_fraction. destruct (microsecond d =? 0); reflexivity.
Qed.

(** Text order of two stored timestamps: the order in time to the second,
    then the order of the fractions as text. *)
Lemma iso_compare d1 d2 :
  valid_clock d1 -> valid_clock d2 ->
  PyStr.compare (iso_utc d1) (iso_utc d2)
  = match datetime_compare d1 d2 with
    | Eq => PyStr.compare (iso_fraction d1) (iso_fraction d2)
    | c => c
    end.
Proof.
  unfold valid_clock, datetime_compare.
  intros (Y1 & M1 & D1 & H1 & I1 & S1 & _) (Y2 & M2 & D2 & H2 & I2 & S2 & _).
  rewrite !iso_utc_shape.
  pose proof years_increasing as TY. pose proof two_digits_increasing as T2.
  rewrite (compare_field _ _ _ _ (year d1) (year d2) _ _ TY)
    by (rewrite Z2Nat.id; lia).
  destruct (year d1 ?= year d2); try reflexivity. rewrite compare_cons.
  rewrite (compare_field _ _ _ _ (month d1) (month d2) _ _ T2)
    by (rewrite Z2Nat.id; lia).
  destruct (month d1 ?= month d2); try reflexivity. rewrite compare_cons.
  rewrite (compare_field _ _ _ _ (day d1) (day d2) _ _ T2)
    by (rewrite Z2Nat.id; lia).
  destruct (day d1 ?= day d2); try reflexivity. rewrite compare_cons.
  rewrite (compare_field _ _ _ _ (hour d1) (hour d2) _ _ T2)
    by (rewrite Z2Nat.id; lia).
  destruct (hour d1 ?= hour d2); try reflexivity. rewrite compare_cons.
  rewrite (compare_field _ _ _ _ (minute d1) (minute d2) _ _ T2)
    by (rewrite Z2Nat.id; lia).
  destruct (minute d1 ?= minute d2); try reflexivity. rewrite compare_cons.
  rewrite (compare_field _ _ _ _ (second d1) (second d2) _ _ T2)
    by (rewrite Z2Nat.id; lia).
  reflexivity.
Qed.

(** X9. Stored timestamps against time: two clock readings in different
    seconds are stored as strings in the order of the readings; two
    readings of the same second without microseconds are stored as the
    same string; and a reading with microseconds is stored as a string
    that sorts before the string of its own whole second. *)
Theorem stored_timestamp_order (d1 d2 : datetime) :
  valid_clock d1 -> valid_clock d2 ->
  (datetime_compare d1 d2 = Lt ->
   PyStr.compare (iso_utc d1) (iso_utc d2) = Lt) /\
  (datetime_compare d1 d2 = Eq -> microsecond d1 = 0 -> microsecond d2 = 0 ->
   iso_utc d1 = iso_utc d2) /\
  (datetime_compare d1 d2 = Eq -> microsecond d1 <> 0 -> microsecond d2 = 0 ->
   PyStr.compare (iso_utc d1) (iso_utc d2) = Lt).
Proof.
  intros V1 V2. rewrite (iso_compare d1 d2 V1 V2). repeat split.
  - intros ->. reflexivity.
  - intros E Z1 Z2. apply compare_eq. rewrite (iso_compare d1 d2 V1 V2), E.
    unfold iso_fraction. now rewrite Z1, Z2.
  - intros -> N1 Z2. unfold iso_fraction. rewrite Z2.
    apply Z.eqb_neq in N1. now rewrite N1.
Qed.

Lemma stored_timestamp_order_witness :
  valid_clock (mkDatetime 2024 2 29 23 59 59 250000) /\
  valid_clock (mkDatetime 2024 2 29 23 59 59 0) /\
  (datetime_compare (mkDatetime 2024 2 29 23 59 59 250000)
                    (mkDatetime 2024 2 29 23 59 59 0) = Eq ->
   microsecond (mkDatetime 2024 2 29 23 59 59 250000) <> 0 ->
   microsecond (mkDatetime 2024 2 29 23 59 59 0) = 0 ->
   PyStr.compare (iso_utc (mkDatetime 2024 2 29 23 59 59 250000))
                 (iso_utc (mkDatetime 2024 2 29 23 59 59 0)) = Lt).
Proof.
  assert (V1 : valid_clock (mkDatetime 2024 2 29 23 59 59 250000))
    by (unfold valid_clock; simpl; lia).
  assert (V2 : valid_clock (mkDatetime 2024 2 29 23 59 59 0))
    by (unfold valid_clock; simpl; lia).
  split; [exact V1|]. split; [exact V2|].
  exact (proj2 (proj2 (stored_timestamp_order _ _ V1 V2))).
Defined.

(** ** A recorded transaction and the bounds of its month *)

Lemma first_instant_clock y m :
  valid_month y m -> valid_clock (mkDatetime y m 1 0 0 0 0).
Proof. unfold valid_month, valid_clock. simpl. lia. Qed.

Lemma month_bounds_of_clock y m start_iso end_iso :
  month_bounds_utc y m = Ok (start_iso, end_iso) ->
  valid_month y m /\
  start_iso = first_instant y m /\
  exists y' m', valid_month y' m' /\ end_iso = first_instant y' m' /\
                month_index y' m' = month_index y m + 1.
Proof.
  intros Hb. destruct (month_bounds_utc_valid _ _ _ _ Hb) as (V & L).
  destruct (month_bounds_utc_ok y m V L) as (Hb' & V' & Hi).
  rewrite Hb in Hb'. injection Hb' as -> ->. eauto 8.
Qed.

Lemma before_later_month d y m :
  valid_clock d -> valid_month y m ->
  month_index (year d) (month d) < month_index y m ->
  PyStr.compare (iso_utc d) (first_instant y m) = Lt.
Proof.
  intros Vd V Hlt. unfold first_instant.
  rewrite (iso_compare d _ Vd (first_instant_clock y m V)).
  unfold datetime_compare, month_index, valid_month, valid_clock in *.
  cbn [year month day hour minute second].
  destruct (Z.compare_spec (year d) y) as [E|E|E]; try reflexivity; [|lia].
  destruct (Z.compare_spec (month d) m) as [E'|E'|E']; try reflexivity; lia.
Qed.

Lemma after_earlier_month d y m :
  valid_clock d -> valid_month y m ->
  month_index y m < month_index (year d) (month d) ->
  PyStr.compare (first_instant y m) (iso_utc d) = Lt.
Proof.
  intros Vd V Hlt. unfold first_instant.
  rewrite (iso_compare _ d (first_instant_clock y m V) Vd).
  unfold datetime_compare, month_index, valid_month, valid_clock in *.
  cbn [year month day hour minute second].
  destruct (Z.compare_spec y (year d)) as [E|E|E]; try reflexivity; [|lia].
  destruct (Z.compare_spec m (month d)) as [E'|E'|E']; try reflexivity; lia.
Qed.

(** The start of the month of a clock reading against the reading. *)
Lemma month_start_compare d :
  valid_clock d ->
  PyStr.compare (first_instant (year d) (month d)) (iso_utc d)
  = if (day d =? 1) && (hour d =? 0) && (minute d =? 0) && (second d =? 0)
    then (if microsecond d =? 0 then Eq else Gt)
    else Lt.
Proof.
  intros Vd. unfold first_instant.
  assert (V : valid_month (year d) (month d))
    by (unfold valid_clock, valid_month in *; lia).
  rewrite (iso_compare _ d (first_instant_clock _ _ V) Vd).
  unfold datetime_compare, valid_clock, iso_fraction in *.
  cbn [year month day hour minute second microsecond].
  rewrite !Z.compare_refl.
  destruct (Z.compare_spec 1 (day d)) as [E|E|E]; [| |lia].
  2:{ replace (day d =? 1) with false by (symmetry; apply Z.eqb_neq; lia).
      reflexivity. }
  rewrite <- E. cbn [Z.eqb Pos.eqb andb].
  destruct (Z.compare_spec 0 (hour d)) as [E1|E1|E1]; [| |lia].
  2:{ replace (hour d =? 0) with false by (symmetry; apply Z.eqb_neq; lia).
      reflexivity. }
  rewrite <- E1. cbn [Z.eqb andb].
  destruct (Z.compare_spec 0 (minute d)) as [E2|E2|E2]; [| |lia].
  2:{ replace (minute d =? 0) with false by (symmetry; apply Z.eqb_neq; lia).
      reflexivity. }
  rewrite <- E2. cbn [Z.eqb andb].
  destruct (Z.compare_spec 0 (second d)) as [E3|E3|E3]; [| |lia].
  2:{ replace (second d =? 0) with false by (symmetry; apply Z.eqb_neq; lia).
      reflexivity. }
  rewrite <- E3. cbn [Z.eqb andb].
  destruct (microsecond d =? 0); reflexivity.
Qed.

Lemma in_own_month now start_iso end_iso :
  valid_clock now -> ~ in_first_second now ->
  month_bounds_utc (year now) (month now) = Ok (start_iso, end_iso) ->
  in_range start_iso end_iso (iso_utc now) = true.
Proof.
  intros Vd Hnf Hb.
  destruct (month_bounds_of_clock _ _ _ _ Hb)
    as (V & -> & y' & m' & V' & -> & Hi).
  unfold in_range. apply andb_true_iff. split.
  - unfold PyStr.leb. rewrite (month_start_compare now Vd).
    destruct ((day now =? 1) && (hour now =? 0) && (minute now =? 0)
              && (second now =? 0)) eqn:E; [|reflexivity].
    destruct (microsecond now =? 0) eqn:Em; [reflexivity|].
    exfalso. apply Hnf. rewrite !andb_true_iff, !Z.eqb_eq in E.
    apply Z.eqb_neq in Em. unfold in_first_second. tauto.
  - apply ltb_lt. apply before_later_month; auto. lia.
Qed.

Lemma add_txn_row now uid args ty a s :
  amount (parse_amount_and_note args) = Some a ->
  exists r s1 t c,
    add_txn now uid args ty s = (Ok r, s1) /\
    transactions s1 = transactions s ++ [t] /\
    t_user_id t = uid /\ t_type t = ty /\
    t_amount t = stored_amount ty a /\ t_ts t = iso_utc now /\
    t_note t = note (parse_amount_and_note args) /\
    In c (categories s1) /\ c_id c = t_category_id t /\
    c_user_id c = uid /\ c_type c = ty /\
    (store_ok s -> store_ok s1).
Proof.
  intros Ha. unfold add_txn. rewrite Ha.
  destruct (parse_amount_note args a Ha) as (raw & Hnote).
  destruct (category_of_note_strip raw) as (cn & Hcn). rewrite <- Hnote in Hcn.
  destruct (add_txn_core_ok now uid a _ ty s cn Hcn)
    as (s1 & t & c & Hrun & Htx & Hu & Hty & Hn & Hts & Hamt & Hf & Hid & _ & Hok).
  unfold bind. rewrite Hrun. unfold ret.
  apply find_some in Hf. destruct Hf as [Hin Hk].
  apply category_matches_eq in Hk. destruct Hk as (Hcu & _ & Hct).
  eexists _, s1, t, c. repeat (split; [solve [eauto]|]). exact Hok.
Qed.

(** X10. A transaction recorded at a clock reading that is not within the
    first second of a month (past its first instant) is stored with a
    timestamp inside the bounds of the month of the reading, so the rows
    that [/list] and [/export] draw for that month contain it. *)
Theorem recorded_in_own_month
    (now : datetime) (uid : Z) (args : list pystr) (ty : ttype)
    (a : pyfloat) (s : db) (start_iso end_iso : pystr) :
  valid_clock now -> ~ in_first_second now ->
  amount (parse_amount_and_note args) = Some a ->
  month_bounds_utc (year now) (month now) = Ok (start_iso, end_iso) ->
  exists r s1 t c,
    add_txn now uid args ty s = (Ok r, s1) /\
    transactions s1 = transactions s ++ [t] /\
    in_range start_iso end_iso (t_ts t) = true /\
    In (t, c) (period_rows uid start_iso end_iso s1).
Proof.
  intros Vd Hnf Ha Hb.
  destruct (add_txn_row now uid args ty a s Ha)
    as (r & s1 & t & c & Hrun & Htx & Hu & _ & _ & Hts & _ & Hc & Hid & _).
  pose proof (in_own_month now _ _ Vd Hnf Hb) as Hin. rewrite <- Hts in Hin.
  exists r, s1, t, c. repeat split; auto.
  apply period_rows_In. unfold in_range in Hin.
  apply andb_true_iff in Hin. destruct Hin as [H1 H2].
  repeat split; auto. rewrite Htx. apply in_or_app. right. now left.
Qed.

Lemma recorded_in_own_month_witness :
  valid_clock (mkDatetime 2024 5 1 0 0 1 250000) /\
  ~ in_first_second (mkDatetime 2024 5 1 0 0 1 250000) /\
  amount (parse_amount_and_note [lit "99,50"; lit "books"])
  = Some (Fin (9950 # 100)) /\
  month_bounds_utc 2024 5
  = Ok (lit "2024-05-01T00:00:00Z", lit "2024-06-01T00:00:00Z") /\
  exists r s1 t c,
    add_txn (mkDatetime 2024 5 1 0 0 1 250000) 1 [lit "99,50"; lit "books"]
            expense empty_db = (Ok r, s1) /\
    transactions s1 = transactions empty_db ++ [t] /\
    in_range (lit "2024-05-01T00:00:00Z") (lit "2024-06-01T00:00:00Z") (t_ts t)
    = true /\
    In (t, c) (period_rows 1 (lit "2024-05-01T00:00:00Z")
                           (lit "2024-06-01T00:00:00Z") s1).
Proof.
  assert (V : valid_clock (mkDatetime 2024 5 1 0 0 1 250000))
    by (unfold valid_clock; simpl; lia).
  assert (N : ~ in_first_second (mkDatetime 2024 5 1 0 0 1 250000))
    by (unfold in_first_second; simpl; intros (_ & _ & _ & H & _); discriminate).
  split; [exact V|]. split; [exact N|]. split; [reflexivity|].
  split; [reflexivity|].
  exact (recorded_in_own_month (mkDatetime 2024 5 1 0 0 1 250000) 1
           [lit "99,50"; lit "books"] expense (Fin (9950 # 100)) empty_db
           _ _ V N eq_refl eq_refl).
Defined.

(** ** The first second of a month *)

(** The stored timestamp of a reading within the first second of a month,
    past its first instant, against the bounds of that month and of the
    month before. *)
Lemma first_second_ranges now yp mp prev_start start_iso end_iso :
  valid_clock now -> in_first_second now ->
  month_bounds_utc (year now) (month now) = Ok (start_iso, end_iso) ->
  month_bounds_utc yp mp = Ok (prev_start, start_iso) ->
  in_range start_iso end_iso (iso_utc now) = false /\
  in_range prev_start start_iso (iso_utc now) = true.
Proof.
  intros Vd (D & H & Mi & S & Us) Hb Hp.
  destruct (month_bounds_of_clock _ _ _ _ Hb)
    as (V & -> & y' & m' & V' & -> & Hi).
  destruct (month_bounds_of_clock _ _ _ _ Hp)
    as (Vp & -> & y2 & m2 & V2 & E2 & Hi2).
  assert (Hcmp : PyStr.compare (first_instant (year now) (month now))
                               (iso_utc now) = Gt).
  { rewrite (month_start_compare now Vd), D, H, Mi, S.
    apply Z.eqb_neq in Us. now rewrite Us. }
  assert (Hidx : month_index y2 m2 = month_index (year now) (month now)).
  { destruct (Z.lt_trichotomy (month_index y2 m2)
                              (month_index (year now) (month now)))
      as [L|[E|G]]; [|exact E|].
    - pose proof (first_instant_mono _ _ _ _ V2 V L) as C.
      rewrite <- E2, compare_refl in C. discriminate.
    - pose proof (first_instant_mono _ _ _ _ V V2 G) as C.
      rewrite <- E2, compare_refl in C. discriminate. }
  unfold in_range, PyStr.leb, PyStr.ltb. rewrite Hcmp. split; [reflexivity|].
  rewrite (after_earlier_month now yp mp Vd Vp) by lia.
  rewrite (compare_antisym (first_instant (year now) (month now)) (iso_utc now)),
    Hcmp. reflexivity.
Qed.

(** The rows of a month query when the user's only transaction is the
    last one recorded. *)
Lemma period_rows_single uid start_iso end_iso s s1 t :
  transactions s1 = transactions s ++ [t] ->
  (forall t0, In t0 (transactions s) -> t_user_id t0 <> uid) ->
  t_user_id t = uid -> refs_ok s1 ->
  exists c,
    In c (categories s1) /\ c_id c = t_category_id t /\
    period_rows uid start_iso end_iso s1
    = if in_range start_iso end_iso (t_ts t) then [(t, c)] else [].
Proof.
  intros Htx Hnone Hu Hrefs.
  destruct (Hrefs t) as (c & Hc); [rewrite Htx; apply in_or_app; right; now left|].
  exists c.
  assert (Hin : In c (filter (fun c0 => c_id c0 =? t_category_id t)
                             (categories s1))) by (rewrite Hc; now left).
  apply filter_In in Hin. destruct Hin as [Hin Hid]. apply Z.eqb_eq in Hid.
  split; [exact Hin|]. split; [exact Hid|].
  unfold period_rows. rewrite Htx, filter_app.
  rewrite (filter_nil_when _ (transactions s)).
  2:{ intros t0 Ht0. apply Hnone in Ht0. apply Z.eqb_neq in Ht0.
      now rewrite Ht0. }
  cbn [app filter]. rewrite Hu, Z.eqb_refl. cbn [andb].
  destruct (in_range start_iso end_iso (t_ts t)); [|reflexivity].
  cbn [flat_map]. rewrite Hc. reflexivity.
Qed.

Lemma period_rows_ledger uid start_iso end_iso s s' :
  categories s' = categories s -> transactions s' = transactions s ->
  period_rows uid start_iso end_iso s' = period_rows uid start_iso end_iso s.
Proof. unfold period_rows. now intros -> ->. Qed.

(** [/list] and [/export] of a month on the rows their query selects. *)
Lemma cmd_list_of_month now uid y m rest start_iso end_iso s :
  0 <= y <= 9999 -> 1 <= m <= 12 ->
  month_bounds_utc y m = Ok (start_iso, end_iso) ->
  fst (cmd_list now uid (period_of y m :: rest) s)
  = match firstn 20
            (Sql.order_by (fun r1 r2 => PyStr.leb (t_ts (fst r2)) (t_ts (fst r1)))
                          (period_rows uid start_iso end_iso s)) with
    | [] => Ok NoRecords
    | rows =>
        match map_outcome list_line rows with
        | Ok lines => Ok (Listing (period_of y m) lines)
        | Raise e => Raise e
        end
    end.
Proof.
  intros Hy Hm Hb. unfold cmd_list.
  rewrite (period_arg_of_month now y m rest Hy Hm).
  rewrite (period_bounds_of_month y m Hy Hm), Hb.
  destruct (ensure_user_spec now uid s) as (sa & Hens & Hc & Ht & _).
  unfold bind at 1, lift. unfold bind at 1. rewrite Hens.
  unfold bind at 1, get.
  rewrite (period_rows_ledger uid start_iso end_iso s sa Hc Ht).
  destruct (firstn 20 _) as [|r rows]; [reflexivity|].
  unfold bind, lift, ret. now destruct (map_outcome list_line (r :: rows)).
Qed.

Lemma cmd_export_of_month now uid y m rest start_iso end_iso s :
  0 <= y <= 9999 -> 1 <= m <= 12 ->
  month_bounds_utc y m = Ok (start_iso, end_iso) ->
  fst (cmd_export now uid (period_of y m :: rest) s)
  = match export_rows uid start_iso end_iso s with
    | [] => Ok (NoRecordsFor (period_of y m))
    | rows => Ok (ExportFile (period_of y m) rows)
    end.
Proof.
  intros Hy Hm Hb. unfold cmd_export.
  rewrite (period_arg_of_month now y m rest Hy Hm).
  rewrite (period_bounds_of_month y m Hy Hm), Hb.
  destruct (ensure_user_spec now uid s) as (sa & Hens & Hc & Ht & _).
  unfold bind at 1, lift. unfold bind at 1. rewrite Hens.
  unfold bind at 1, get.
  unfold export_rows.
  rewrite (period_rows_ledger uid start_iso end_iso s sa Hc Ht).
  now destruct (List.map export_row _).
Qed.

(** X11. A transaction recorded within the first second of a month, past
    its first instant, is stored with a timestamp that sorts before the
    start bound of that month: it is outside the bounds of its own month
    and inside the bounds of the month before. *)
Theorem first_second_falls_in_previous_month
    (now : datetime) (uid : Z) (args : list pystr) (ty : ttype)
    (a : pyfloat) (s : db) (yp mp : Z) (prev_start start_iso end_iso : pystr) :
  valid_clock now -> in_first_second now ->
  amount (parse_amount_and_note args) = Some a ->
  month_bounds_utc (year now) (month now) = Ok (start_iso, end_iso) ->
  month_bounds_utc yp mp = Ok (prev_start, start_iso) ->
  exists r s1 t,
    add_txn now uid args ty s = (Ok r, s1) /\
    transactions s1 = transactions s ++ [t] /\
    in_range start_iso end_iso (t_ts t) = false /\
    in_range prev_start start_iso (t_ts t) = true.
Proof.
  intros Vd Hfs Ha Hb Hp.
  destruct (add_txn_row now uid args ty a s Ha)
    as (r & s1 & t & c & Hrun & Htx & _ & _ & _ & Hts & _).
  exists r, s1, t. split; [exact Hrun|]. split; [exact Htx|]. rewrite Hts.
  exact (first_second_ranges now yp mp _ _ _ Vd Hfs Hb Hp).
Qed.

Lemma first_second_falls_in_previous_month_witness :
  valid_clock (mkDatetime 2024 3 1 0 0 0 500000) /\
  in_first_second (mkDatetime 2024 3 1 0 0 0 500000) /\
  amount (parse_amount_and_note [lit "40"; lit "bus"]) = Some (Fin (40 # 1)) /\
  month_bounds_utc 2024 3
  = Ok (lit "2024-03-01T00:00:00Z", lit "2024-04-01T00:00:00Z") /\
  month_bounds_utc 2024 2
  = Ok (lit "2024-02-01T00:00:00Z", lit "2024-03-01T00:00:00Z") /\
  exists r s1 t,
    add_txn (mkDatetime 2024 3 1 0 0 0 500000) 1 [lit "40"; lit "bus"]
            expense empty_db = (Ok r, s1) /\
    transactions s1 = transactions empty_db ++ [t] /\
    in_range (lit "2024-03-01T00:00:00Z") (lit "2024-04-01T00:00:00Z") (t_ts t)
    = false /\
    in_range (lit "2024-02-01T00:00:00Z") (lit "2024-03-01T00:00:00Z") (t_ts t)
    = true.
Proof.
  assert (V : valid_clock (mkDatetime 2024 3 1 0 0 0 500000))
    by (unfold valid_clock; simpl; lia).
  assert (F : in_first_second (mkDatetime 2024 3 1 0 0 0 500000))
    by (unfold in_first_second; simpl; repeat split; discriminate).
  split; [exact V|]. split; [exact F|]. split; [reflexivity|].
  split; [reflexivity|]. split; [reflexivity|].
  exact (first_second_falls_in_previous_month
           (mkDatetime 2024 3 1 0 0 0 500000) 1 [lit "40"; lit "bus"] expense
           (Fin (40 # 1)) empty_db 2024 2 _ _ _ V F eq_refl eq_refl eq_refl).
Defined.

(** C7. Month membership of a transaction recorded in the first second of
    a month: the code files it under the month before. When a user without
    earlier transactions records an amount at a clock reading within the
    first second of a month, past its first instant, [/list] and [/export]
    of that month find no record, and [/list] and [/export] of the month
    before show it, with its timestamp of the first of the later month:
    the stored string carries the fraction of the second, and ["."] sorts
    before the ["Z"] of the bound. *)
Theorem first_second_listed_under_previous_month
    (now later : datetime) (uid : Z) (args : list pystr) (ty : ttype)
    (a : pyfloat) (s : db) (yp mp : Z) (prev_start start_iso end_iso : pystr) :
  valid_clock now -> in_first_second now ->
  amount (parse_amount_and_note args) = Some a -> a <> NaN ->
  month_bounds_utc (year now) (month now) = Ok (start_iso, end_iso) ->
  month_bounds_utc yp mp = Ok (prev_start, start_iso) ->
  store_ok s ->
  (forall t, In t (transactions s) -> t_user_id t <> uid) ->
  exists r s1 line row,
    add_txn now uid args ty s = (Ok r, s1) /\
    fst (cmd_list later uid [period_of (year now) (month now)] s1)
    = Ok NoRecords /\
    fst (cmd_export later uid [period_of (year now) (month now)] s1)
    = Ok (NoRecordsFor (period_of (year now) (month now))) /\
    fst (cmd_list later uid [period_of yp mp] s1)
    = Ok (Listing (period_of yp mp) [line]) /\
    line_ts line = slice 0 16 (iso_utc now) /\
    fst (cmd_export later uid [period_of yp mp] s1)
    = Ok (ExportFile (period_of yp mp) [row]) /\
    row_ts row = iso_utc now.
Proof.
  intros Vd Hfs Ha Hnan Hb Hp Hok Hnone.
  destruct (add_txn_row now uid args ty a s Ha)
    as (r & s1 & t & c0 & Hrun & Htx & Hu & _ & Hamt & Hts & _ & _ & _ & _ & _
        & Hkeep).
  destruct (first_second_ranges now yp mp _ _ _ Vd Hfs Hb Hp) as [Hout Hin].
  rewrite <- Hts in Hout, Hin.
  pose proof (store_ok_refs s1 (Hkeep Hok)) as Hrefs.
  destruct (period_rows_single uid start_iso end_iso s s1 t Htx Hnone Hu Hrefs)
    as (c & _ & _ & Hown).
  destruct (period_rows_single uid prev_start start_iso s s1 t Htx Hnone Hu Hrefs)
    as (c' & _ & _ & Hprev).
  rewrite Hout in Hown. rewrite Hin in Hprev.
  assert (Hy : 0 <= year now <= 9999 /\ 1 <= month now <= 12)
    by (unfold valid_clock in Vd; lia).
  assert (Hyp : 0 <= yp <= 9999 /\ 1 <= mp <= 12).
  { destruct (month_bounds_of_clock _ _ _ _ Hp) as (Vp & _).
    unfold valid_month in Vp. lia. }
  destruct Hy as [Hy Hm]. destruct Hyp as [Hyp Hmp].
  assert (Hsome : exists v, t_amount t = Some v).
  { rewrite Hamt. unfold stored_amount.
    destruct ty, a as [q| | |]; simpl; eauto; contradiction. }
  destruct Hsome as (v & Hv).
  eexists r, s1, _, _. split; [exact Hrun|].
  rewrite (cmd_list_of_month later uid _ _ [] _ _ s1 Hy Hm Hb).
  rewrite (cmd_export_of_month later uid _ _ [] _ _ s1 Hy Hm Hb).
  rewrite (cmd_list_of_month later uid _ _ [] _ _ s1 Hyp Hmp Hp).
  rewrite (cmd_export_of_month later uid _ _ [] _ _ s1 Hyp Hmp Hp).
  unfold export_rows. rewrite Hown, Hprev.
  cbn [Sql.order_by fold_right Sql.insert_by firstn List.map map_outcome
       list_line export_row].
  rewrite Hv. repeat split; try reflexivity.
  - cbn [line_ts]. now rewrite Hts.
  - cbn [row_ts]. exact Hts.
Qed.

Lemma first_second_listed_under_previous_month_witness :
  valid_clock (mkDatetime 2024 3 1 0 0 0 500000) /\
  in_first_second (mkDatetime 2024 3 1 0 0 0 500000) /\
  amount (parse_amount_and_note [lit "40"; lit "bus"]) = Some (Fin (40 # 1)) /\
  Fin (40 # 1) <> NaN /\
  month_bounds_utc 2024 3
  = Ok (lit "2024-03-01T00:00:00Z", lit "2024-04-01T00:00:00Z") /\
  month_bounds_utc 2024 2
  = Ok (lit "2024-02-01T00:00:00Z", lit "2024-03-01T00:00:00Z") /\
  store_ok empty_db /\
  (forall t, In t (transactions empty_db) -> t_user_id t <> 1) /\
  exists r s1 line row,
    add_txn (mkDatetime 2024 3 1 0 0 0 500000) 1 [lit "40"; lit "bus"]
            expense empty_db = (Ok r, s1) /\
    fst (cmd_list (mkDatetime 2024 3 20 9 0 0 0) 1 [lit "2024-03"] s1)
    = Ok NoRecords /\
    fst (cmd_export (mkDatetime 2024 3 20 9 0 0 0) 1 [lit "2024-03"] s1)
    = Ok (NoRecordsFor (lit "2024-03")) /\
    fst (cmd_list (mkDatetime 2024 3 20 9 0 0 0) 1 [lit "2024-02"] s1)
    = Ok (Listing (lit "2024-02") [line]) /\
    line_ts line = lit "2024-03-01T00:00" /\
    fst (cmd_export (mkDatetime 2024 3 20 9 0 0 0) 1 [lit "2024-02"] s1)
    = Ok (ExportFile (lit "2024-02") [row]) /\
    row_ts row = lit "2024-03-01T00:00:00.500000Z".
Proof.
  assert (V : valid_clock (mkDatetime 2024 3 1 0 0 0 500000))
    by (unfold valid_clock; simpl; lia).
  assert (F : in_first_second (mkDatetime 2024 3 1 0 0 0 500000))
    by (unfold in_first_second; simpl; repeat split; discriminate).
  assert (A : Fin (40 # 1) <> NaN) by discriminate.
  assert (E : forall t, In t (transactions empty_db) -> t_user_id t <> 1)
    by (intros t []).
  split; [exact V|]. split; [exact F|]. split; [reflexivity|].
  split; [exact A|]. split; [reflexivity|]. split; [reflexivity|].
  split; [exact store_ok_empty|]. split; [exact E|].
  exact (first_second_listed_under_previous_month
           (mkDatetime 2024 3 1 0 0 0 500000) (mkDatetime 2024 3 20 9 0 0 0) 1
           [lit "40"; lit "bus"] expense (Fin (40 # 1)) empty_db 2024 2 _ _ _
           V F eq_refl A eq_refl eq_refl store_ok_empty E).
Defined.

(** ** Recording, then the totals of the month *)

(** X12. The first transaction of a month shows in [/sum]: when the user
    has no transaction from the start of the current month on, and a
    whole amount [q >= 0] below [2^53] is recorded at a clock reading
    outside the first second of the month, then [/sum] at the same reading succeeds and
    reports, to two decimals, [q] as the expense and [-q] as the net for
    an expense, [q] as the income and as the net for an income, and 0 for
    the other kind. *)
Theorem sum_after_first_record
    (now : datetime) (uid : Z) (args : list pystr) (ty : ttype) (q : Q)
    (s : db) :
  valid_clock now -> ~ in_first_second now ->
  amount (parse_amount_and_note args) = Some (Fin q) ->
  whole q -> (0 <= q < EXACT_BOUND)%Q ->
  (forall t, In t (transactions s) -> t_user_id t = uid ->
             PyStr.leb (iso_utc (first_of_month now)) (t_ts t) = false) ->
  exists r s1,
    add_txn now uid args ty s = (Ok r, s1) /\
    cmd_sum now uid s1
    = (Ok match ty with
          | expense =>
              MonthTotals (Fin (PyFloat.round2_Q 0)) (Fin (PyFloat.round2_Q q))
                          (Fin (PyFloat.round2_Q (- q)))
          | income =>
              MonthTotals (Fin (PyFloat.round2_Q q)) (Fin (PyFloat.round2_Q 0))
                          (Fin (PyFloat.round2_Q q))
          end, s1).
Proof.
  intros Vd Hnf Ha Hwq [Hq Hqb] Hnone.
  destruct (add_txn_row now uid args ty (Fin q) s Ha)
    as (r & s1 & t & c & Hrun & Htx & Hu & Hty & Hamt & Hts & _).
  exists r, s1. split; [exact Hrun|].
  set (start := iso_utc (first_of_month now)) in *.
  assert (Hstart : PyStr.leb start (t_ts t) = true).
  { rewrite Hts. unfold PyStr.leb.
    change start with (first_instant (year now) (month now)).
    rewrite (month_start_compare now Vd).
    destruct ((day now =? 1) && (hour now =? 0) && (minute now =? 0)
              && (second now =? 0)) eqn:E; [|reflexivity].
    destruct (microsecond now =? 0) eqn:Em; [reflexivity|].
    exfalso. apply Hnf. rewrite !andb_true_iff, !Z.eqb_eq in E.
    apply Z.eqb_neq in Em. unfold in_first_second. tauto. }
  assert (HT : filter (fun t0 => (t_user_id t0 =? uid)
                                 && PyStr.leb start (t_ts t0))
                      (transactions s1) = [t]).
  { rewrite Htx, filter_app. rewrite (filter_nil_when _ (transactions s)).
    - cbn [filter app]. rewrite Hu, Z.eqb_refl, Hstart. reflexivity.
    - intros t0 Ht0. destruct (t_user_id t0 =? uid) eqn:E; [|reflexivity].
      apply Z.eqb_eq in E. cbn [andb]. now apply Hnone. }
  pose proof (get_totals_with_rows uid start s1) as Hget.
  cbv zeta in Hget. unfold turnover in Hget. rewrite HT in Hget.
  assert (Hfin : exists x, t_amount t = Some (Fin x) /\ whole x /\
                           (x == match ty with
                                 | expense => - q
                                 | income => q
                                 end)%Q).
  { rewrite Hamt. unfold stored_amount. destruct ty; simpl.
    - eexists. split; [reflexivity|]. split.
      + now apply whole_opp, whole_abs.
      + rewrite Qabs_pos by exact Hq. reflexivity.
    - eexists. split; [reflexivity|]. split; [exact Hwq|reflexivity]. }
  destruct Hfin as (x & Hx & Hwx & Ex).
  assert (Haq : amount_q t = x) by (unfold amount_q; now rewrite Hx).
  specialize (Hget ltac:(discriminate)).
  specialize (Hget ltac:(intros t0 [<-|[]]; eauto)).
  assert (Hb : (Qsum (List.map (fun t0 => Qabs (amount_q t0)) [t])
                < EXACT_BOUND)%Q).
  { cbn [List.map Qsum fold_right]. rewrite Haq, Qplus_0_r.
    assert (Qabs x == q)%Q as ->; [|exact Hqb].
    rewrite Ex. destruct ty; [rewrite Qabs_opp|]; now apply Qabs_pos. }
  specialize (Hget Hb).
  unfold cmd_sum. fold start. unfold bind at 1. rewrite Hget.
  cbn [filter]. rewrite Hty.
  destruct ty; cbn [ttype_eqb List.map Qsum fold_right or_zeros];
    unfold bind, lift, ret; cbn [fmt_2f]; rewrite Haq.
  - rewrite (round2_Q_comp (Qabs (x + 0)) q), (round2_Q_comp (x + 0) (- q));
      [reflexivity| |].
    + rewrite Ex. ring.
    + rewrite Ex, Qplus_0_r, Qabs_opp. now apply Qabs_pos.
  - rewrite (round2_Q_comp (x + 0) q); [reflexivity|]. rewrite Ex. ring.
Qed.

Lemma sum_after_first_record_witness :
  valid_clock (mkDatetime 2024 5 15 12 0 0 0) /\
  ~ in_first_second (mkDatetime 2024 5 15 12 0 0 0) /\
  amount (parse_amount_and_note [lit "250"; lit "coffee"; lit "morning"])
  = Some (Fin (250 # 1)) /\
  whole (250 # 1) /\
  (0 <= 250 # 1 < EXACT_BOUND)%Q /\
  (forall t, In t (transactions empty_db) -> t_user_id t = 1 ->
             PyStr.leb (iso_utc (first_of_month (mkDatetime 2024 5 15 12 0 0 0)))
                       (t_ts t) = false) /\
  exists r s1,
    add_txn (mkDatetime 2024 5 15 12 0 0 0) 1
            [lit "250"; lit "coffee"; lit "morning"] expense empty_db
    = (Ok r, s1) /\
    cmd_sum (mkDatetime 2024 5 15 12 0 0 0) 1 s1
    = (Ok (MonthTotals (Fin (PyFloat.round2_Q 0))
                       (Fin (PyFloat.round2_Q (250 # 1)))
                       (Fin (PyFloat.round2_Q (- (250 # 1))))), s1).
Proof.
  assert (V : valid_clock (mkDatetime 2024 5 15 12 0 0 0))
    by (unfold valid_clock; simpl; lia).
  assert (N : ~ in_first_second (mkDatetime 2024 5 15 12 0 0 0))
    by (unfold in_first_second; simpl; intros (H & _); discriminate).
  assert (W : whole (250 # 1)) by (exists 250; reflexivity).
  assert (Q0 : (0 <= 250 # 1 < EXACT_BOUND)%Q)
    by (split; [unfold Qle; simpl; lia|vm_compute; reflexivity]).
  assert (E : forall t, In t (transactions empty_db) -> t_user_id t = 1 ->
                PyStr.leb (iso_utc (first_of_month (mkDatetime 2024 5 15 12 0 0 0)))
                          (t_ts t) = false) by (intros t []).
  split; [exact V|]. split; [exact N|]. split; [reflexivity|].
  split; [exact W|]. split; [exact Q0|]. split; [exact E|].
  exact (sum_after_first_record (mkDatetime 2024 5 15 12 0 0 0) 1
           [lit "250"; lit "coffee"; lit "morning"] expense (250 # 1) empty_db
           V N eq_refl W Q0 E).
Defined.

(** ** Inline callbacks *)

Lemma on_callback_month now uid s :
  on_callback now uid (lit "dash:month") s
  = (row <- get_totals uid (iso_utc (first_of_month now)) ;;
     let '(inc, exp, net) := or_zeros row in
     i <- lift (fmt_2f inc) ;;
     e <- lift (fmt_2f exp) ;;
     n <- lift (fmt_2f net) ;;
     ret (MonthEdited i e n)) s.
Proof. reflexivity. Qed.

(** X13. The "month" button of the keyboard and [/sum] agree: on every
    store and clock reading the button shows the three totals that [/sum]
    replies with, and it fails exactly when [/sum] fails, with the same
    exception; neither changes the store. *)
Theorem month_button_agrees_with_sum (now : datetime) (uid : Z) (s : db) :
  (forall i e n s',
      cmd_sum now uid s = (Ok (MonthTotals i e n), s') <->
      on_callback now uid (lit "dash:month") s = (Ok (MonthEdited i e n), s')) /\
  (forall x s',
      cmd_sum now uid s = (Raise x, s') <->
      on_callback now uid (lit "dash:month") s = (Raise x, s')) /\
  snd (on_callback now uid (lit "dash:month") s) = s.
Proof.
  destruct (get_totals_state uid (iso_utc (first_of_month now)) s)
    as ([[inc exp] net] & Hg).
  set (v := match fmt_2f inc, fmt_2f exp, fmt_2f net with
            | Ok i, Ok e, Ok n => Ok (i, e, n)
            | Raise x, _, _ => Raise x
            | Ok _, Raise x, _ => Raise x
            | Ok _, Ok _, Raise x => Raise x
            end).
  assert (Hsum : cmd_sum now uid s
                 = (match v with
                    | Ok (i, e, n) => Ok (MonthTotals i e n)
                    | Raise x => Raise x
                    end, s)).
  { unfold cmd_sum. unfold bind at 1. rewrite Hg. cbn [or_zeros].
    unfold bind, lift, ret, v. destruct inc, exp, net; reflexivity. }
  assert (Hcb : on_callback now uid (lit "dash:month") s
                = (match v with
                   | Ok (i, e, n) => Ok (MonthEdited i e n)
                   | Raise x => Raise x
                   end, s)).
  { rewrite on_callback_month. unfold bind at 1. rewrite Hg. cbn [or_zeros].
    unfold bind, lift, ret, v. destruct inc, exp, net; reflexivity. }
  rewrite Hsum, Hcb. clearbody v.
  destruct v as [[[i0 e0] n0]|x0]; (split; [|split; [|reflexivity]]);
    intros; split; intros H; try discriminate;
    injection H as <-; subst; reflexivity.
Qed.

Lemma split_on_piece a : no_colon a = true -> split_on 58 a = [a].
Proof.
  unfold no_colon. induction a as [|c a IH]; simpl; [reflexivity|].
  intros H. apply andb_true_iff in H. destruct H as [Hc Ha].
  apply negb_true_iff in Hc. rewrite Hc, (IH Ha). reflexivity.
Qed.

Lemma split_on_app a b :
  no_colon a = true -> split_on 58 (a ++ 58%N :: b) = a :: split_on 58 b.
Proof.
  unfold no_colon. induction a as [|c a IH]; simpl; [reflexivity|].
  intros H. apply andb_true_iff in H. destruct H as [Hc Ha].
  apply negb_true_iff in Hc. rewrite Hc, (IH Ha). reflexivity.
Qed.

(** X14. Callback data of the form [quick:add:<amount>:<note>], amount
    and note without colon, records an expense like a direct call of
    [add_txn_core] with [float(amount)] (no comma replacement) and the
    note as it is: one transaction is appended, stored as [-abs(amount)],
    and the reply shows the amount and the note, or the category when the
    note is empty. *)
Theorem quick_callback_records
    (now : datetime) (uid : Z) (tok note : pystr) (a : pyfloat) (cn : pystr)
    (s : db) :
  no_colon tok = true -> no_colon note = true ->
  py_float tok = Ok a -> category_of_note note = Ok cn ->
  exists s1 t,
    on_callback now uid (lit "quick:add:" ++ tok ++ 58%N :: note) s
    = (Ok (QuickRecorded a (match note with [] => cn | n => n end)), s1) /\
    add_txn_core now uid a note expense s = (Ok cn, s1) /\
    transactions s1 = transactions s ++ [t] /\
    t_user_id t = uid /\ t_type t = expense /\ t_note t = note /\
    t_amount t = Sql.real (PyFloat.neg (PyFloat.abs a)).
Proof.
  intros Htok Hnote Hf Hcn.
  destruct (add_txn_core_ok now uid a note expense s cn Hcn)
    as (s1 & t & c & Hrun & Htx & Hu & Hty & Hn & _ & Hamt & _).
  exists s1, t. split; [|auto 10].
  unfold on_callback.
  change (lit "quick:add:" ++ tok ++ 58%N :: note)
    with (lit "quick" ++ 58%N :: (lit "add" ++ 58%N :: (tok ++ 58%N :: note))).
  rewrite (split_on_app (lit "quick")) by reflexivity.
  rewrite (split_on_app (lit "add")) by reflexivity.
  rewrite (split_on_app tok note Htok), (split_on_piece note Hnote).
  unfold bind, lift, ret. cbn [parts_are item nth_error].
  replace (PyStr.eqb (lit "quick") (lit "quick")) with true by reflexivity.
  replace (PyStr.eqb (lit "add") (lit "add")) with true by reflexivity.
  cbv iota beta. rewrite Hf, Hrun. reflexivity.
Qed.

Lemma quick_callback_records_witness :
  no_colon (lit "100") = true /\
  no_colon [1082; 1086; 1092; 1077]%N = true /\
  py_float (lit "100") = Ok (Fin (100 # 1)) /\
  category_of_note [1082; 1086; 1092; 1077]%N
  = Ok [1082; 1086; 1092; 1077]%N /\
  exists s1 t,
    on_callback (mkDatetime 2024 5 15 12 0 0 0) 7 QUICK_ADD_BUTTON empty_db
    = (Ok (QuickRecorded (Fin (100 # 1)) [1082; 1086; 1092; 1077]%N), s1) /\
    add_txn_core (mkDatetime 2024 5 15 12 0 0 0) 7 (Fin (100 # 1))
                 [1082; 1086; 1092; 1077]%N expense empty_db
    = (Ok [1082; 1086; 1092; 1077]%N, s1) /\
    transactions s1 = transactions empty_db ++ [t] /\
    t_user_id t = 7 /\ t_type t = expense /\
    t_note t = [1082; 1086; 1092; 1077]%N /\
    t_amount t = Sql.real (PyFloat.neg (PyFloat.abs (Fin (100 # 1)))).
Proof.
  split; [reflexivity|]. split; [reflexivity|]. split; [reflexivity|].
  split; [reflexivity|].
  exact (quick_callback_records (mkDatetime 2024 5 15 12 0 0 0) 7 (lit "100")
           [1082; 1086; 1092; 1077]%N (Fin (100 # 1))
           [1082; 1086; 1092; 1077]%N empty_db
           eq_refl eq_refl eq_refl eq_refl).
Defined.

(** X15. Callback data that is not understood: data whose first piece is
    neither [quick] nor [dash] is ignored and the store is untouched,
    while the bare words [quick] and [dash], which have no second piece,
    end in [IndexError], also with the store untouched. *)
Theorem callback_not_understood
    (now : datetime) (uid : Z) (data p0 : pystr) (rest : list pystr) (s : db) :
  split_on 58 data = p0 :: rest ->
  (p0 <> lit "quick" -> p0 <> lit "dash" ->
   on_callback now uid data s = (Ok Ignored, s)) /\
  (rest = [] -> p0 = lit "quick" \/ p0 = lit "dash" ->
   on_callback now uid data s = (Raise IndexError, s)).
Proof.
  intros Hsplit. unfold on_callback. rewrite Hsplit. split.
  - intros Hq Hd.
    assert (Eq' : PyStr.eqb p0 (lit "quick") = false).
    { destruct (PyStr.eqb p0 (lit "quick")) eqn:E; [|reflexivity].
      apply pystr_eqb_eq in E. contradiction. }
    assert (Ed : PyStr.eqb p0 (lit "dash") = false).
    { destruct (PyStr.eqb p0 (lit "dash")) eqn:E; [|reflexivity].
      apply pystr_eqb_eq in E. contradiction. }
    unfold bind, lift, ret, parts_are. cbn [item nth_error].
    rewrite Eq', Ed. reflexivity.
  - intros -> [->| ->]; reflexivity.
Qed.

Lemma callback_not_understood_witness :
  split_on 58 (lit "settings:open") = lit "settings" :: [lit "open"] /\
  (lit "settings" <> lit "quick" -> lit "settings" <> lit "dash" ->
   on_callback (mkDatetime 2024 5 15 12 0 0 0) 7 (lit "settings:open") empty_db
   = (Ok Ignored, empty_db)).
Proof.
  split; [reflexivity|].
  exact (proj1 (callback_not_understood (mkDatetime 2024 5 15 12 0 0 0) 7
                  (lit "settings:open") (lit "settings") [lit "open"] empty_db
                  eq_refl)).
Defined.

(** ** The fan-out of the digest *)

Lemma mapM_ok {A B} (f : A -> M B) l s out :
  (forall a s', snd (f a s') = s') ->
  fst (mapM f l s) = Ok out ->
  Forall2 (fun a b => fst (f a s) = Ok b) l out.
Proof.
  intros Hst. revert out. induction l as [|a l IH]; intros out; cbn [mapM].
  - unfold ret. cbn. intros [= <-]. constructor.
  - unfold bind at 1. pose proof (Hst a s) as Ha.
    destruct (f a s) as [[b|e] s'] eqn:Hf; cbn [snd] in Ha; subst s';
      [|discriminate].
    unfold bind at 1. pose proof (mapM_state f l s Hst) as Hl.
    destruct (mapM f l s) as [[bs|e] s'] eqn:Hm; cbn [snd] in Hl; subst s';
      [|discriminate].
    unfold ret. cbn. intros [= <-]. constructor; [now rewrite Hf|].
    now apply IH.
Qed.

Lemma mapM_raise {A B} (f : A -> M B) l s e a :
  (forall x s', snd (f x s') = s') ->
  (forall x, In x l -> (exists b, fst (f x s) = Ok b) \/ fst (f x s) = Raise e) ->
  In a l -> fst (f a s) = Raise e ->
  mapM f l s = (Raise e, s).
Proof.
  intros Hst. induction l as [|x l IH]; intros Hall Hin Ha; [contradiction|].
  cbn [mapM]. unfold bind at 1. pose proof (Hst x s) as Hx.
  destruct (f x s) as [[b|e'] s'] eqn:Hf; cbn [snd] in Hx; subst s'.
  - destruct Hin as [->|Hin]; [rewrite Hf in Ha; discriminate|].
    unfold bind at 1.
    rewrite (IH (fun y Hy => Hall y (or_intror Hy)) Hin Ha). reflexivity.
  - destruct (Hall x (or_introl eq_refl)) as [(b & Hb)|Hb];
      rewrite Hf in Hb; cbn in Hb; congruence.
Qed.

Lemma digest_user_outcome now uid h s b :
  fst (digest_user now (uid, h) s) = Ok b ->
  (b = None /\ hour now <> digest_hour_of h) \/
  (hour now = digest_hour_of h /\ exists r, b = Some (uid, r)).
Proof.
  unfold digest_user. fold (digest_hour_of h).
  destruct (Z.eqb_spec (hour now) (digest_hour_of h)) as [E|E].
  - intros H. right. split; [exact E|]. revert H.
    unfold bind at 1, lift.
    destruct (minus_one_day now) as [yd|e]; [|discriminate].
    destruct (get_totals_state uid (iso_utc (first_of_month now)) s)
      as ([[im em] nm] & Hm).
    destruct (get_totals_state uid (iso_utc (midnight yd)) s)
      as ([[id ed] nd] & Hd).
    unfold bind at 1. rewrite Hm. unfold bind at 1. rewrite Hd.
    cbn [or_zeros]. unfold bind, lift, ret.
    destruct (fmt_2f id), (fmt_2f ed), (fmt_2f nd), (fmt_2f im), (fmt_2f em),
      (fmt_2f nm); cbn; try discriminate.
    intros [= <-]. eauto.
  - unfold ret. cbn. intros [= <-]. left. auto.
Qed.

(** X16. One wake-up of the digest loop: off the hour boundary nothing is
    sent; on it there is one entry per user row, and a message is handed
    over for a user exactly when the user's digest hour (18 when unset)
    is the hour of the clock. *)
Theorem digest_only_for_due_users
    (now : datetime) (s : db) (out : list (option (Z * reply))) :
  fst (digest_wakeup now s) = Ok out ->
  (minute now <> 0 -> out = []) /\
  (minute now = 0 -> List.length out = List.length (users s)) /\
  (forall uid r, In (Some (uid, r)) out ->
      minute now = 0 /\
      exists u, In u (users s) /\ u_id u = uid /\
                digest_hour_of (u_digest_hour_utc u) = hour now) /\
  (forall u, minute now = 0 -> In u (users s) ->
      digest_hour_of (u_digest_hour_utc u) = hour now ->
      exists r, In (Some (u_id u, r)) out).
Proof.
  unfold digest_wakeup.
  destruct (Z.eqb_spec (minute now) 0) as [E|E]; cbn [negb].
  - unfold bind at 1, get. intros H.
    apply mapM_ok in H; [|intros a s'; apply digest_user_state].
    split; [contradiction|]. split.
    { intros _. rewrite (forall2_length _ _ _ H). apply length_map. }
    split.
    + intros uid r Hin. split; [exact E|].
      destruct (forall2_in_r _ _ _ _ H Hin) as ([uid' h] & Hu & Hd).
      apply in_map_iff in Hu. destruct Hu as (u & [= <- <-] & Hu).
      destruct (digest_user_outcome _ _ _ _ _ Hd) as [[? _]|(Hh & r' & Hr)];
        [discriminate|].
      injection Hr as Hid _. exists u. repeat split; auto.
    + intros u _ Hu Hh.
      assert (Hin : In (u_id u, u_digest_hour_utc u)
                       (List.map (fun u => (u_id u, u_digest_hour_utc u)) (users s)))
        by (apply in_map_iff; eauto).
      destruct (forall2_in_l _ _ _ _ H Hin) as (b & Hb & Hd).
      destruct (digest_user_outcome _ _ _ _ _ Hd) as [[_ Hne]|(_ & r & ->)];
        [congruence|].
      now exists r.
  - unfold ret. cbn. intros [= <-]. split; [reflexivity|].
    split; [contradiction|]. split; [intros ? ? []|contradiction].
Qed.

Lemma digest_only_for_due_users_witness :
  exists out,
    fst (digest_wakeup (mkDatetime 2024 5 15 18 0 0 0) ledger_may_june) = Ok out /\
    (minute (mkDatetime 2024 5 15 18 0 0 0) <> 0 -> out = []) /\
    (minute (mkDatetime 2024 5 15 18 0 0 0) = 0 ->
     List.length out = List.length (users ledger_may_june)) /\
    (forall uid r, In (Some (uid, r)) out ->
        minute (mkDatetime 2024 5 15 18 0 0 0) = 0 /\
        exists u, In u (users ledger_may_june) /\ u_id u = uid /\
                  digest_hour_of (u_digest_hour_utc u)
                  = hour (mkDatetime 2024 5 15 18 0 0 0)) /\
    (forall u, minute (mkDatetime 2024 5 15 18 0 0 0) = 0 ->
        In u (users ledger_may_june) ->
        digest_hour_of (u_digest_hour_utc u)
        = hour (mkDatetime 2024 5 15 18 0 0 0) ->
        exists r, In (Some (u_id u, r)) out).
Proof.
  eexists. split; [vm_compute; reflexivity|].
  apply (digest_only_for_due_users (mkDatetime 2024 5 15 18 0 0 0)
           ledger_may_june).
  vm_compute. reflexivity.
Defined.

Lemma digest_user_ok_or_type_error now yd u s :
  minus_one_day now = Ok yd ->
  (exists b, fst (digest_user now u s) = Ok b)
  \/ fst (digest_user now u s) = Raise TypeError.
Proof.
  intros Hy. destruct u as [uid h].
  destruct (digest_user now (uid, h) s) as [o s'] eqn:E. cbn [fst].
  revert E. unfold digest_user.
  destruct (hour now =? _).
  2:{ unfold ret. intros [= <- <-]. left. eauto. }
  unfold bind at 1, lift. rewrite Hy.
  destruct (get_totals_state uid (iso_utc (first_of_month now)) s)
    as ([[im em] nm] & Hm).
  destruct (get_totals_state uid (iso_utc (midnight yd)) s)
    as ([[id ed] nd] & Hd).
  unfold bind at 1. rewrite Hm. unfold bind at 1. rewrite Hd.
  cbn [or_zeros]. unfold bind, lift, ret.
  destruct id, ed, nd, im, em, nm; cbn; intros [= <- <-]; eauto.
Qed.

Lemma digest_user_without_rows now yd uid h s :
  minus_one_day now = Ok yd ->
  hour now = digest_hour_of h ->
  (forall t, In t (transactions s) -> t_user_id t = uid ->
             PyStr.leb (iso_utc (first_of_month now)) (t_ts t) = false) ->
  fst (digest_user now (uid, h) s) = Raise TypeError.
Proof.
  intros Hy Hh Hnone. unfold digest_user. fold (digest_hour_of h).
  rewrite Hh, Z.eqb_refl. unfold bind at 1, lift. rewrite Hy.
  assert (Hm : get_totals uid (iso_utc (first_of_month now)) s
               = (Ok (Some (None, None, None)), s)).
  { unfold get_totals, bind, get, ret.
    rewrite (filter_nil_when _ (transactions s)); [reflexivity|].
    intros t Ht. destruct (t_user_id t =? uid) eqn:E; [|reflexivity].
    apply Z.eqb_eq in E. cbn [andb]. now apply Hnone. }
  destruct (get_totals_state uid (iso_utc (midnight yd)) s)
    as ([[id ed] nd] & Hd).
  unfold bind at 1. rewrite Hm. unfold bind at 1. rewrite Hd.
  cbn [or_zeros]. unfold bind, lift, ret.
  destruct id, ed, nd; reflexivity.
Qed.

(** X17. One user stops the digest for all: on an hour boundary, if a
    user whose digest hour has come has no transaction from the start of
    the month on, the wake-up raises [TypeError] (the NULL totals cannot
    be formatted) and, nothing catching the exception, the loop of
    [send_daily_digest] ends there: the users after that one in the table
    and all later wake-ups are not served. *)
Theorem digest_stops_on_user_without_rows
    (now yesterday : datetime) (later : list datetime) (u : user) (s : db) :
  minute now = 0 ->
  minus_one_day now = Ok yesterday ->
  In u (users s) ->
  digest_hour_of (u_digest_hour_utc u) = hour now ->
  (forall t, In t (transactions s) -> t_user_id t = u_id u ->
             PyStr.leb (iso_utc (first_of_month now)) (t_ts t) = false) ->
  digest_wakeup now s = (Raise TypeError, s) /\
  send_daily_digest (now :: later) s = (Raise TypeError, s).
Proof.
  intros Hmin Hy Hu Hh Hnone.
  assert (Hw : digest_wakeup now s = (Raise TypeError, s)).
  { unfold digest_wakeup. rewrite Hmin. cbn [Z.eqb negb].
    unfold bind at 1, get.
    apply (mapM_raise _ _ _ _ (u_id u, u_digest_hour_utc u)).
    - intros x s'. apply digest_user_state.
    - intros x _. now apply (digest_user_ok_or_type_error now yesterday).
    - apply in_map_iff. eauto.
    - now apply (digest_user_without_rows now yesterday). }
  split; [exact Hw|].
  unfold send_daily_digest. cbn [mapM]. unfold bind at 1. now rewrite Hw.
Qed.

Lemma digest_stops_on_user_without_rows_witness :
  minute (mkDatetime 2024 7 2 18 0 0 0) = 0 /\
  minus_one_day (mkDatetime 2024 7 2 18 0 0 0)
  = Ok (mkDatetime 2024 7 1 18 0 0 0) /\
  In (mkUser 1 (lit "RUB") (Some 18) (lit "2024-05-10 19:00:00"))
     (users ledger_may_june) /\
  digest_hour_of (Some 18) = hour (mkDatetime 2024 7 2 18 0 0 0) /\
  (forall t, In t (transactions ledger_may_june) -> t_user_id t = 1 ->
             PyStr.leb (iso_utc (first_of_month (mkDatetime 2024 7 2 18 0 0 0)))
                       (t_ts t) = false) /\
  digest_wakeup (mkDatetime 2024 7 2 18 0 0 0) ledger_may_june
  = (Raise TypeError, ledger_may_june) /\
  send_daily_digest [mkDatetime 2024 7 2 18 0 0 0; mkDatetime 2024 7 2 19 0 0 0]
                    ledger_may_june
  = (Raise TypeError, ledger_may_june).
Proof.
  assert (U : In (mkUser 1 (lit "RUB") (Some 18) (lit "2024-05-10 19:00:00"))
                 (users ledger_may_june)) by (vm_compute; left; reflexivity).
  assert (N : forall t, In t (transactions ledger_may_june) -> t_user_id t = 1 ->
                PyStr.leb (iso_utc (first_of_month (mkDatetime 2024 7 2 18 0 0 0)))
                          (t_ts t) = false).
  { intros t Ht _. vm_compute in Ht.
    destruct Ht as [<-|[<-|[]]]; vm_compute; reflexivity. }
  split; [reflexivity|]. split; [reflexivity|]. split; [exact U|].
  split; [reflexivity|]. split; [exact N|].
  exact (digest_stops_on_user_without_rows (mkDatetime 2024 7 2 18 0 0 0)
           (mkDatetime 2024 7 1 18 0 0 0) [mkDatetime 2024 7 2 19 0 0 0]
           (mkUser 1 (lit "RUB") (Some 18) (lit "2024-05-10 19:00:00"))
           ledger_may_june eq_refl eq_refl U eq_refl N).
Defined.
